(** * MetalStock back end: mass calculator, stock allocation and project costs

    A shallow embedding of the core of the MetalStock Pro back end:

    - [MetalMath]: the geometry / mass calculator (volume, weight and the
      inverse length computation);
    - [StockItem], [Product], [Movement], [ProjectMaterial], [Project]: the
      document models with their [pre('save')] hooks and static aggregations;
    - [Controller]: the project controller ([addMaterial], [decrementStock],
      [removeMaterial], [restoreStock], [addLabor], [removeLabor]).

    Numbers.  A JavaScript [Number] is modelled by an exact number: a real
    ([R]) in the calculator, which needs [Math.PI] and [Math.sqrt], and a
    rational ([Q]) everywhere else, where the code only adds, multiplies,
    divides, compares and rounds.  The rounding error of the individual
    IEEE-754 operations is outside the model; [NaN] and the infinities do not
    occur.  [Math.round x] is [floor (x + 1/2)].

    Storage.  The document database is the record [DB.t]: one list of
    documents per collection, in natural (insertion) order.  Every storage
    operation succeeds; the only exceptions are the ones the code raises
    itself and schema validation errors. *)

From Stdlib Require Import List Bool String Ascii ZArith Lia.
From Stdlib Require Import QArith Qround Qminmax Qabs Lqa.
From Stdlib Require Import Reals Lra.
From Stdlib Require Import Sorted Permutation.
From Stdlib Require DecimalString.
Import ListNotations.

(** Outcome of a computation that may [throw]. *)
Inductive result (A : Type) : Type :=
| Ok (a : A)
| Throw (message : string).
Arguments Ok {A} a.
Arguments Throw {A} message.

(* ================================================================= *)
(** ** MetalMath: the physics engine *)

Module MetalMath.
Local Open Scope R_scope.
Local Open Scope string_scope.

(** [Math.round]: the nearest integer, halves towards plus infinity. *)
Definition Math_round (x : R) : R := IZR (Int_part (x + / 2)).

(** Standard material densities (g/cm3): the own properties of the
    object [DENSITIES].  Under a name that every object inherits from
    [Object.prototype] ('constructor', 'toString', ...) the code finds a
    function, not a number, and the weight is [NaN], which the real
    numbers do not have: the statements that go through the table leave
    these names out ([Object_prototype_names] below). *)
Definition DENSITIES (materialType : string) : option R :=
  if String.eqb materialType "steel" then Some (785 / 100)
  else if String.eqb materialType "stainless" then Some (790 / 100)
  else if String.eqb materialType "aluminum" then Some (270 / 100)
  else if String.eqb materialType "brass" then Some (850 / 100)
  else if String.eqb materialType "bronze" then Some (880 / 100)
  else if String.eqb materialType "plastic" then Some (120 / 100)
  else None.

Definition DENSITIES_steel : R := 785 / 100.

Definition mmToCm (mm : R) : R := mm / 10.

Definition volumeRoundBar (diameterMm lengthMm : R) : R :=
  let radiusCm := mmToCm diameterMm / 2 in
  let lengthCm := mmToCm lengthMm in
  PI * radiusCm ^ 2 * lengthCm.

Definition volumeRectangular (widthMm heightMm lengthMm : R) : R :=
  let widthCm := mmToCm widthMm in
  let heightCm := mmToCm heightMm in
  let lengthCm := mmToCm lengthMm in
  widthCm * heightCm * lengthCm.

Definition volumeTube (outerDiameterMm wallThicknessMm lengthMm : R) : R :=
  let outerRadiusCm := mmToCm outerDiameterMm / 2 in
  let innerRadiusCm := outerRadiusCm - mmToCm wallThicknessMm in
  let lengthCm := mmToCm lengthMm in
  let outerArea := PI * outerRadiusCm ^ 2 in
  let innerArea := PI * innerRadiusCm ^ 2 in
  (outerArea - innerArea) * lengthCm.

Definition volumeHex (flatToFlatMm lengthMm : R) : R :=
  let flatToFlatCm := mmToCm flatToFlatMm in
  let lengthCm := mmToCm lengthMm in
  let area := sqrt 3 / 2 * flatToFlatCm ^ 2 in
  area * lengthCm.

Definition calculateWeight (volumeCm3 densityGCm3 : R) : R :=
  let weightKg := volumeCm3 * densityGCm3 / 1000 in
  Math_round (weightKg * 100) / 100.

Definition lengthFromWeight (weightKg diameterMm densityGCm3 : R) : R :=
  let radiusCm := mmToCm diameterMm / 2 in
  let crossSectionAreaCm2 := PI * radiusCm ^ 2 in
  let volumeCm3 := weightKg * 1000 / densityGCm3 in
  let lengthCm := volumeCm3 / crossSectionAreaCm2 in
  Math_round (lengthCm * 10).

(** The [dimensions] object of a product: [d], [w], [h], [wall] in mm. *)
Record Dimensions : Type := { d : R; w : R; h : R; wall : R }.

(** [a || b] on an optional number: [undefined] and [0] are falsy. *)
Definition or_else (a : option R) (b : R) : R :=
  match a with
  | Some x => if Req_dec_T x 0 then b else x
  | None => b
  end.

(** [density || DENSITIES[materialType] || DENSITIES.steel]; an absent
    [materialType] looks up nothing. *)
Definition effectiveDensity (density : option R)
    (materialType : option string) : R :=
  or_else density
    (or_else (match materialType with
              | Some m => DENSITIES m
              | None => None
              end) DENSITIES_steel).

Definition getWeight (shape : string) (dimensions : Dimensions)
    (lengthMm : R) (density : option R) (materialType : option string)
    : result R :=
  let effectiveDensity := effectiveDensity density materialType in
  if String.eqb shape "round" then
    Ok (calculateWeight (volumeRoundBar (d dimensions) lengthMm)
          effectiveDensity)
  else if String.eqb shape "hex" then
    Ok (calculateWeight (volumeHex (d dimensions) lengthMm) effectiveDensity)
  else if String.eqb shape "tube" then
    Ok (calculateWeight
          (volumeTube (d dimensions) (wall dimensions) lengthMm)
          effectiveDensity)
  else if String.eqb shape "plate" || String.eqb shape "box" then
    Ok (calculateWeight
          (volumeRectangular (w dimensions) (h dimensions) lengthMm)
          effectiveDensity)
  else Throw ("Unknown shape: " ++ shape).

Definition weightToMeters (weightKg diameterMm : R) (density : option R) : R :=
  let density := match density with Some x => x | None => DENSITIES_steel end in
  let lengthMm := lengthFromWeight weightKg diameterMm density in
  Math_round (lengthMm / 1000 * 100) / 100.

(** The volume formulas as the specification words them, on lengths that
    are already in centimetres; used to compare [getWeight] with. *)
Definition spec_volume (shape : string) (d_cm w_cm h_cm wall_cm L_cm : R)
    : option R :=
  if String.eqb shape "round" then Some (PI * (d_cm / 2) ^ 2 * L_cm)
  else if String.eqb shape "hex" then Some (sqrt 3 / 2 * d_cm ^ 2 * L_cm)
  else if String.eqb shape "tube" then
    Some (PI * ((d_cm / 2) ^ 2 - (d_cm / 2 - wall_cm) ^ 2) * L_cm)
  else if String.eqb shape "plate" then Some (w_cm * h_cm * L_cm)
  else if String.eqb shape "box" then Some (w_cm * h_cm * L_cm)
  else None.

(** Rounding to two decimal places, as the specification words it. *)
Definition spec_round2 (x : R) : R := IZR (Int_part (x * 100 + / 2)) / 100.

End MetalMath.

(* ================================================================= *)
(** ** Numbers and identifiers of the document models *)

Module Num.
Local Open Scope Q_scope.

(** Truthiness of a number: every number but [0] is truthy. *)
Definition truthy (x : Q) : bool := negb (Qeq_bool x 0).

(** [a || b] on numbers. *)
Definition or_else (a b : Q) : Q := if truthy a then a else b.

Definition ltb (a b : Q) : bool := negb (Qle_bool b a).
Definition leb (a b : Q) : bool := Qle_bool a b.

(** [Math.round x]. *)
Definition Math_round (x : Q) : Q := inject_Z (Qfloor (x + (1 # 2))).

(** [Math.round(x * 100) / 100]. *)
Definition round2 (x : Q) : Q := Math_round (x * 100) / 100.

(** [$sum] over a group. *)
Definition sum (l : list Q) : Q := fold_left Qplus l 0.

End Num.

(** An [ObjectId]. *)
Definition ObjectId : Type := nat.

(** The identifier given to a created document: one not yet in the
    collection. *)
Definition fresh (ids : list ObjectId) : ObjectId := S (fold_right Nat.max O ids).

(** Units accepted by the Movement and ProjectMaterial schemas:
    [enum: \['kg', 'un', 'mm', 'm'\]]. *)
Definition unit_enum (u : string) : bool :=
  (String.eqb u "kg" || String.eqb u "un" || String.eqb u "mm"
   || String.eqb u "m")%bool.

(* ================================================================= *)
(** ** Product: the catalogue *)

Module Product.
Local Open Scope Q_scope.

Record StockConfig : Type :=
  { minStock : Q; safetyStock : Q; unit : string }.

Record Financial : Type := { lastPrice : Q; averagePrice : Q }.

Record t : Type :=
  { _id : ObjectId;
    code : string;
    shape : string;
    density : Q;
    weightPerMeter : Q;
    stockConfig : StockConfig;
    financial : Financial }.

Definition findById (coll : list t) (id : ObjectId) : option t :=
  find (fun p => Nat.eqb (_id p) id) coll.

End Product.

(* ================================================================= *)
(** ** StockItem: the physical inventory *)

Module StockItem.
Local Open Scope Q_scope.

(** [type]: [enum: \['FULL_BAR', 'OFFCUT', 'BOX'\]]. *)
Inductive Kind : Type := FULL_BAR | OFFCUT | BOX.

Definition Kind_name (k : Kind) : string :=
  match k with
  | FULL_BAR => "FULL_BAR"
  | OFFCUT => "OFFCUT"
  | BOX => "BOX"
  end.

Definition Kind_eqb (a b : Kind) : bool :=
  match a, b with
  | FULL_BAR, FULL_BAR | OFFCUT, OFFCUT | BOX, BOX => true
  | _, _ => false
  end.

(** [status]: [enum: \['available', 'reserved', 'consumed'\]]. *)
Inductive Status : Type := available | reserved | consumed.

Definition Status_eqb (a b : Status) : bool :=
  match a, b with
  | available, available | reserved, reserved | consumed, consumed => true
  | _, _ => false
  end.

Record t : Type :=
  { _id : ObjectId;
    product : ObjectId;
    type : Kind;
    quantity : Q;
    lengthMM : Q;
    calculatedWeight : Q;
    status : Status }.

Definition set_quantity (q : Q) (this : t) : t :=
  {| _id := _id this; product := product this; type := type this;
     quantity := q; lengthMM := lengthMM this;
     calculatedWeight := calculatedWeight this; status := status this |}.

Definition set_calculatedWeight (cw : Q) (this : t) : t :=
  {| _id := _id this; product := product this; type := type this;
     quantity := quantity this; lengthMM := lengthMM this;
     calculatedWeight := cw; status := status this |}.

Definition set_status (s : Status) (this : t) : t :=
  {| _id := _id this; product := product this; type := type this;
     quantity := quantity this; lengthMM := lengthMM this;
     calculatedWeight := calculatedWeight this; status := s |}.

(** [methods.calculateWeight]: [populated] is what [populate('product')]
    finds. *)
Definition calculateWeight (populated : option Product.t) (this : t) : t :=
  match populated with
  | Some p =>
      if Num.ltb 0 (Product.weightPerMeter p) then
        let lengthMeters := lengthMM this / 1000 in
        let cw := lengthMeters * Product.weightPerMeter p * quantity this in
        set_calculatedWeight (Num.round2 cw) this
      else this
  | None => this
  end.

(** [pre('save')]: [original] is the stored document, [None] for a new
    one. *)
Definition pre_save (products : list Product.t) (original : option t)
    (this : t) : t :=
  let modified :=
    match original with
    | None => true
    | Some o =>
        (negb (Qeq_bool (quantity o) (quantity this))
         || negb (Qeq_bool (lengthMM o) (lengthMM this)))%bool
    end in
  if modified then
    calculateWeight (Product.findById products (product this)) this
  else this.

(** Writing a document back: it takes the place of the stored document
    with its [_id]. *)
Definition replace (doc : t) (coll : list t) : list t :=
  map (fun x => if Nat.eqb (_id x) (_id doc) then doc else x) coll.

(** [item.save()] on a document loaded as [original].  The validators
    of the schema ([quantity] and [lengthMM] not negative) are not
    modelled: the controller only stores [Math.max(0, ...)] and
    [quantity + 1]. *)
Definition save (products : list Product.t) (original this : t)
    (coll : list t) : list t :=
  replace (pre_save products (Some original) this) coll.

Definition set_id (id : ObjectId) (this : t) : t :=
  {| _id := id; product := product this; type := type this;
     quantity := quantity this; lengthMM := lengthMM this;
     calculatedWeight := calculatedWeight this; status := status this |}.

(** [StockItem.create(doc)]; the schema defaults are filled in by the
    caller. *)
Definition create (products : list Product.t) (doc : t) (coll : list t)
    : t * list t :=
  let doc := set_id (fresh (map _id coll)) doc in
  let doc := pre_save products None doc in
  (doc, coll ++ [doc]).

Record TotalStock : Type :=
  { totalQuantity : Q; totalWeight : Q; totalLength : Q }.

(** [statics.getTotalStock]: the [$match] / [$group] pipeline, and
    [result\[0\] || { ...: 0 }] when no document matches. *)
Definition getTotalStock (coll : list t) (productId : ObjectId) : TotalStock :=
  let matched :=
    filter (fun x => (Nat.eqb (product x) productId
                      && Status_eqb (status x) available)%bool) coll in
  match matched with
  | [] => {| totalQuantity := 0; totalWeight := 0; totalLength := 0 |}
  | _ =>
      {| totalQuantity := Num.sum (map quantity matched);
         totalWeight := Num.sum (map calculatedWeight matched);
         totalLength :=
           Num.sum (map (fun x => quantity x * lengthMM x) matched) |}
  end.

End StockItem.

(* ================================================================= *)
(** ** Movement: the ledger *)

Module Movement.
Local Open Scope Q_scope.

(** [type]: [enum: \['IN', 'OUT', 'CUT', 'ADJUST'\]]. *)
Inductive Kind : Type := IN | OUT | CUT | ADJUST.

Record t : Type :=
  { _id : ObjectId;
    type : Kind;
    product : ObjectId;
    user : ObjectId;
    quantityDelta : Q;
    unit : string;
    projectRef : string;
    costSnapshot : Q;
    totalCost : Q;
    notes : string }.

Definition set_id (id : ObjectId) (this : t) : t :=
  {| _id := id; type := type this; product := product this;
     user := user this; quantityDelta := quantityDelta this;
     unit := unit this; projectRef := projectRef this;
     costSnapshot := costSnapshot this; totalCost := totalCost this;
     notes := notes this |}.

Definition set_totalCost (c : Q) (this : t) : t :=
  {| _id := _id this; type := type this; product := product this;
     user := user this; quantityDelta := quantityDelta this;
     unit := unit this; projectRef := projectRef this;
     costSnapshot := costSnapshot this; totalCost := c;
     notes := notes this |}.

(** [pre('save')]: the total cost of the movement. *)
Definition pre_save (this : t) : t :=
  if (Num.truthy (costSnapshot this) && Num.truthy (quantityDelta this))%bool
  then set_totalCost (Num.round2 (Qabs (quantityDelta this) * costSnapshot this))
         this
  else this.

(** [Movement.create(doc)]: schema validation (only [unit] can fail for
    the documents the controller builds), then the hook, then the insert.
    The text of the validation message is abbreviated. *)
Definition create (doc : t) (coll : list t) : result (t * list t) :=
  if unit_enum (unit doc) then
    let doc := pre_save (set_id (fresh (map _id coll)) doc) in
    Ok (doc, coll ++ [doc])
  else Throw "Movement validation failed: unit".

End Movement.

(* ================================================================= *)
(** ** ProjectMaterial: the materials of a project *)

Module ProjectMaterial.
Local Open Scope Q_scope.

Record t : Type :=
  { _id : ObjectId;
    project : ObjectId;
    product : ObjectId;
    quantity : Q;
    unit : string;
    unitCost : Q;
    totalCost : Q;
    addedBy : ObjectId;
    movement : option ObjectId;
    notes : option string }.

Definition set_id (id : ObjectId) (this : t) : t :=
  {| _id := id; project := project this; product := product this;
     quantity := quantity this; unit := unit this; unitCost := unitCost this;
     totalCost := totalCost this; addedBy := addedBy this;
     movement := movement this; notes := notes this |}.

Definition set_totalCost (c : Q) (this : t) : t :=
  {| _id := _id this; project := project this; product := product this;
     quantity := quantity this; unit := unit this; unitCost := unitCost this;
     totalCost := c; addedBy := addedBy this;
     movement := movement this; notes := notes this |}.

(** [pre('save')]: the line cost. *)
Definition pre_save (this : t) : t :=
  set_totalCost (Num.round2 (quantity this * unitCost this)) this.

(** Schema validation: [quantity] has [min: 0.001], [unitCost] has
    [min: 0], [unit] is an enum and [notes] has [maxlength: 500]; absent
    [notes] are not checked. *)
Definition validate (doc : t) : bool :=
  (Num.leb 0.001 (quantity doc) && Num.leb 0 (unitCost doc)
   && unit_enum (unit doc)
   && match notes doc with
      | Some text => Nat.leb (String.length text) 500
      | None => true
      end)%bool.

(** [ProjectMaterial.create(doc)]; the text of the validation message is
    abbreviated. *)
Definition create (doc : t) (coll : list t) : result (t * list t) :=
  if validate doc then
    let doc := pre_save (set_id (fresh (map _id coll)) doc) in
    Ok (doc, coll ++ [doc])
  else Throw "ProjectMaterial validation failed".

Definition findById (coll : list t) (id : ObjectId) : option t :=
  find (fun x => Nat.eqb (_id x) id) coll.

(** [doc.deleteOne()]. *)
Definition deleteOne (doc : t) (coll : list t) : list t :=
  filter (fun x => negb (Nat.eqb (_id x) (_id doc))) coll.

Record ProjectTotals : Type := { totals_totalCost : Q; materialCount : nat }.

(** [statics.getProjectTotals]: the [$match] / [$group] pipeline, and
    [result\[0\] || { totalCost: 0, materialCount: 0 }]. *)
Definition getProjectTotals (coll : list t) (projectId : ObjectId)
    : ProjectTotals :=
  let matched := filter (fun x => Nat.eqb (project x) projectId) coll in
  match matched with
  | [] => {| totals_totalCost := 0; materialCount := 0 |}
  | _ => {| totals_totalCost := Num.sum (map totalCost matched);
            materialCount := List.length matched |}
  end.

End ProjectMaterial.

(* ================================================================= *)
(** ** Project: the job and its cost aggregate *)

Module Project.
Local Open Scope Q_scope.

(** [status]: [enum: \['draft', 'active', 'completed', 'on_hold',
    'cancelled'\]]. *)
Inductive Status : Type := draft | active | completed | on_hold | cancelled.

Record Costs : Type :=
  { materials : Q; labor : Q; other : Q; total : Q }.

Record LaborEntry : Type :=
  { entry_id : ObjectId;
    worker : string;
    hours : Q;
    hourlyRate : Q;
    description : string;
    totalCost : Q }.

Record OtherCost : Type :=
  { other_description : string; amount : Q }.

Record t : Type :=
  { _id : ObjectId;
    reference : string;
    status : Status;
    budget : Costs;
    costs : Costs;
    laborEntries : list LaborEntry;
    otherCosts : list OtherCost }.

Definition set_totalCost (c : Q) (e : LaborEntry) : LaborEntry :=
  {| entry_id := entry_id e; worker := worker e; hours := hours e;
     hourlyRate := hourlyRate e; description := description e;
     totalCost := c |}.

Definition set_costs (c : Costs) (this : t) : t :=
  {| _id := _id this; reference := reference this; status := status this;
     budget := budget this; costs := c; laborEntries := laborEntries this;
     otherCosts := otherCosts this |}.

Definition set_materials (m : Q) (c : Costs) : Costs :=
  {| materials := m; labor := labor c; other := other c; total := total c |}.

Definition set_laborEntries (l : list LaborEntry) (this : t) : t :=
  {| _id := _id this; reference := reference this; status := status this;
     budget := budget this; costs := costs this; laborEntries := l;
     otherCosts := otherCosts this |}.

(** [pre('save')]: the totals.  The [reduce] over the labour entries also
    stores [hours * hourlyRate] in each entry. *)
Definition pre_save (this : t) : t :=
  let entries :=
    match laborEntries this with
    | [] => []
    | _ => map (fun entry => set_totalCost (hours entry * hourlyRate entry)
                               entry) (laborEntries this)
    end in
  let labor' :=
    match laborEntries this with
    | [] => labor (costs this)
    | _ => fold_left (fun sum entry => sum + hours entry * hourlyRate entry)
             (laborEntries this) 0
    end in
  let other' :=
    match otherCosts this with
    | [] => other (costs this)
    | _ => fold_left (fun sum entry => sum + amount entry)
             (otherCosts this) 0
    end in
  let total' :=
    Num.or_else (materials (costs this)) 0 + Num.or_else labor' 0
    + Num.or_else other' 0 in
  let budget_total :=
    Num.or_else (materials (budget this)) 0
    + Num.or_else (labor (budget this)) 0
    + Num.or_else (other (budget this)) 0 in
  {| _id := _id this; reference := reference this; status := status this;
     budget := {| materials := materials (budget this);
                  labor := labor (budget this);
                  other := other (budget this);
                  total := budget_total |};
     costs := {| materials := materials (costs this); labor := labor';
                 other := other'; total := total' |};
     laborEntries := entries;
     otherCosts := otherCosts this |}.

Definition findById (coll : list t) (id : ObjectId) : option t :=
  find (fun x => Nat.eqb (_id x) id) coll.

(** [project.save()]: the hook, then the document takes the place of the
    stored one. *)
Definition save (this : t) (coll : list t) : list t :=
  let doc := pre_save this in
  map (fun x => if Nat.eqb (_id x) (_id doc) then doc else x) coll.

(** Schema validation of a labour entry: [worker] is required, [hours] and
    [hourlyRate] have [min: 0]. *)
Definition validate_entry (e : LaborEntry) : bool :=
  (negb (String.eqb (worker e) "") && Num.leb 0 (hours e)
   && Num.leb 0 (hourlyRate e))%bool.

End Project.

(* ================================================================= *)
(** ** The database *)

Module DB.

Record t : Type :=
  { projects : list Project.t;
    products : list Product.t;
    stockItems : list StockItem.t;
    movements : list Movement.t;
    projectMaterials : list ProjectMaterial.t }.

Definition set_projects (l : list Project.t) (db : t) : t :=
  {| projects := l; products := products db; stockItems := stockItems db;
     movements := movements db; projectMaterials := projectMaterials db |}.

Definition set_stockItems (l : list StockItem.t) (db : t) : t :=
  {| projects := projects db; products := products db; stockItems := l;
     movements := movements db; projectMaterials := projectMaterials db |}.

Definition set_movements (l : list Movement.t) (db : t) : t :=
  {| projects := projects db; products := products db;
     stockItems := stockItems db; movements := l;
     projectMaterials := projectMaterials db |}.

Definition set_projectMaterials (l : list ProjectMaterial.t) (db : t) : t :=
  {| projects := projects db; products := products db;
     stockItems := stockItems db; movements := movements db;
     projectMaterials := l |}.

End DB.

(* ================================================================= *)
(** ** The project controller *)

Module Controller.
Local Open Scope Q_scope.
Local Open Scope string_scope.

Inductive Data : Type :=
| MaterialData (projectMaterial : ProjectMaterial.t)
| LaborData (entry : option Project.LaborEntry).

(** The JSON answers of the handlers, by kind:
    - [ProjectNotFound]: 404, 'Obra não encontrada';
    - [ProjectClosed]: 400, 'Não é possível adicionar materiais a uma obra
      concluída ou cancelada' and its siblings for labour and removal;
    - [ProductNotFound]: 404, 'Produto não encontrado';
    - [InsufficientStock]: 400, 'Stock insuficiente. Disponível: ...',
      with the field [availableStock];
    - [MaterialNotFound]: 404, 'Material não encontrado nesta obra';
    - [LaborNotFound]: 404, 'Entrada de mão de obra não encontrada';
    - [Created]: 201 with [data];
    - [Success]: 200;
    - [ServerError]: 500, from the [catch] block. *)
Inductive Response : Type :=
| ProjectNotFound
| ProjectClosed
| ProductNotFound
| InsufficientStock (availableStock : Q)
| MaterialNotFound
| LaborNotFound
| Created (data : Data)
| Success
| ServerError (message : string).


(** The field [success] of the answer. *)
Definition success (r : Response) : bool :=
  match r with
  | Created _ | Success => true
  | _ => false
  end.

(** [\['completed', 'cancelled'\].includes(project.status)]. *)
Definition completed_or_cancelled (s : Project.Status) : bool :=
  match s with
  | Project.completed | Project.cancelled => true
  | _ => false
  end.

(** [project.status === 'completed']. *)
Definition is_completed (s : Project.Status) : bool :=
  match s with
  | Project.completed => true
  | _ => false
  end.

(** [a || b] on an optional string: [undefined] and [''] are falsy. *)
Definition str_or_else (a : option string) (b : string) : string :=
  match a with
  | Some s => if String.eqb s "" then b else s
  | None => b
  end.

(** *** decrementStock *)

(** The order of [.sort({ type: -1, calculatedWeight: 1 })]: [type]
    descending as a string, then [calculatedWeight] ascending. *)
Definition precedes (a b : StockItem.t) : bool :=
  match String.compare (StockItem.Kind_name (StockItem.type a))
                       (StockItem.Kind_name (StockItem.type b)) with
  | Gt => true
  | Lt => false
  | Eq => Num.leb (StockItem.calculatedWeight a) (StockItem.calculatedWeight b)
  end.

Fixpoint insert (x : StockItem.t) (l : list StockItem.t) : list StockItem.t :=
  match l with
  | [] => [x]
  | y :: l' => if precedes x y then x :: y :: l' else y :: insert x l'
  end.

(** The sort keeps documents with equal keys in natural order. *)
Definition sort (l : list StockItem.t) : list StockItem.t :=
  fold_right insert [] l.

(** The filter [{ product: productId, status: 'available',
    quantity: { $gt: 0 } }]. *)
Definition is_candidate (productId : ObjectId) (x : StockItem.t) : bool :=
  (Nat.eqb (StockItem.product x) productId
   && StockItem.Status_eqb (StockItem.status x) StockItem.available
   && Num.ltb 0 (StockItem.quantity x))%bool.

(** The query of [decrementStock]: the array [stockItems]. *)
Definition candidates (coll : list StockItem.t) (productId : ObjectId)
    : list StockItem.t :=
  sort (filter (is_candidate productId) coll).

(** [item.calculatedWeight || item.quantity]. *)
Definition itemStock (item : StockItem.t) : Q :=
  Num.or_else (StockItem.calculatedWeight item) (StockItem.quantity item).

(** [Math.min(remaining, itemStock)]. *)
Definition toDeduct (remaining : Q) (item : StockItem.t) : Q :=
  Qmin remaining (itemStock item).

(** The body of the loop on one lot, up to the status change: the lot as
    it is handed to [save]. *)
Definition deduct (remaining : Q) (item : StockItem.t) : StockItem.t :=
  let toDeduct := toDeduct remaining item in
  let item1 :=
    if Num.truthy (StockItem.calculatedWeight item) then
      let ratio := toDeduct / StockItem.calculatedWeight item in
      let item' :=
        StockItem.set_quantity
          (Qmax 0 (StockItem.quantity item - StockItem.quantity item * ratio))
          item in
      StockItem.set_calculatedWeight
        (Qmax 0 (StockItem.calculatedWeight item' - toDeduct)) item'
    else
      StockItem.set_quantity (Qmax 0 (StockItem.quantity item - toDeduct))
        item in
  if Num.leb (StockItem.quantity item1) 0
  then StockItem.set_status StockItem.consumed item1
  else item1.

(** The loop over [stockItems]; [coll] is the stored collection. *)
Fixpoint decrementLoop (products : list Product.t)
    (stockItems : list StockItem.t) (remaining : Q) (coll : list StockItem.t)
    : Q * list StockItem.t :=
  match stockItems with
  | [] => (remaining, coll)
  | item :: rest =>
      if Num.leb remaining 0 then (remaining, coll)
      else
        let coll' := StockItem.save products item (deduct remaining item) coll in
        decrementLoop products rest (remaining - toDeduct remaining item) coll'
  end.

Definition decrementStock (db : DB.t) (productId : ObjectId) (quantity : Q)
    : bool * DB.t :=
  let stockItems := candidates (DB.stockItems db) productId in
  let '(remaining, coll) :=
    decrementLoop (DB.products db) stockItems quantity (DB.stockItems db) in
  (Num.leb remaining 0, DB.set_stockItems coll db).

(** *** addMaterial *)

Record AddMaterialRequest : Type :=
  { am_params_id : ObjectId;
    am_user : ObjectId;
    productId : ObjectId;
    quantity : Q;
    unit : option string;
    notes : option string }.

Definition availableStock (coll : list StockItem.t) (productId : ObjectId)
    : Q :=
  let stockData := StockItem.getTotalStock coll productId in
  Num.or_else
    (Num.or_else (StockItem.totalWeight stockData)
       (StockItem.totalQuantity stockData)) 0.

Definition addMaterial (db : DB.t) (req : AddMaterialRequest)
    : Response * DB.t :=
  match Project.findById (DB.projects db) (am_params_id req) with
  | None => (ProjectNotFound, db)
  | Some project =>
  if completed_or_cancelled (Project.status project) then (ProjectClosed, db)
  else
  match Product.findById (DB.products db) (productId req) with
  | None => (ProductNotFound, db)
  | Some product =>
  let availableStock :=
    availableStock (DB.stockItems db) (Product._id product) in
  let quantityInUnit := quantity req in
  if Num.ltb (availableStock * 1.05) quantityInUnit
  then (InsufficientStock availableStock, db)
  else
  let unitCost :=
    Num.or_else
      (Num.or_else (Product.lastPrice (Product.financial product))
         (Product.averagePrice (Product.financial product))) 0 in
  let unit' :=
    str_or_else (unit req) (Product.unit (Product.stockConfig product)) in
  match
    Movement.create
      {| Movement._id := O;
         Movement.type := Movement.OUT;
         Movement.product := Product._id product;
         Movement.user := am_user req;
         Movement.quantityDelta := - quantity req;
         Movement.unit := unit';
         Movement.projectRef := Project.reference project;
         Movement.costSnapshot := unitCost;
         Movement.totalCost := 0;
         Movement.notes := "Material para obra " ++ Project.reference project |}
      (DB.movements db)
  with
  | Throw message => (ServerError message, db)
  | Ok (movement, movements') =>
  let db := DB.set_movements movements' db in
  let '(_, db) := decrementStock db (Product._id product) (quantity req) in
  match
    ProjectMaterial.create
      {| ProjectMaterial._id := O;
         ProjectMaterial.project := Project._id project;
         ProjectMaterial.product := Product._id product;
         ProjectMaterial.quantity := quantity req;
         ProjectMaterial.unit := unit';
         ProjectMaterial.unitCost := unitCost;
         ProjectMaterial.totalCost := 0;
         ProjectMaterial.addedBy := am_user req;
         ProjectMaterial.movement := Some (Movement._id movement);
         ProjectMaterial.notes := notes req |}
      (DB.projectMaterials db)
  with
  | Throw message => (ServerError message, db)
  | Ok (projectMaterial, projectMaterials') =>
  let db := DB.set_projectMaterials projectMaterials' db in
  let materialTotals :=
    ProjectMaterial.getProjectTotals (DB.projectMaterials db)
      (Project._id project) in
  let project :=
    Project.set_costs
      (Project.set_materials (ProjectMaterial.totals_totalCost materialTotals)
         (Project.costs project)) project in
  let db := DB.set_projects (Project.save project (DB.projects db)) db in
  (Created (MaterialData projectMaterial), db)
  end end end end.

(** *** restoreStock and removeMaterial *)

(** The filter [{ product: productId, status: 'available',
    type: 'FULL_BAR' }]. *)
Definition is_available_full_bar (productId : ObjectId) (x : StockItem.t)
    : bool :=
  (Nat.eqb (StockItem.product x) productId
   && StockItem.Status_eqb (StockItem.status x) StockItem.available
   && StockItem.Kind_eqb (StockItem.type x) StockItem.FULL_BAR)%bool.

(** [restoreStock(productId, quantity)].  A created lot takes the schema
    defaults [lengthMM: 6000] and [calculatedWeight: 0]. *)
Definition restoreStock (db : DB.t) (productId : ObjectId) (quantity : Q)
    : StockItem.t * DB.t :=
  match find (is_available_full_bar productId) (DB.stockItems db) with
  | Some found =>
      let stockItem :=
        StockItem.set_quantity (StockItem.quantity found + 1) found in
      let stockItem :=
        StockItem.calculateWeight
          (Product.findById (DB.products db) (StockItem.product stockItem))
          stockItem in
      let saved := StockItem.pre_save (DB.products db) (Some found) stockItem in
      (saved,
       DB.set_stockItems
         (StockItem.save (DB.products db) found stockItem (DB.stockItems db))
         db)
  | None =>
      let '(stockItem, coll) :=
        StockItem.create (DB.products db)
          {| StockItem._id := O;
             StockItem.product := productId;
             StockItem.type := StockItem.FULL_BAR;
             StockItem.quantity := 1;
             StockItem.lengthMM := 6000;
             StockItem.calculatedWeight := 0;
             StockItem.status := StockItem.available |}
          (DB.stockItems db) in
      (stockItem, DB.set_stockItems coll db)
  end.

Record RemoveMaterialRequest : Type :=
  { rm_params_id : ObjectId;
    rm_params_materialId : ObjectId;
    rm_user : ObjectId }.

Definition removeMaterial (db : DB.t) (req : RemoveMaterialRequest)
    : Response * DB.t :=
  let id := rm_params_id req in
  match Project.findById (DB.projects db) id with
  | None => (ProjectNotFound, db)
  | Some project =>
  if is_completed (Project.status project) then (ProjectClosed, db)
  else
  match
    ProjectMaterial.findById (DB.projectMaterials db) (rm_params_materialId req)
  with
  | None => (MaterialNotFound, db)
  | Some projectMaterial =>
  if negb (Nat.eqb (ProjectMaterial.project projectMaterial) id)
  then (MaterialNotFound, db)
  else
  match
    Movement.create
      {| Movement._id := O;
         Movement.type := Movement.IN;
         Movement.product := ProjectMaterial.product projectMaterial;
         Movement.user := rm_user req;
         Movement.quantityDelta := ProjectMaterial.quantity projectMaterial;
         Movement.unit := ProjectMaterial.unit projectMaterial;
         Movement.projectRef := "";
         Movement.costSnapshot := ProjectMaterial.unitCost projectMaterial;
         Movement.totalCost := 0;
         Movement.notes :=
           "Devolução de material da obra " ++ Project.reference project |}
      (DB.movements db)
  with
  | Throw _ => (ServerError "Erro ao remover material", db)
  | Ok (_, movements') =>
  let db := DB.set_movements movements' db in
  let '(_, db) :=
    restoreStock db (ProjectMaterial.product projectMaterial)
      (ProjectMaterial.quantity projectMaterial) in
  let db :=
    DB.set_projectMaterials
      (ProjectMaterial.deleteOne projectMaterial (DB.projectMaterials db)) db in
  let materialTotals :=
    ProjectMaterial.getProjectTotals (DB.projectMaterials db)
      (Project._id project) in
  let project :=
    Project.set_costs
      (Project.set_materials (ProjectMaterial.totals_totalCost materialTotals)
         (Project.costs project)) project in
  let db := DB.set_projects (Project.save project (DB.projects db)) db in
  (Success, db)
  end end end.

(** *** addLabor and removeLabor *)

Record AddLaborRequest : Type :=
  { al_params_id : ObjectId;
    worker : string;
    hours : Q;
    hourlyRate : Q;
    description : option string }.

Definition addLabor (db : DB.t) (req : AddLaborRequest) : Response * DB.t :=
  match Project.findById (DB.projects db) (al_params_id req) with
  | None => (ProjectNotFound, db)
  | Some project =>
  if completed_or_cancelled (Project.status project) then (ProjectClosed, db)
  else
  let totalCost := hours req * hourlyRate req in
  let entry :=
    {| Project.entry_id :=
         fresh (map Project.entry_id (Project.laborEntries project));
       Project.worker := worker req;
       Project.hours := hours req;
       Project.hourlyRate := hourlyRate req;
       Project.description := str_or_else (description req) "";
       Project.totalCost := totalCost |} in
  let project :=
    Project.set_laborEntries (Project.laborEntries project ++ [entry])
      project in
  if Project.validate_entry entry then
    let db := DB.set_projects (Project.save project (DB.projects db)) db in
    (Created
       (LaborData (last (map Some (Project.laborEntries
                                     (Project.pre_save project))) None)),
     db)
  else (ServerError "Erro ao adicionar mão de obra", db)
  end.

Record RemoveLaborRequest : Type :=
  { rl_params_id : ObjectId;
    rl_params_entryId : ObjectId }.

(** [findIndex]: the index of the first element that satisfies [f]. *)
Fixpoint findIndex {A : Type} (f : A -> bool) (l : list A) : option nat :=
  match l with
  | [] => None
  | x :: l' =>
      if f x then Some O
      else match findIndex f l' with
           | Some i => Some (S i)
           | None => None
           end
  end.

(** [l.splice(i, 1)]: what is left in [l]. *)
Definition splice1 {A : Type} (i : nat) (l : list A) : list A :=
  firstn i l ++ skipn (S i) l.

Definition removeLabor (db : DB.t) (req : RemoveLaborRequest)
    : Response * DB.t :=
  match Project.findById (DB.projects db) (rl_params_id req) with
  | None => (ProjectNotFound, db)
  | Some project =>
  match
    findIndex (fun e => Nat.eqb (Project.entry_id e) (rl_params_entryId req))
      (Project.laborEntries project)
  with
  | None => (LaborNotFound, db)
  | Some entryIndex =>
  let project :=
    Project.set_laborEntries
      (splice1 entryIndex (Project.laborEntries project)) project in
  let db := DB.set_projects (Project.save project (DB.projects db)) db in
  (Success, db)
  end end.

End Controller.

(* ================================================================= *)
(** ** Definitions used by the statements *)

(** The rank of a kind in the descending order of the names:
    'OFFCUT' > 'FULL_BAR' > 'BOX'. *)
Definition rank (k : StockItem.Kind) : nat :=
  match k with
  | StockItem.OFFCUT => 2
  | StockItem.FULL_BAR => 1
  | StockItem.BOX => 0
  end.

(** The size of a lot as the specification words it, the quantity the
    lot has available: its derived weight, or its count when it has no
    weight. *)
Definition spec_size (x : StockItem.t) : Q :=
  if Qeq_bool (StockItem.calculatedWeight x) 0
  then StockItem.quantity x
  else StockItem.calculatedWeight x.

(** The order of the visit as the specification words it: offcuts before
    full bars and boxes, and within one kind the smaller lot first. *)
Definition spec_visited_before (a b : StockItem.t) : Prop :=
  (StockItem.type b = StockItem.OFFCUT -> StockItem.type a = StockItem.OFFCUT)
  /\ (StockItem.type a = StockItem.type b -> (spec_size a <= spec_size b)%Q).

(** The order of the visit by kind and weight: offcuts, then full bars,
    then boxes, and within one kind the lighter lot first. *)
Definition weight_visited_before (a b : StockItem.t) : Prop :=
  (rank (StockItem.type b) < rank (StockItem.type a))%nat
  \/ (StockItem.type a = StockItem.type b
      /\ (StockItem.calculatedWeight a <= StockItem.calculatedWeight b)%Q).

(** Notes of at most [n] characters, or none. *)
Definition notes_at_most (n : nat) (notes : option string) : Prop :=
  match notes with
  | Some text => (String.length text <= n)%nat
  | None => True
  end.

(** The property names that every object inherits from
    [Object.prototype]. *)
Definition Object_prototype_names : list string :=
  ["constructor"; "hasOwnProperty"; "isPrototypeOf"; "propertyIsEnumerable";
   "toLocaleString"; "toString"; "valueOf"; "__defineGetter__";
   "__defineSetter__"; "__lookupGetter__"; "__lookupSetter__";
   "__proto__"]%string.

(** The lots that are not consumed. *)
Definition not_consumed (x : StockItem.t) : bool :=
  negb (StockItem.Status_eqb (StockItem.status x) StockItem.consumed).

(* ================================================================= *)
(** ** Scenarios *)

Module Scenario.
Local Open Scope Q_scope.
Local Open Scope string_scope.

(** A steel bar sold by weight. *)
Definition steel : Product.t :=
  {| Product._id := 1%nat;
     Product.code := "AC4R050";
     Product.shape := "round";
     Product.density := 7.85;
     Product.weightPerMeter := 0;
     Product.stockConfig :=
       {| Product.minStock := 0; Product.safetyStock := 0;
          Product.unit := "kg" |};
     Product.financial :=
       {| Product.lastPrice := 2.5; Product.averagePrice := 0 |} |}.

Definition lot (id : ObjectId) (kind : StockItem.Kind) (quantity weight : Q)
    : StockItem.t :=
  {| StockItem._id := id;
     StockItem.product := 1%nat;
     StockItem.type := kind;
     StockItem.quantity := quantity;
     StockItem.lengthMM := 6000;
     StockItem.calculatedWeight := weight;
     StockItem.status := StockItem.available |}.

Definition zero_costs : Project.Costs :=
  {| Project.materials := 0; Project.labor := 0; Project.other := 0;
     Project.total := 0 |}.

Definition job (status : Project.Status) (costs : Project.Costs)
    (laborEntries : list Project.LaborEntry) : Project.t :=
  {| Project._id := 7%nat;
     Project.reference := "OBR-2025-001";
     Project.status := status;
     Project.budget := zero_costs;
     Project.costs := costs;
     Project.laborEntries := laborEntries;
     Project.otherCosts := [] |}.

Definition db (project : Project.t) (stockItems : list StockItem.t) : DB.t :=
  {| DB.projects := [project];
     DB.products := [steel];
     DB.stockItems := stockItems;
     DB.movements := [];
     DB.projectMaterials := [] |}.

Definition request (quantity : Q) : Controller.AddMaterialRequest :=
  {| Controller.am_params_id := 7%nat;
     Controller.am_user := 3%nat;
     Controller.productId := 1%nat;
     Controller.quantity := quantity;
     Controller.unit := None;
     Controller.notes := None |}.

(** One full bar and one offcut, the full bar stored first. *)
Definition bar_and_offcut : list StockItem.t :=
  [lot 1%nat StockItem.FULL_BAR 1 10; lot 2%nat StockItem.OFFCUT 1 2].

(** The offcut once it is used up. *)
Definition used_offcut : StockItem.t :=
  StockItem.set_status StockItem.consumed (lot 2%nat StockItem.OFFCUT 0 0).

End Scenario.

Module ScenarioSizes.
Local Open Scope Q_scope.

(** A loose lot of 10 offcuts without a weight. *)
Definition loose : StockItem.t := Scenario.lot 1%nat StockItem.OFFCUT 10 0.

(** One offcut of weight 5. *)
Definition piece : StockItem.t := Scenario.lot 2%nat StockItem.OFFCUT 1 5.

(** The offcut of weight 5 is stored first. *)
Definition lots : list StockItem.t := [piece; loose].

(** Two offcut lots without a weight, of 10 pieces and of 2, the greater
    stored first. *)
Definition counted : list StockItem.t :=
  [Scenario.lot 1%nat StockItem.OFFCUT 10 0;
   Scenario.lot 2%nat StockItem.OFFCUT 2 0].

(** A rod that weighs 1 kg per metre. *)
Definition rod : Product.t :=
  {| Product._id := 1%nat;
     Product.code := "AC4R012"%string;
     Product.shape := "round"%string;
     Product.density := 7.85;
     Product.weightPerMeter := 1;
     Product.stockConfig :=
       {| Product.minStock := 0; Product.safetyStock := 0;
          Product.unit := "kg"%string |};
     Product.financial :=
       {| Product.lastPrice := 2.5; Product.averagePrice := 0 |} |}.

(** Two rods of 6 m, stored with the weight 9 they had when the product
    weighed 0.75 kg per metre. *)
Definition rods : DB.t :=
  {| DB.projects := [Scenario.job Project.active Scenario.zero_costs []];
     DB.products := [rod];
     DB.stockItems := [Scenario.lot 3%nat StockItem.FULL_BAR 2 9];
     DB.movements := [];
     DB.projectMaterials := [] |}.

End ScenarioSizes.

Module ScenarioCosts.
Local Open Scope Q_scope.
Local Open Scope string_scope.

(** Two hours at 10 an hour. *)
Definition shift : Project.LaborEntry :=
  {| Project.entry_id := 1%nat;
     Project.worker := "Rui";
     Project.hours := 2;
     Project.hourlyRate := 10;
     Project.description := "";
     Project.totalCost := 20 |}.

Definition labor_costs : Project.Costs :=
  {| Project.materials := 0; Project.labor := 20; Project.other := 0;
     Project.total := 20 |}.

Definition remove_shift : Controller.RemoveLaborRequest :=
  {| Controller.rl_params_id := 7%nat; Controller.rl_params_entryId := 1%nat |}.

(** The live sum of the labour entries of a project. *)
Definition live_labor (project : Project.t) : Q :=
  Num.sum (map (fun e => Project.hours e * Project.hourlyRate e)
             (Project.laborEntries project)).

End ScenarioCosts.

(* ================================================================= *)
(** ** Dimensions that describe a solid *)

(** Lengths that are not negative, and a wall no thicker than the outer
    radius: what the volume formulas take for granted. *)
Definition solid_dimensions (dimensions : MetalMath.Dimensions) : Prop :=
  (0 <= MetalMath.d dimensions)%R /\ (0 <= MetalMath.w dimensions)%R
  /\ (0 <= MetalMath.h dimensions)%R
  /\ (0 <= MetalMath.wall dimensions)%R
  /\ (2 * MetalMath.wall dimensions <= MetalMath.d dimensions)%R.

(** The shapes [getWeight] knows. *)
Definition supported_shape (shape : string) : Prop :=
  In shape ["round"; "hex"; "tube"; "plate"; "box"]%string.

(* ================================================================= *)
(** ** Further queries of the models *)

Module MovementQueries.
Local Open Scope Q_scope.

Definition is_OUT (k : Movement.Kind) : bool :=
  match k with
  | Movement.OUT => true
  | _ => false
  end.

Record ProjectCost : Type := { cost_totalCost : Q; totalMovements : nat }.

(** [Movement.getProjectCost(projectRef)]: the [$match] on
    [{ projectRef, type: 'OUT' }], the [$group], and
    [result\[0\] || { totalCost: 0, totalMovements: 0 }]. *)
Definition getProjectCost (coll : list Movement.t) (projectRef : string)
    : ProjectCost :=
  let matched :=
    filter (fun m => (String.eqb (Movement.projectRef m) projectRef
                      && is_OUT (Movement.type m))%bool) coll in
  match matched with
  | [] => {| cost_totalCost := 0; totalMovements := 0 |}
  | _ => {| cost_totalCost := Num.sum (map Movement.totalCost matched);
            totalMovements := List.length matched |}
  end.

End MovementQueries.

Module StockItemQueries.
Local Open Scope Q_scope.

(** The order of [.sort({ lengthMM: 1 })]. *)
Definition shorter (a b : StockItem.t) : bool :=
  Num.leb (StockItem.lengthMM a) (StockItem.lengthMM b).

Fixpoint insert (x : StockItem.t) (l : list StockItem.t) : list StockItem.t :=
  match l with
  | [] => [x]
  | y :: l' => if shorter x y then x :: y :: l' else y :: insert x l'
  end.

Definition sort (l : list StockItem.t) : list StockItem.t :=
  fold_right insert [] l.

(** The filter [{ product: productId, type: 'OFFCUT', status: 'available',
    lengthMM: { $gte: minLengthMM } }]. *)
Definition fits (productId : ObjectId) (minLengthMM : Q) (x : StockItem.t)
    : bool :=
  (Nat.eqb (StockItem.product x) productId
   && StockItem.Kind_eqb (StockItem.type x) StockItem.OFFCUT
   && StockItem.Status_eqb (StockItem.status x) StockItem.available
   && Num.leb minLengthMM (StockItem.lengthMM x))%bool.

(** [StockItem.findOffcuts(productId, minLengthMM)]. *)
Definition findOffcuts (coll : list StockItem.t) (productId : ObjectId)
    (minLengthMM : Q) : list StockItem.t :=
  sort (filter (fits productId minLengthMM) coll).

End StockItemQueries.

(** The lots of the other products. *)
Definition other_product (productId : ObjectId) (x : StockItem.t) : bool :=
  negb (Nat.eqb (StockItem.product x) productId).

(* ================================================================= *)
(** ** Further scenarios *)

Module ScenarioUnits.
Local Open Scope Q_scope.
Local Open Scope string_scope.

(** A product measured in litres, as the Product schema allows. *)
Definition coolant : Product.t :=
  {| Product._id := 2%nat;
     Product.code := "OLEO01";
     Product.shape := "other";
     Product.density := 1;
     Product.weightPerMeter := 0;
     Product.stockConfig :=
       {| Product.minStock := 0; Product.safetyStock := 0;
          Product.unit := "lt" |};
     Product.financial :=
       {| Product.lastPrice := 4; Product.averagePrice := 0 |} |}.

Definition can : StockItem.t :=
  {| StockItem._id := 1%nat;
     StockItem.product := 2%nat;
     StockItem.type := StockItem.BOX;
     StockItem.quantity := 10;
     StockItem.lengthMM := 0;
     StockItem.calculatedWeight := 0;
     StockItem.status := StockItem.available |}.

Definition db : DB.t :=
  {| DB.projects := [Scenario.job Project.active Scenario.zero_costs []];
     DB.products := [coolant];
     DB.stockItems := [can];
     DB.movements := [];
     DB.projectMaterials := [] |}.

Definition request : Controller.AddMaterialRequest :=
  {| Controller.am_params_id := 7%nat;
     Controller.am_user := 3%nat;
     Controller.productId := 2%nat;
     Controller.quantity := 3;
     Controller.unit := None;
     Controller.notes := None |}.

End ScenarioUnits.

Module ScenarioShortfall.
Local Open Scope Q_scope.
Local Open Scope string_scope.



(** One bar of 10 kg. *)
Definition db : DB.t :=
  Scenario.db (Scenario.job Project.active Scenario.zero_costs [])
    [Scenario.lot 1%nat StockItem.FULL_BAR 1 10].


End ScenarioShortfall.

Module ScenarioRemove.
Local Open Scope Q_scope.
Local Open Scope string_scope.

(** The database after 4 kg were added to the job from a lot of 10. *)
Definition after_add : DB.t :=
  snd (Controller.addMaterial
         (Scenario.db (Scenario.job Project.active Scenario.zero_costs [])
            [Scenario.lot 1%nat StockItem.FULL_BAR 1 10])
         (Scenario.request 4)).

Definition remove_request : Controller.RemoveMaterialRequest :=
  {| Controller.rm_params_id := 7%nat;
     Controller.rm_params_materialId := 1%nat;
     Controller.rm_user := 3%nat |}.

(** A shift of three hours at 12 an hour. *)
Definition labor_request : Controller.AddLaborRequest :=
  {| Controller.al_params_id := 7%nat;
     Controller.worker := "Ana";
     Controller.hours := 3;
     Controller.hourlyRate := 12;
     Controller.description := None |}.

(** A second shift, stored after [ScenarioCosts.shift]. *)
Definition second_shift : Project.LaborEntry :=
  {| Project.entry_id := 2%nat;
     Project.worker := "Ana";
     Project.hours := 3;
     Project.hourlyRate := 12;
     Project.description := "";
     Project.totalCost := 36 |}.

End ScenarioRemove.

(* ================================================================= *)
(** ** The project controller: deleting a project *)

Module ProjectAdmin.

(** The answers of [deleteProject]:
    - [DeleteNotFound]: 404, 'Obra não encontrada';
    - [HasMaterials]: 400, 'Não é possível eliminar. Existem N materiais
      associados. Remova os materiais primeiro.';
    - [Deleted]: 200, 'Obra eliminada com sucesso'. *)
Inductive Response : Type :=
| DeleteNotFound
| HasMaterials (materialsCount : nat)
| Deleted.

(** [ProjectMaterial.countDocuments({ project: id })]. *)
Definition countDocuments (coll : list ProjectMaterial.t)
    (projectId : ObjectId) : nat :=
  List.length
    (filter (fun x => Nat.eqb (ProjectMaterial.project x) projectId) coll).

(** [project.deleteOne()]. *)
Definition deleteOne (doc : Project.t) (coll : list Project.t)
    : list Project.t :=
  filter (fun x => negb (Nat.eqb (Project._id x) (Project._id doc))) coll.

Definition deleteProject (db : DB.t) (params_id : ObjectId)
    : Response * DB.t :=
  match Project.findById (DB.projects db) params_id with
  | None => (DeleteNotFound, db)
  | Some project =>
      let materialsCount :=
        countDocuments (DB.projectMaterials db) (Project._id project) in
      if Nat.ltb 0 materialsCount then (HasMaterials materialsCount, db)
      else (Deleted, DB.set_projects (deleteOne project (DB.projects db)) db)
  end.

End ProjectAdmin.

(* ================================================================= *)
(** ** The stock alert service *)

(** A string of this service is the list of its UTF-16 code units, for
    text within Latin-1: the letter i with an acute accent is the single
    character of code 237.  The clock is read once: a run of
    [checkStockLevels] is taken to happen at the instant [now], in
    milliseconds. *)
Module StockAlert.
Local Open Scope Q_scope.
Local Open Scope string_scope.

(** The fields of a product document that the service reads. *)
Record ProductDoc : Type :=
  { _id : ObjectId;
    code : string;
    description : string;
    materialType : string;
    active : bool;
    stockConfig : Product.StockConfig }.

(** [type] of a notification: [enum: \['STOCK_CRITICAL', 'STOCK_WARNING',
    'MOVEMENT', 'SYSTEM'\]]. *)
Inductive NotificationType : Type :=
  STOCK_CRITICAL | STOCK_WARNING | MOVEMENT | SYSTEM.

Definition NotificationType_eqb (a b : NotificationType) : bool :=
  match a, b with
  | STOCK_CRITICAL, STOCK_CRITICAL | STOCK_WARNING, STOCK_WARNING
  | MOVEMENT, MOVEMENT | SYSTEM, SYSTEM => true
  | _, _ => false
  end.

(** [priority]: [enum: \['low', 'medium', 'high'\]]. *)
Inductive Priority : Type := low | medium | high.

Record Notification : Type :=
  { notification_id : ObjectId;
    user : option ObjectId;
    type : NotificationType;
    title : string;
    message : string;
    read : bool;
    relatedProduct : option ObjectId;
    priority : Priority;
    createdAt : Z }.

(** [alertType]: the callers pass 'critical' or 'warning'. *)
Inductive AlertType : Type := critical | warning.

Definition i_acute : ascii := "237"%char.

(** [Notification.create(data)] inside the [try] of [createNotification]:
    [title] and [message] are required and have a [maxlength]; on a
    validation error the [catch] returns [null] and nothing is stored. *)
Definition createNotification (now : Z) (data : Notification)
    (coll : list Notification) : option Notification * list Notification :=
  if (negb (String.eqb (title data) "")
      && Nat.leb (String.length (title data)) 100
      && negb (String.eqb (message data) "")
      && Nat.leb (String.length (message data)) 500)%bool
  then
    let notification :=
      {| notification_id := fresh (map notification_id coll);
         user := user data; type := type data; title := title data;
         message := message data; read := read data;
         relatedProduct := relatedProduct data; priority := priority data;
         createdAt := now |} in
    (Some notification, (coll ++ [notification])%list)
  else (None, coll).

Definition createStockAlert (now : Z) (product : ProductDoc)
    (alertType : AlertType) (coll : list Notification)
    : option Notification * list Notification :=
  let type := match alertType with
              | critical => STOCK_CRITICAL
              | warning => STOCK_WARNING
              end in
  let priority := match alertType with
                  | critical => high
                  | warning => medium
                  end in
  let title := match alertType with
               | critical => "Stock Cr" ++ String i_acute "tico"
               | warning => "Stock Baixo"
               end in
  let message :=
    code product ++ " - " ++ description product ++ " atingiu n"
    ++ String i_acute "vel "
    ++ match alertType with
       | critical => "cr" ++ String i_acute "tico"
       | warning => "de alerta"
       end in
  createNotification now
    {| notification_id := O; user := None; type := type; title := title;
       message := message; read := false;
       relatedProduct := Some (_id product); priority := priority;
       createdAt := now |}
    coll.

(** [checkRecentAlert(productId, type)]: an alert of the type for the
    product that is at most 24 hours old. *)
Definition checkRecentAlert (now : Z) (coll : list Notification)
    (productId : ObjectId) (type' : NotificationType) : option Notification :=
  let oneDayAgo := (now - 24 * 60 * 60 * 1000)%Z in
  find (fun n =>
          (match relatedProduct n with
           | Some p => Nat.eqb p productId
           | None => false
           end
           && NotificationType_eqb (type n) type'
           && Z.leb oneDayAgo (createdAt n))%bool) coll.

(** [Product.find({ active: true, 'stockConfig.minStock': { $gt: 0 } })]. *)
Definition monitored (product : ProductDoc) : bool :=
  (active product && Num.ltb 0 (Product.minStock (stockConfig product)))%bool.

(** [stockData.totalWeight || stockData.totalQuantity]. *)
Definition totalStock (stockItems : list StockItem.t) (product : ProductDoc)
    : Q :=
  let stockData := StockItem.getTotalStock stockItems (_id product) in
  Num.or_else (StockItem.totalWeight stockData)
    (StockItem.totalQuantity stockData).

(** [product.stockConfig.safetyStock || minStock * 1.5]. *)
Definition safetyStock (product : ProductDoc) : Q :=
  Num.or_else (Product.safetyStock (stockConfig product))
    (Product.minStock (stockConfig product) * 1.5).

(** The body of the loop of [checkStockLevels]. *)
Definition checkProduct (now : Z) (stockItems : list StockItem.t)
    (coll : list Notification) (product : ProductDoc) : list Notification :=
  let totalStock := totalStock stockItems product in
  let minStock := Product.minStock (stockConfig product) in
  let safetyStock := safetyStock product in
  if (Num.leb totalStock minStock && Num.ltb 0 totalStock)%bool then
    match checkRecentAlert now coll (_id product) STOCK_CRITICAL with
    | Some _ => coll
    | None => snd (createStockAlert now product critical coll)
    end
  else if (Num.leb totalStock safetyStock && Num.ltb minStock totalStock)%bool
  then
    match checkRecentAlert now coll (_id product) STOCK_WARNING with
    | Some _ => coll
    | None => snd (createStockAlert now product warning coll)
    end
  else coll.

(** [checkStockLevels()]: the notifications after the run; the answer is
    [{ success: true, message: 'Stock levels checked' }]. *)
Definition checkStockLevels (now : Z) (products : list ProductDoc)
    (stockItems : list StockItem.t) (coll : list Notification)
    : list Notification :=
  fold_left (checkProduct now stockItems) (filter monitored products) coll.

Record ProductRef : Type :=
  { ref_id : ObjectId; ref_code : string; ref_description : string;
    ref_materialType : string }.

Record LowStockProduct : Type :=
  { product : ProductRef;
    currentStock : Q;
    low_minStock : Q;
    low_safetyStock : Q;
    status : AlertType;
    low_unit : string }.

(** [getLowStockProducts()]. *)
Definition getLowStockProducts (products : list ProductDoc)
    (stockItems : list StockItem.t) : list LowStockProduct :=
  fold_left
    (fun lowStockProducts product =>
       let totalStock := totalStock stockItems product in
       let minStock := Product.minStock (stockConfig product) in
       let safetyStock := safetyStock product in
       if Num.leb totalStock safetyStock then
         (lowStockProducts
          ++ [{| product :=
                   {| ref_id := _id product; ref_code := code product;
                      ref_description := description product;
                      ref_materialType := materialType product |};
                 currentStock := totalStock;
                 low_minStock := minStock;
                 low_safetyStock := safetyStock;
                 status := if Num.leb totalStock minStock then critical
                           else warning;
                 low_unit := Product.unit (stockConfig product) |}])%list
       else lowStockProducts)
    (filter monitored products) [].

End StockAlert.

(** What an alert that [checkStockLevels] creates at [now] for the
    product [p] looks like. *)
Definition alert_for (now : Z) (stockItems : list StockItem.t)
    (p : StockAlert.ProductDoc) (n : StockAlert.Notification) : Prop :=
  StockAlert.user n = None /\ StockAlert.read n = false
  /\ StockAlert.createdAt n = now
  /\ StockAlert.relatedProduct n = Some (StockAlert._id p)
  /\ (0 < StockAlert.totalStock stockItems p)%Q
  /\ ((StockAlert.type n = StockAlert.STOCK_CRITICAL
       /\ StockAlert.priority n = StockAlert.high
       /\ (StockAlert.totalStock stockItems p
           <= Product.minStock (StockAlert.stockConfig p))%Q)
      \/ (StockAlert.type n = StockAlert.STOCK_WARNING
          /\ StockAlert.priority n = StockAlert.medium
          /\ (Product.minStock (StockAlert.stockConfig p)
              < StockAlert.totalStock stockItems p)%Q
          /\ (StockAlert.totalStock stockItems p
              <= StockAlert.safetyStock p)%Q)).

Module ScenarioAlert.
Local Open Scope Q_scope.
Local Open Scope string_scope.

Definition config : Product.StockConfig :=
  {| Product.minStock := 5; Product.safetyStock := 0; Product.unit := "kg" |}.

(** A monitored bar with 3 kg in stock, and a monitored one with none. *)
Definition bar : StockAlert.ProductDoc :=
  {| StockAlert._id := 1%nat; StockAlert.code := "AC4R050";
     StockAlert.description := "Varao redondo 50";
     StockAlert.materialType := "steel"; StockAlert.active := true;
     StockAlert.stockConfig := config |}.

Definition missing : StockAlert.ProductDoc :=
  {| StockAlert._id := 2%nat; StockAlert.code := "AC4R060";
     StockAlert.description := "Varao redondo 60";
     StockAlert.materialType := "steel"; StockAlert.active := true;
     StockAlert.stockConfig := config |}.

Definition stock : list StockItem.t :=
  [Scenario.lot 1%nat StockItem.FULL_BAR 1 3].

End ScenarioAlert.

(* ================================================================= *)
(** ** Project references *)

(** [Project.generateReference] and the pattern of the schema.  The year
    of the clock is a parameter; integers are exact. *)
Module ProjectReference.
Local Open Scope string_scope.

(** [String(n)] for an integer; [None] stands for [NaN]. *)
Definition String_of_number (n : option Z) : string :=
  match n with
  | Some z => DecimalString.NilEmpty.string_of_int (Z.to_int z)
  | None => "NaN"
  end.

Fixpoint zeros (n : nat) : string :=
  match n with
  | O => ""
  | S n' => String "0" (zeros n')
  end.

(** [s.padStart(targetLength, '0')]. *)
Definition padStart (targetLength : nat) (s : string) : string :=
  zeros (targetLength - String.length s) ++ s.

(** [s.split('-')]. *)
Fixpoint split (s : string) : list string :=
  match s with
  | EmptyString => [""]
  | String c s' =>
      if Ascii.eqb c "-" then "" :: split s'
      else match split s' with
           | h :: t => String c h :: t
           | [] => [String c ""]
           end
  end.

(** White space that [parseInt] skips, within Latin-1: TAB, LF, VT, FF,
    CR, SP and NBSP. *)
Definition is_whitespace (c : ascii) : bool :=
  let n := nat_of_ascii c in
  ((Nat.leb 9 n && Nat.leb n 13) || Nat.eqb n 32 || Nat.eqb n 160)%bool.

Definition is_digit (c : ascii) : bool :=
  let n := nat_of_ascii c in (Nat.leb 48 n && Nat.leb n 57)%bool.

Fixpoint skip_whitespace (s : string) : string :=
  match s with
  | String c s' => if is_whitespace c then skip_whitespace s' else s
  | EmptyString => s
  end.

(** The value of the longest prefix of decimal digits, after the digits
    read so far. *)
Fixpoint digits (s : string) (read : option Z) : option Z :=
  match s with
  | String c s' =>
      if is_digit c then
        digits s'
          (Some (10 * match read with Some z => z | None => 0 end
                 + Z.of_nat (nat_of_ascii c - 48))%Z)
      else read
  | EmptyString => read
  end.

(** [parseInt(s, 10)]; [parseInt(undefined, 10)] is [NaN]. *)
Definition parseInt (s : option string) : option Z :=
  match s with
  | None => None
  | Some s =>
      match skip_whitespace s with
      | String "-" s' => option_map Z.opp (digits s' None)
      | String "+" s' => digits s' None
      | s' => digits s' None
      end
  end.

(** The order of [.sort({ reference: -1 })]. *)
Definition after (a b : Project.t) : bool :=
  String.leb (Project.reference b) (Project.reference a).

Fixpoint insert (x : Project.t) (l : list Project.t) : list Project.t :=
  match l with
  | [] => [x]
  | y :: l' => if after x y then x :: y :: l' else y :: insert x l'
  end.

Definition sort (l : list Project.t) : list Project.t :=
  fold_right insert [] l.

(** [`OBR-${currentYear}-`]. *)
Definition prefix_of (currentYear : nat) : string :=
  "OBR-" ++ String_of_number (Some (Z.of_nat currentYear)) ++ "-".

(** [Project.generateReference()]. *)
Definition generateReference (coll : list Project.t) (currentYear : nat)
    : string :=
  let prefix := prefix_of currentYear in
  let lastProject :=
    hd_error
      (sort (filter (fun p => String.prefix prefix (Project.reference p))
               coll)) in
  let sequence :=
    match lastProject with
    | None => Some 1%Z
    | Some lastProject =>
        let lastNumber :=
          parseInt (nth_error (split (Project.reference lastProject)) 2) in
        option_map (fun n => (n + 1)%Z) lastNumber
    end in
  prefix ++ padStart 3 (String_of_number sequence).

(** The [match] of the schema: [/^OBR-\d{4}-\d{3}$/]. *)
Definition matches_pattern (reference : string) : bool :=
  match list_ascii_of_string reference with
  | [c0; c1; c2; c3; y0; y1; y2; y3; c8; n0; n1; n2] =>
      (Ascii.eqb c0 "O" && Ascii.eqb c1 "B" && Ascii.eqb c2 "R"
       && Ascii.eqb c3 "-" && is_digit y0 && is_digit y1 && is_digit y2
       && is_digit y3 && Ascii.eqb c8 "-" && is_digit n0 && is_digit n1
       && is_digit n2)%bool
  | _ => false
  end.

End ProjectReference.

Module ScenarioReference.
Local Open Scope string_scope.

Definition stored (_id : ObjectId) (reference : string) : Project.t :=
  {| Project._id := _id;
     Project.reference := reference;
     Project.status := Project.draft;
     Project.budget := Scenario.zero_costs;
     Project.costs := Scenario.zero_costs;
     Project.laborEntries := [];
     Project.otherCosts := [] |}.

(** Two projects of 2025 around one of 2024. *)
Definition projects : list Project.t :=
  [stored 1%nat "OBR-2025-007"; stored 2%nat "OBR-2024-112";
   stored 3%nat "OBR-2025-041"].

End ScenarioReference.

(* ================================================================= *)
(** * Properties of the mass calculator *)

Section MetalMathFacts.
Import MetalMath.
Local Open Scope R_scope.
Local Open Scope string_scope.

(** [Math.round] is within one half of its argument. *)
Lemma Math_round_bounds (x : R) :
  x - / 2 < Math_round x <= x + / 2.
Proof.
  unfold Math_round.
  destruct (base_Int_part (x + / 2)) as [Hle Hgt].
  split; lra.
Qed.

Lemma Math_round_error (x : R) : Rabs (Math_round x - x) <= / 2.
Proof.
  destruct (Math_round_bounds x) as [Hlo Hhi].
  apply Rabs_le. split; lra.
Qed.

(** [Math.round] of a number whose nearest integer is [z]. *)
Lemma Math_round_eq (x : R) (z : Z) :
  IZR z - / 2 <= x < IZR z + / 2 -> Math_round x = IZR z.
Proof.
  intros [Hlo Hhi]. unfold Math_round. f_equal. symmetry.
  apply Int_part_spec. split; lra.
Qed.

(** A positive density is truthy: it is the effective density. *)
Lemma effectiveDensity_positive (rho : R) (materialType : option string) :
  0 < rho -> effectiveDensity (Some rho) materialType = rho.
Proof.
  intros Hrho. unfold effectiveDensity, or_else.
  destruct (Req_dec_T rho 0) as [E | _]; [lra | reflexivity].
Qed.

(** Rational bounds on [Math.PI], from the series of
    [PI / 4 = 2 atan (1/3) + atan (1/7)]. *)
Lemma PI_bounds : 31415 / 10000 < PI < 31416 / 10000.
Proof.
  generalize (PI_2_3_7_ineq 2).
  unfold PI_2_3_7_tg, tg_alt, Ratan_seq.
  simpl sum_f_R0. simpl Nat.mul. simpl Nat.add. cbn [pow INR].
  intros [Hlo Hhi]. split; lra.
Qed.

Lemma calculateWeight_spec_round2 (volume rho : R) :
  calculateWeight volume rho = spec_round2 (volume * rho / 1000).
Proof. reflexivity. Qed.

(** The weight of a round bar is within half a hundredth of the exact
    mass. *)
Lemma calculateWeight_error (volume rho : R) :
  Rabs (calculateWeight volume rho - volume * rho / 1000) <= / 200.
Proof.
  unfold calculateWeight.
  destruct (Math_round_bounds (volume * rho / 1000 * 100)) as [Hlo Hhi].
  apply Rabs_le. split; lra.
Qed.

Lemma area_positive (diameterMm : R) :
  0 < diameterMm -> 0 < PI * (mmToCm diameterMm / 2) ^ 2.
Proof.
  intros Hd. unfold mmToCm.
  apply Rmult_lt_0_compat; [apply PI_RGT_0 | ].
  apply pow_lt. lra.
Qed.

(** C3.  For each supported shape and a positive density, [getWeight]
    returns the volume in cm3 (the formula of the shape, on the dimensions
    and the length converted from mm to cm) times the density, divided by
    1000, and rounds once, at the mass, to two decimals.  A round bar of
    diameter 50 mm, length 1000 mm and density 7.85 weighs 15.41 kg. *)
Theorem getWeight_formula :
  (forall (shape : string) (dimensions : Dimensions) (lengthMm rho V : R)
          (materialType : option string),
      0 < rho ->
      spec_volume shape (d dimensions / 10) (w dimensions / 10)
        (h dimensions / 10) (wall dimensions / 10) (lengthMm / 10) = Some V ->
      getWeight shape dimensions lengthMm (Some rho) materialType
      = Ok (spec_round2 (V * rho / 1000)))
  /\ getWeight "round" {| d := 50; w := 0; h := 0; wall := 0 |} 1000
       (Some (785 / 100)) None = Ok (1541 / 100).
Proof.
  split.
  - intros shape dimensions lengthMm rho V materialType Hrho.
    unfold spec_volume, getWeight.
    rewrite (effectiveDensity_positive rho materialType Hrho).
    destruct (String.eqb shape "round").
    { intros [= <-]. rewrite calculateWeight_spec_round2.
      unfold volumeRoundBar, mmToCm. reflexivity. }
    destruct (String.eqb shape "hex").
    { intros [= <-]. rewrite calculateWeight_spec_round2.
      unfold volumeHex, mmToCm. reflexivity. }
    destruct (String.eqb shape "tube").
    { intros [= <-]. rewrite calculateWeight_spec_round2.
      unfold volumeTube, mmToCm. do 3 f_equal. ring. }
    destruct (String.eqb shape "plate"); simpl.
    { intros [= <-]. rewrite calculateWeight_spec_round2.
      unfold volumeRectangular, mmToCm. reflexivity. }
    destruct (String.eqb shape "box"); simpl.
    { intros [= <-]. rewrite calculateWeight_spec_round2.
      unfold volumeRectangular, mmToCm. reflexivity. }
    discriminate.
  - unfold getWeight. simpl String.eqb. cbv iota.
    rewrite effectiveDensity_positive by lra.
    unfold calculateWeight, volumeRoundBar, mmToCm. cbn [d].
    f_equal. f_equal.
    apply Math_round_eq.
    pose proof PI_bounds as [Hlo Hhi]. split; lra.
Qed.

(** The theorem at a tube of outer diameter 40 mm and wall 2 mm. *)
Lemma getWeight_formula_witness :
  0 < 785 / 100
  /\ getWeight "tube" {| d := 40; w := 0; h := 0; wall := 2 |} 6000
       (Some (785 / 100)) (Some "steel")
     = Ok (spec_round2
             (PI * ((40 / 10 / 2) ^ 2 - (40 / 10 / 2 - 2 / 10) ^ 2)
              * (6000 / 10) * (785 / 100) / 1000)).
Proof.
  split; [lra | ].
  apply (proj1 getWeight_formula "tube"); [lra | reflexivity].
Defined.

(** C9.  A shape outside round, hex, tube, plate and box makes
    [getWeight] throw: no weight is returned and no shape is assumed. *)
Theorem getWeight_unknown_shape
    (shape : string) (dimensions : Dimensions) (lengthMm : R)
    (density : option R) (materialType : option string) :
  ~ In shape ["round"; "hex"; "tube"; "plate"; "box"] ->
  getWeight shape dimensions lengthMm density materialType
  = Throw ("Unknown shape: " ++ shape).
Proof.
  intros Hshape. unfold getWeight.
  destruct (String.eqb_spec shape "round") as [-> | _].
  { exfalso. apply Hshape. simpl. tauto. }
  destruct (String.eqb_spec shape "hex") as [-> | _].
  { exfalso. apply Hshape. simpl. tauto. }
  destruct (String.eqb_spec shape "tube") as [-> | _].
  { exfalso. apply Hshape. simpl. tauto. }
  destruct (String.eqb_spec shape "plate") as [-> | _].
  { exfalso. apply Hshape. simpl. tauto. }
  destruct (String.eqb_spec shape "box") as [-> | _].
  { exfalso. apply Hshape. simpl. tauto. }
  reflexivity.
Qed.

(** The theorem at the shape 'other', which the Product schema accepts. *)
Lemma getWeight_unknown_shape_witness :
  getWeight "other" {| d := 50; w := 0; h := 0; wall := 0 |} 1000
    (Some (785 / 100)) None
  = Throw "Unknown shape: other".
Proof.
  apply (getWeight_unknown_shape "other").
  simpl. intros [H | [H | [H | [H | [H | []]]]]]; discriminate H.
Defined.

(** C8.  For a round bar of positive diameter, length and density, the
    length computed back from the rounded weight differs from the length
    by at most the effect of the two roundings: half a millimetre for the
    rounding of the length, and the length of bar that weighs half a
    hundredth of a kilogram, [50 / (rho * area)] mm with the area in cm2,
    for the rounding of the mass. *)
Theorem lengthFromWeight_getWeight
    (dimensions : Dimensions) (lengthMm rho : R)
    (materialType : option string) :
  0 < d dimensions -> 0 < lengthMm -> 0 < rho ->
  exists weightKg : R,
    getWeight "round" dimensions lengthMm (Some rho) materialType
    = Ok weightKg
    /\ Rabs (lengthFromWeight weightKg (d dimensions) rho - lengthMm)
       <= / 2 + 50 / (rho * (PI * (d dimensions / 10 / 2) ^ 2)).
Proof.
  intros Hd HL Hrho.
  eexists. split.
  { unfold getWeight. simpl String.eqb. cbv iota.
    rewrite effectiveDensity_positive by assumption. reflexivity. }
  pose proof (area_positive (d dimensions) Hd) as HA.
  unfold mmToCm in HA.
  set (A := PI * (d dimensions / 10 / 2) ^ 2) in *.
  set (weightKg := calculateWeight (volumeRoundBar (d dimensions) lengthMm) rho).
  pose proof (calculateWeight_error (volumeRoundBar (d dimensions) lengthMm) rho)
    as Hw.
  fold weightKg in Hw.
  unfold volumeRoundBar, mmToCm in Hw. fold A in Hw.
  unfold lengthFromWeight, mmToCm. fold A.
  set (z := weightKg * 1000 / rho / A * 10).
  pose proof (Math_round_error z) as Hz.
  assert (HrA : 0 < rho * A) by (apply Rmult_lt_0_compat; assumption).
  assert (Hk : z - lengthMm
               = (weightKg - A * (lengthMm / 10) * rho / 1000)
                 * (10000 / (rho * A))).
  { unfold z. field. split; lra. }
  assert (Hzl : Rabs (z - lengthMm) <= 50 / (rho * A)).
  { rewrite Hk, Rabs_mult.
    assert (Hpos : 0 < 10000 / (rho * A)).
    { apply Rdiv_lt_0_compat; lra. }
    rewrite (Rabs_right (10000 / (rho * A))) by lra.
    replace (50 / (rho * A)) with (/ 200 * (10000 / (rho * A)))
      by (field; lra).
    apply Rmult_le_compat_r; lra. }
  replace (Math_round z - lengthMm)
    with ((Math_round z - z) + (z - lengthMm)) by ring.
  eapply Rle_trans; [apply Rabs_triang | lra].
Qed.

(** The theorem at the bar of the weight scenario. *)
Lemma lengthFromWeight_getWeight_witness :
  exists weightKg : R,
    getWeight "round" {| d := 50; w := 0; h := 0; wall := 0 |} 1000
      (Some (785 / 100)) None = Ok weightKg
    /\ Rabs (lengthFromWeight weightKg 50 (785 / 100) - 1000)
       <= / 2 + 50 / (785 / 100 * (PI * (50 / 10 / 2) ^ 2)).
Proof.
  apply (lengthFromWeight_getWeight
           {| d := 50; w := 0; h := 0; wall := 0 |} 1000 (785 / 100) None);
    simpl; lra.
Defined.

End MetalMathFacts.

(* ================================================================= *)
(** * Properties of the allocation walk *)

Section NumFacts.
Local Open Scope Q_scope.
Local Ltac lra := Lqa.lra.

Lemma leb_le (a b : Q) : Num.leb a b = true <-> a <= b.
Proof. apply Qle_bool_iff. Qed.

Lemma leb_gt (a b : Q) : Num.leb a b = false <-> b < a.
Proof.
  unfold Num.leb. split; intros H.
  - apply Qnot_le_lt. intros Hle. apply Qle_bool_iff in Hle. congruence.
  - destruct (Qle_bool a b) eqn:E; [ | reflexivity].
    apply Qle_bool_iff in E. lra.
Qed.

Lemma ltb_lt (a b : Q) : Num.ltb a b = true <-> a < b.
Proof.
  unfold Num.ltb. rewrite negb_true_iff. apply (leb_gt b a).
Qed.

Lemma ltb_ge (a b : Q) : Num.ltb a b = false <-> b <= a.
Proof.
  unfold Num.ltb. rewrite negb_false_iff. apply (leb_le b a).
Qed.

Lemma truthy_true (x : Q) : Num.truthy x = true <-> ~ x == 0.
Proof.
  unfold Num.truthy. rewrite negb_true_iff. split; intros H.
  - intros E. apply Qeq_bool_iff in E. congruence.
  - destruct (Qeq_bool x 0) eqn:E; [ | reflexivity].
    apply Qeq_bool_iff in E. contradiction.
Qed.

Lemma truthy_false (x : Q) : Num.truthy x = false <-> x == 0.
Proof.
  unfold Num.truthy. rewrite negb_false_iff. apply Qeq_bool_iff.
Qed.

(** [Math.max(0, x)] and [Math.min(a, b)] by cases. *)
Lemma Qmax_0_nonneg (x : Q) : 0 <= x -> Qmax 0 x == x.
Proof. intros H. apply Q.max_r. exact H. Qed.

Lemma Qmax_0_nonpos (x : Q) : x <= 0 -> Qmax 0 x == 0.
Proof. intros H. apply Q.max_l. exact H. Qed.

Lemma Qmin_cases (a b : Q) :
  (a <= b /\ Qmin a b == a) \/ (b <= a /\ Qmin a b == b).
Proof. apply Q.min_spec_le. Qed.

End NumFacts.

Section SortFacts.
Import Controller.
Local Open Scope Q_scope.
Local Ltac lra := Lqa.lra.

Lemma precedes_rank (a b : StockItem.t) :
  precedes a b = true
  <-> (rank (StockItem.type b) < rank (StockItem.type a))%nat
      \/ (StockItem.type a = StockItem.type b
          /\ StockItem.calculatedWeight a <= StockItem.calculatedWeight b).
Proof.
  unfold precedes. rewrite <- leb_le.
  destruct (StockItem.type a), (StockItem.type b); cbn;
    split; intros H;
    try discriminate; try (left; lia); try (right; split; [reflexivity | exact H]);
    try reflexivity;
    destruct H as [H | [H1 H2]]; try lia; try discriminate; try exact H2.
Qed.

Lemma precedes_total (a b : StockItem.t) :
  precedes a b = false -> precedes b a = true.
Proof.
  intros H. apply precedes_rank.
  destruct (precedes_rank a b) as [_ Hr].
  destruct (Nat.lt_trichotomy (rank (StockItem.type a)) (rank (StockItem.type b)))
    as [Hlt | [Heq | Hgt]].
  - left. exact Hlt.
  - right.
    assert (Et : StockItem.type a = StockItem.type b).
    { destruct (StockItem.type a), (StockItem.type b);
        simpl in Heq; congruence. }
    split; [congruence | ].
    destruct (Qlt_le_dec (StockItem.calculatedWeight a)
                (StockItem.calculatedWeight b)) as [Hl | Hl]; [ | exact Hl].
    rewrite Hr in H; [discriminate | ]. right. split; [exact Et | lra].
  - rewrite Hr in H; [discriminate | ]. left. exact Hgt.
Qed.

Lemma precedes_trans (a b c : StockItem.t) :
  precedes a b = true -> precedes b c = true -> precedes a c = true.
Proof.
  rewrite !precedes_rank.
  intros [Hab | [Eab Wab]] [Hbc | [Ebc Wbc]].
  - left. lia.
  - left. rewrite <- Ebc. exact Hab.
  - left. rewrite Eab. exact Hbc.
  - right. split; [congruence | lra].
Qed.

Lemma insert_Permutation (x : StockItem.t) (l : list StockItem.t) :
  Permutation (insert x l) (x :: l).
Proof.
  induction l as [ | y l IH]; simpl.
  - apply Permutation_refl.
  - destruct (precedes x y).
    + apply Permutation_refl.
    + eapply perm_trans; [apply perm_skip, IH | apply perm_swap].
Qed.

Lemma sort_Permutation (l : list StockItem.t) : Permutation (sort l) l.
Proof.
  induction l as [ | x l IH]; simpl.
  - apply perm_nil.
  - eapply perm_trans; [apply insert_Permutation | apply perm_skip, IH].
Qed.

Lemma insert_StronglySorted (x : StockItem.t) (l : list StockItem.t) :
  StronglySorted (fun a b => precedes a b = true) l ->
  StronglySorted (fun a b => precedes a b = true) (insert x l).
Proof.
  induction 1 as [ | y l Hl IH Hy]; simpl.
  - constructor; constructor.
  - destruct (precedes x y) eqn:E.
    + constructor; [constructor; assumption | ].
      constructor; [exact E | ].
      eapply Forall_impl; [ | exact Hy].
      intros z Hz. eapply precedes_trans; eassumption.
    + constructor; [exact IH | ].
      eapply Permutation_Forall.
      * apply Permutation_sym, insert_Permutation.
      * constructor; [apply precedes_total; exact E | exact Hy].
Qed.

Lemma sort_StronglySorted (l : list StockItem.t) :
  StronglySorted (fun a b => precedes a b = true) (sort l).
Proof.
  induction l as [ | x l IH]; simpl.
  - constructor.
  - apply insert_StronglySorted, IH.
Qed.

(** What follows an element of a sorted list is preceded by it. *)
Lemma StronglySorted_app_inv (l1 l2 : list StockItem.t) (a b : StockItem.t) :
  StronglySorted (fun a b => precedes a b = true) (l1 ++ a :: l2) ->
  In b l2 -> precedes a b = true.
Proof.
  induction l1 as [ | x l1 IH]; simpl; intros Hs Hb.
  - inversion Hs as [ | ? ? _ Hall]; subst.
    rewrite Forall_forall in Hall. apply Hall, Hb.
  - inversion Hs; subst. apply IH; assumption.
Qed.

Lemma is_candidate_spec (productId : ObjectId) (x : StockItem.t) :
  is_candidate productId x = true
  <-> StockItem.product x = productId
      /\ StockItem.status x = StockItem.available
      /\ 0 < StockItem.quantity x.
Proof.
  unfold is_candidate. rewrite !andb_true_iff, Nat.eqb_eq, ltb_lt.
  destruct (StockItem.status x); simpl; intuition congruence.
Qed.

Lemma candidates_In (coll : list StockItem.t) (productId : ObjectId)
    (x : StockItem.t) :
  In x (candidates coll productId)
  <-> In x coll /\ StockItem.product x = productId
      /\ StockItem.status x = StockItem.available
      /\ 0 < StockItem.quantity x.
Proof.
  unfold candidates. rewrite <- is_candidate_spec, <- filter_In.
  split; apply Permutation_in;
    [ | apply Permutation_sym]; apply sort_Permutation.
Qed.

End SortFacts.

Section WalkFacts.
Import Controller.
Local Open Scope Q_scope.
Local Ltac lra := Lqa.lra.

Lemma sum_from (l : list Q) (a : Q) : fold_left Qplus l a == a + Num.sum l.
Proof.
  unfold Num.sum. revert a.
  induction l as [ | x l IH]; intros a; simpl.
  - lra.
  - rewrite (IH (a + x)), (IH (0 + x)). lra.
Qed.

Lemma sum_cons (x : Q) (l : list Q) : Num.sum (x :: l) == x + Num.sum l.
Proof.
  unfold Num.sum at 1. simpl. rewrite sum_from. lra.
Qed.

Lemma or_else_truthy (a b : Q) : ~ a == 0 -> Num.or_else a b = a.
Proof.
  intros H. unfold Num.or_else.
  apply truthy_true in H. rewrite H. reflexivity.
Qed.

Lemma or_else_falsy (a b : Q) : a == 0 -> Num.or_else a b = b.
Proof.
  intros H. unfold Num.or_else.
  apply truthy_false in H. rewrite H. reflexivity.
Qed.

(** The amount taken from a lot never exceeds what is asked for nor what
    the lot holds. *)
Lemma toDeduct_le (remaining : Q) (item : StockItem.t) :
  toDeduct remaining item <= remaining
  /\ toDeduct remaining item <= itemStock item.
Proof.
  unfold toDeduct. split; [apply Q.le_min_l | apply Q.le_min_r].
Qed.

(** A visited lot is marked consumed exactly when its count is used up. *)
Lemma deduct_consumed (remaining : Q) (item : StockItem.t) :
  StockItem.status item <> StockItem.consumed ->
  (StockItem.status (deduct remaining item) = StockItem.consumed
   <-> StockItem.quantity (deduct remaining item) <= 0).
Proof.
  intros Hs. unfold deduct.
  match goal with
  | |- context [if Num.leb ?q 0 then _ else _] =>
      destruct (Num.leb q 0) eqn:E
  end.
  - apply leb_le in E.
    destruct (Num.truthy (StockItem.calculatedWeight item)); simpl in *;
      split; intros _; (reflexivity || exact E).
  - apply leb_gt in E.
    destruct (Num.truthy (StockItem.calculatedWeight item)); simpl in *;
      split; intros H; (contradiction || lra).
Qed.

(** A lot that is not used up keeps its status. *)
Lemma deduct_status (remaining : Q) (item : StockItem.t) :
  0 < StockItem.quantity (deduct remaining item) ->
  StockItem.status (deduct remaining item) = StockItem.status item.
Proof.
  unfold deduct.
  match goal with
  | |- context [if Num.leb ?q 0 then _ else _] =>
      destruct (Num.leb q 0) eqn:E
  end.
  - apply leb_le in E.
    destruct (Num.truthy (StockItem.calculatedWeight item)); simpl in *;
      intros H; lra.
  - destruct (Num.truthy (StockItem.calculatedWeight item)); reflexivity.
Qed.

(** A lot tracked by weight: the weight goes down by the amount taken,
    the count by the same fraction. *)
Lemma deduct_weight (remaining : Q) (item : StockItem.t) :
  ~ StockItem.calculatedWeight item == 0 ->
  StockItem.calculatedWeight (deduct remaining item)
  == StockItem.calculatedWeight item - toDeduct remaining item
  /\ StockItem.quantity (deduct remaining item)
     = Qmax 0 (StockItem.quantity item
               - StockItem.quantity item
                 * (toDeduct remaining item / StockItem.calculatedWeight item)).
Proof.
  intros Hw.
  pose proof (toDeduct_le remaining item) as [_ Hle].
  unfold itemStock in Hle. rewrite (or_else_truthy _ _ Hw) in Hle.
  unfold deduct. apply truthy_true in Hw. rewrite Hw.
  match goal with
  | |- context [if Num.leb ?q 0 then _ else _] => destruct (Num.leb q 0)
  end; simpl; (split; [apply Qmax_0_nonneg; lra | reflexivity]).
Qed.

(** A lot tracked by count: a plain subtraction. *)
Lemma deduct_units (remaining : Q) (item : StockItem.t) :
  StockItem.calculatedWeight item == 0 ->
  StockItem.quantity (deduct remaining item)
  == StockItem.quantity item - toDeduct remaining item
  /\ StockItem.calculatedWeight (deduct remaining item)
     = StockItem.calculatedWeight item.
Proof.
  intros Hw.
  pose proof (toDeduct_le remaining item) as [_ Hle].
  unfold itemStock in Hle. rewrite (or_else_falsy _ _ Hw) in Hle.
  unfold deduct. apply truthy_false in Hw. rewrite Hw.
  match goal with
  | |- context [if Num.leb ?q 0 then _ else _] => destruct (Num.leb q 0)
  end; simpl; (split; [apply Qmax_0_nonneg; lra | reflexivity]).
Qed.

(** Either way the stock of the lot goes down by the amount taken. *)
Lemma deduct_itemStock (remaining : Q) (item : StockItem.t) :
  itemStock (deduct remaining item)
  == itemStock item - toDeduct remaining item.
Proof.
  destruct (Qeq_dec (StockItem.calculatedWeight item) 0) as [Hw | Hw].
  - destruct (deduct_units remaining item Hw) as [Hq Hc].
    unfold itemStock at 1 2. rewrite Hc.
    rewrite !(or_else_falsy _ _ Hw). exact Hq.
  - destruct (deduct_weight remaining item Hw) as [Hc Hq].
    unfold itemStock at 2. rewrite (or_else_truthy _ _ Hw).
    unfold itemStock.
    destruct (Qeq_dec (StockItem.calculatedWeight (deduct remaining item)) 0)
      as [Hz | Hz].
    + rewrite (or_else_falsy _ _ Hz), Hq.
      assert (Ht : toDeduct remaining item == StockItem.calculatedWeight item)
        by lra.
      assert (Hr : toDeduct remaining item / StockItem.calculatedWeight item
                   == 1).
      { rewrite Ht. field. exact Hw. }
      rewrite Hr, Ht. rewrite Qmax_0_nonneg; lra.
    + rewrite (or_else_truthy _ _ Hz). exact Hc.
Qed.

(** One turn of the loop on a request that is not yet met. *)
Lemma decrementLoop_step (products : list Product.t) (item : StockItem.t)
    (rest : list StockItem.t) (remaining : Q) (coll : list StockItem.t) :
  0 < remaining ->
  decrementLoop products (item :: rest) remaining coll
  = decrementLoop products rest (remaining - toDeduct remaining item)
      (StockItem.save products item (deduct remaining item) coll).
Proof.
  intros H. simpl. apply leb_gt in H. rewrite H. reflexivity.
Qed.

(** The loop stops as soon as the request is met. *)
Lemma decrementLoop_done (products : list Product.t)
    (stockItems : list StockItem.t) (remaining : Q) (coll : list StockItem.t) :
  remaining <= 0 ->
  decrementLoop products stockItems remaining coll = (remaining, coll).
Proof.
  intros H. destruct stockItems as [ | item rest]; simpl.
  - reflexivity.
  - apply leb_le in H. rewrite H. reflexivity.
Qed.

(** What is left of the request after the walk: nothing when the lots
    hold enough, the shortfall otherwise. *)
Lemma decrementLoop_remaining (products : list Product.t)
    (stockItems : list StockItem.t) :
  Forall (fun x => 0 <= itemStock x) stockItems ->
  forall (remaining : Q) (coll : list StockItem.t),
    0 <= remaining ->
    fst (decrementLoop products stockItems remaining coll)
    == Qmax 0 (remaining - Num.sum (map itemStock stockItems)).
Proof.
  induction 1 as [ | item rest Hitem Hrest IH]; intros remaining coll Hr.
  - simpl. unfold Num.sum. simpl. rewrite Qmax_0_nonneg; lra.
  - assert (Hsum : 0 <= Num.sum (map itemStock rest)).
    { clear IH. induction Hrest as [ | y l Hy Hl IHl].
      - unfold Num.sum. simpl. lra.
      - simpl. rewrite sum_cons. lra. }
    simpl map. rewrite sum_cons.
    destruct (Qlt_le_dec 0 remaining) as [Hpos | Hneg].
    + rewrite decrementLoop_step by exact Hpos.
      pose proof (toDeduct_le remaining item) as [H1 H2].
      rewrite IH by lra.
      unfold toDeduct in *.
      destruct (Qmin_cases remaining (itemStock item)) as [[Hc E] | [Hc E]];
        rewrite E.
      * rewrite !Qmax_0_nonpos; lra.
      * apply Q.max_compat; lra.
    + rewrite decrementLoop_done by exact Hneg. simpl.
      rewrite Qmax_0_nonpos; lra.
Qed.

End WalkFacts.

(* ================================================================= *)
(** * Properties of the project controller *)

Section StoreFacts.
Import Controller.
Local Open Scope Q_scope.
Local Ltac lra := Lqa.lra.

Lemma Product_findById_id (coll : list Product.t) (id : ObjectId)
    (p : Product.t) :
  Product.findById coll id = Some p -> Product._id p = id.
Proof.
  unfold Product.findById. intros H.
  apply find_some in H. destruct H as [_ H].
  apply Nat.eqb_eq. exact H.
Qed.

Lemma Project_findById_id (coll : list Project.t) (id : ObjectId)
    (p : Project.t) :
  Project.findById coll id = Some p -> Project._id p = id /\ In p coll.
Proof.
  unfold Project.findById. intros H.
  apply find_some in H. destruct H as [Hin H].
  split; [apply Nat.eqb_eq; exact H | exact Hin].
Qed.

(** The save hook of a lot only touches the weight. *)
Lemma StockItem_pre_save_fields (products : list Product.t)
    (original : option StockItem.t) (this : StockItem.t) :
  StockItem._id (StockItem.pre_save products original this) = StockItem._id this
  /\ StockItem.status (StockItem.pre_save products original this)
     = StockItem.status this
  /\ StockItem.quantity (StockItem.pre_save products original this)
     = StockItem.quantity this
  /\ StockItem.type (StockItem.pre_save products original this)
     = StockItem.type this
  /\ StockItem.product (StockItem.pre_save products original this)
     = StockItem.product this.
Proof.
  unfold StockItem.pre_save, StockItem.calculateWeight.
  destruct (match original with Some _ => _ | None => _ end);
    [ | repeat split].
  destruct (Product.findById products (StockItem.product this)) as [p | ];
    [ | repeat split].
  destruct (Num.ltb 0 (Product.weightPerMeter p)); repeat split.
Qed.

Lemma deduct_fields (remaining : Q) (item : StockItem.t) :
  StockItem._id (deduct remaining item) = StockItem._id item
  /\ StockItem.product (deduct remaining item) = StockItem.product item
  /\ StockItem.type (deduct remaining item) = StockItem.type item.
Proof.
  unfold deduct.
  destruct (Num.truthy (StockItem.calculatedWeight item));
    match goal with
    | |- context [if Num.leb ?q 0 then _ else _] => destruct (Num.leb q 0)
    end; repeat split.
Qed.

Lemma replace_In (doc x : StockItem.t) (coll : list StockItem.t) :
  In x (StockItem.replace doc coll) -> In x coll \/ x = doc.
Proof.
  unfold StockItem.replace. rewrite in_map_iff.
  intros [y [Hy Hin]].
  destruct (Nat.eqb (StockItem._id y) (StockItem._id doc)).
  - right. symmetry. exact Hy.
  - left. subst x. exact Hin.
Qed.

(** A lot of the collection after the walk is a lot of the collection
    before it, or a visited lot as the walk saved it. *)
Lemma decrementLoop_In (products : list Product.t)
    (stockItems : list StockItem.t) :
  forall (remaining : Q) (coll : list StockItem.t) (x : StockItem.t),
    In x (snd (decrementLoop products stockItems remaining coll)) ->
    In x coll
    \/ exists (item : StockItem.t) (r : Q),
         In item stockItems /\ 0 < r
         /\ x = StockItem.pre_save products (Some item) (deduct r item).
Proof.
  induction stockItems as [ | item rest IH]; intros remaining coll x; simpl.
  - intros H. left. exact H.
  - destruct (Num.leb remaining 0) eqn:E; simpl.
    + intros H. left. exact H.
    + apply leb_gt in E. intros H.
      apply IH in H. destruct H as [H | [i [r [Hi [Hr Hx]]]]].
      * apply replace_In in H. destruct H as [H | H].
        -- left. exact H.
        -- right. exists item, remaining. auto.
      * right. exists i, r. auto.
Qed.

(** [decrementStock] reads and writes the lots only. *)
Lemma decrementStock_movements (db : DB.t) (movements : list Movement.t)
    (productId : ObjectId) (quantity : Q) :
  decrementStock (DB.set_movements movements db) productId quantity
  = (fst (decrementStock db productId quantity),
     DB.set_movements movements (snd (decrementStock db productId quantity))).
Proof.
  unfold decrementStock. simpl.
  destruct (decrementLoop (DB.products db)
              (candidates (DB.stockItems db) productId) quantity
              (DB.stockItems db)) as [remaining coll].
  reflexivity.
Qed.

Lemma decrementStock_frame (db : DB.t) (productId : ObjectId) (quantity : Q) :
  DB.projects (snd (decrementStock db productId quantity)) = DB.projects db
  /\ DB.products (snd (decrementStock db productId quantity)) = DB.products db
  /\ DB.movements (snd (decrementStock db productId quantity))
     = DB.movements db
  /\ DB.projectMaterials (snd (decrementStock db productId quantity))
     = DB.projectMaterials db.
Proof.
  unfold decrementStock.
  destruct (decrementLoop (DB.products db)
              (candidates (DB.stockItems db) productId) quantity
              (DB.stockItems db)) as [remaining coll].
  repeat split.
Qed.

End StoreFacts.

Section AddMaterialFacts.
Import Controller.
Local Open Scope Q_scope.
Local Ltac lra := Lqa.lra.

(** C1.  A call of [addMaterial] that asks for more than 1.05 times the
    available stock of the product is refused and leaves the database as
    it was: no lot changes, no movement and no project material is
    created.  When the project is open and the product exists the answer
    is the insufficient-stock error with the available amount. *)
Theorem addMaterial_insufficient_stock (db : DB.t) (req : AddMaterialRequest) :
  availableStock (DB.stockItems db) (productId req) * 1.05 < quantity req ->
  snd (addMaterial db req) = db
  /\ success (fst (addMaterial db req)) = false
  /\ forall (project : Project.t) (product : Product.t),
       Project.findById (DB.projects db) (am_params_id req) = Some project ->
       completed_or_cancelled (Project.status project) = false ->
       Product.findById (DB.products db) (productId req) = Some product ->
       fst (addMaterial db req)
       = InsufficientStock (availableStock (DB.stockItems db) (productId req)).
Proof.
  intros Hq. unfold addMaterial.
  destruct (Project.findById (DB.projects db) (am_params_id req))
    as [project | ].
  2: { split; [reflexivity | split; [reflexivity | ]].
       intros project' product' H. discriminate H. }
  destruct (completed_or_cancelled (Project.status project)) eqn:Es.
  { split; [reflexivity | split; [reflexivity | ]].
    intros project' product' [= <-] H. congruence. }
  destruct (Product.findById (DB.products db) (productId req))
    as [product | ] eqn:Ep.
  2: { split; [reflexivity | split; [reflexivity | ]].
       intros project' product' _ _ H. discriminate H. }
  rewrite (Product_findById_id _ _ _ Ep).
  apply ltb_lt in Hq. rewrite Hq.
  split; [reflexivity | split; [reflexivity | ]].
  intros project' product' _ _ _. reflexivity.
Qed.

(** The theorem at the scenario: 20 asked, 10 available. *)
Lemma addMaterial_insufficient_stock_witness :
  addMaterial
    (Scenario.db (Scenario.job Project.active Scenario.zero_costs [])
       [Scenario.lot 1%nat StockItem.FULL_BAR 1 10])
    (Scenario.request 20)
  = (InsufficientStock 10,
     Scenario.db (Scenario.job Project.active Scenario.zero_costs [])
       [Scenario.lot 1%nat StockItem.FULL_BAR 1 10]).
Proof.
  pose proof (addMaterial_insufficient_stock
                (Scenario.db (Scenario.job Project.active Scenario.zero_costs [])
                   [Scenario.lot 1%nat StockItem.FULL_BAR 1 10])
                (Scenario.request 20)) as H.
  destruct H as [Hdb [_ Hres]].
  - vm_compute. reflexivity.
  - rewrite (surjective_pairing (addMaterial _ _)), Hdb.
    rewrite (Hres _ Scenario.steel eq_refl eq_refl eq_refl).
    reflexivity.
Defined.





End AddMaterialFacts.

Section DecrementFacts.
Import Controller.
Local Open Scope Q_scope.
Local Ltac lra := Lqa.lra.

(** The size the specification speaks of is what the walk reads from a
    lot. *)
Lemma spec_size_itemStock (x : StockItem.t) : spec_size x = itemStock x.
Proof.
  unfold spec_size, itemStock, Num.or_else, Num.truthy.
  destruct (Qeq_bool (StockItem.calculatedWeight x) 0); reflexivity.
Qed.

Lemma candidates_sorted (coll : list StockItem.t) (productId : ObjectId) :
  StronglySorted weight_visited_before (candidates coll productId).
Proof.
  unfold candidates.
  pose proof (sort_StronglySorted (filter (is_candidate productId) coll)) as H.
  induction H as [ | a l Hl IH Ha]; constructor.
  - exact IH.
  - eapply Forall_impl; [ | exact Ha].
    intros b. apply precedes_rank.
Qed.

(** Between two lots that have a weight, the order by weight is the order
    by size. *)
Lemma weight_visited_before_spec (a b : StockItem.t) :
  ~ StockItem.calculatedWeight a == 0 ->
  ~ StockItem.calculatedWeight b == 0 ->
  weight_visited_before a b -> spec_visited_before a b.
Proof.
  intros Ha Hb [Hr | [Et Hw]]; split.
  - intros Eb. rewrite Eb in Hr.
    destruct (StockItem.type a); simpl in Hr; (reflexivity || lia).
  - intros Et. rewrite Et in Hr. lia.
  - congruence.
  - intros _. unfold spec_size.
    apply truthy_true in Ha. apply truthy_true in Hb.
    unfold Num.truthy in Ha, Hb.
    apply negb_true_iff in Ha. apply negb_true_iff in Hb.
    rewrite Ha, Hb. exact Hw.
Qed.

Lemma StronglySorted_weaken {A : Type} (R R' : A -> A -> Prop) (l : list A) :
  (forall a b, In a l -> In b l -> R a b -> R' a b) ->
  StronglySorted R l -> StronglySorted R' l.
Proof.
  intros Himp Hs. induction Hs as [ | a l Hl IH Ha]; constructor.
  - apply IH. intros x y Hx Hy. apply Himp; right; assumption.
  - rewrite Forall_forall in *. intros b Hb.
    apply Himp; [left; reflexivity | right; exact Hb | apply Ha, Hb].
Qed.

Lemma deduct_lengthMM (remaining : Q) (item : StockItem.t) :
  StockItem.lengthMM (deduct remaining item) = StockItem.lengthMM item.
Proof.
  unfold deduct.
  destruct (Num.truthy (StockItem.calculatedWeight item));
    match goal with
    | |- context [if Num.leb ?q 0 then _ else _] => destruct (Num.leb q 0)
    end; reflexivity.
Qed.

(** The count of a visited lot as it is handed to [save]. *)
Lemma deduct_quantity (remaining : Q) (item : StockItem.t) :
  StockItem.quantity (deduct remaining item)
  = if Qeq_bool (StockItem.calculatedWeight item) 0
    then Qmax 0 (StockItem.quantity item - Qmin remaining (spec_size item))
    else Qmax 0 (StockItem.quantity item
                 - StockItem.quantity item
                   * (Qmin remaining (spec_size item)
                      / StockItem.calculatedWeight item)).
Proof.
  rewrite spec_size_itemStock. unfold deduct, toDeduct, Num.truthy.
  destruct (Qeq_bool (StockItem.calculatedWeight item) 0); cbn [negb];
    match goal with
    | |- context [if Num.leb ?q 0 then _ else _] => destruct (Num.leb q 0)
    end; reflexivity.
Qed.

Lemma StockItem_pre_save_lengthMM (products : list Product.t)
    (original : option StockItem.t) (this : StockItem.t) :
  StockItem.lengthMM (StockItem.pre_save products original this)
  = StockItem.lengthMM this.
Proof.
  unfold StockItem.pre_save, StockItem.calculateWeight.
  destruct (match original with Some _ => _ | None => _ end);
    [ | reflexivity].
  destruct (Product.findById products (StockItem.product this)) as [p | ];
    [ | reflexivity].
  destruct (Num.ltb 0 (Product.weightPerMeter p)); reflexivity.
Qed.

(** The save hook leaves the lot of a product without a positive weight
    per metre as it is. *)
Lemma StockItem_pre_save_kept (products : list Product.t)
    (original : option StockItem.t) (this : StockItem.t) :
  (forall p, Product.findById products (StockItem.product this) = Some p ->
             Product.weightPerMeter p <= 0) ->
  StockItem.pre_save products original this = this.
Proof.
  intros Hp. unfold StockItem.pre_save, StockItem.calculateWeight.
  destruct (match original with Some _ => _ | None => _ end);
    [ | reflexivity].
  destruct (Product.findById products (StockItem.product this)) as [p | ];
    [ | reflexivity].
  specialize (Hp p eq_refl). apply ltb_ge in Hp. rewrite Hp. reflexivity.
Qed.

(** The save hook derives the weight again when the count has changed and
    the product has a positive weight per metre. *)
Lemma StockItem_pre_save_derived (products : list Product.t)
    (original this : StockItem.t) (p : Product.t) :
  ~ StockItem.quantity this == StockItem.quantity original ->
  Product.findById products (StockItem.product this) = Some p ->
  0 < Product.weightPerMeter p ->
  StockItem.calculatedWeight (StockItem.pre_save products (Some original) this)
  = Num.round2 (StockItem.lengthMM this / 1000 * Product.weightPerMeter p
                * StockItem.quantity this).
Proof.
  intros Hq Hp Hw. unfold StockItem.pre_save, StockItem.calculateWeight.
  assert (E : Qeq_bool (StockItem.quantity original) (StockItem.quantity this)
              = false).
  { destruct (Qeq_bool _ _) eqn:E; [ | reflexivity].
    apply Qeq_bool_iff in E. exfalso. apply Hq. symmetry. exact E. }
  rewrite E. cbn [negb orb]. rewrite Hp.
  apply ltb_lt in Hw. rewrite Hw. reflexivity.
Qed.

(** C2, as amended.  The lots [decrementStock] visits are exactly the
    lots of the product that are available and have a positive count.
    They are visited offcuts first, then full bars, then boxes, and within
    one kind by ascending weight ([calculatedWeight]), which is the order
    by size as long as every lot has a weight.  Each turn on a request
    that is not yet met takes [min(remaining, size of the lot)] off the
    request and stores the lot with its count reduced, by the same
    fraction for a lot with a weight and by the amount for a lot without;
    the stored size is the former size less the amount taken when the
    product has no positive weight per metre, and otherwise the save hook
    derives the stored weight from the new count.  The walk ends when the
    request is met or the lots run out, so that what is left of the
    request is [max(0, request - total size of the visited lots)].  With
    an offcut of 2 and a full bar of 10, a request of 2 consumes the
    offcut and leaves the full bar as it was. *)
Theorem decrementStock_allocation :
  (forall (coll : list StockItem.t) (productId : ObjectId) (x : StockItem.t),
      In x (candidates coll productId)
      <-> In x coll /\ StockItem.product x = productId
          /\ StockItem.status x = StockItem.available
          /\ 0 < StockItem.quantity x)
  /\ (forall (coll : list StockItem.t) (productId : ObjectId),
         Permutation (candidates coll productId)
           (filter (is_candidate productId) coll)
         /\ StronglySorted weight_visited_before (candidates coll productId)
         /\ ((forall x, In x (candidates coll productId) ->
                        ~ StockItem.calculatedWeight x == 0) ->
             StronglySorted spec_visited_before (candidates coll productId)))
  /\ (forall (products : list Product.t) (item : StockItem.t)
             (rest : list StockItem.t) (remaining : Q)
             (coll : list StockItem.t),
         0 < remaining ->
         exists stored : StockItem.t,
           decrementLoop products (item :: rest) remaining coll
           = decrementLoop products rest
               (remaining - Qmin remaining (spec_size item))
               (StockItem.replace stored coll)
           /\ StockItem._id stored = StockItem._id item
           /\ StockItem.product stored = StockItem.product item
           /\ StockItem.type stored = StockItem.type item
           /\ StockItem.lengthMM stored = StockItem.lengthMM item
           /\ StockItem.quantity stored
              = (if Qeq_bool (StockItem.calculatedWeight item) 0
                 then Qmax 0 (StockItem.quantity item
                              - Qmin remaining (spec_size item))
                 else Qmax 0 (StockItem.quantity item
                              - StockItem.quantity item
                                * (Qmin remaining (spec_size item)
                                   / StockItem.calculatedWeight item)))
           /\ ((forall p,
                   Product.findById products (StockItem.product item) = Some p ->
                   Product.weightPerMeter p <= 0) ->
               spec_size stored
               == spec_size item - Qmin remaining (spec_size item))
           /\ (forall p,
                  Product.findById products (StockItem.product item) = Some p ->
                  0 < Product.weightPerMeter p ->
                  ~ StockItem.quantity stored == StockItem.quantity item ->
                  StockItem.calculatedWeight stored
                  = Num.round2 (StockItem.lengthMM item / 1000
                                * Product.weightPerMeter p
                                * StockItem.quantity stored)))
  /\ (forall (products : list Product.t) (stockItems : list StockItem.t)
             (remaining : Q) (coll : list StockItem.t),
         remaining <= 0 ->
         decrementLoop products stockItems remaining coll = (remaining, coll))
  /\ (forall (products : list Product.t) (stockItems : list StockItem.t)
             (quantity : Q) (coll : list StockItem.t),
         Forall (fun x => 0 <= spec_size x) stockItems ->
         0 <= quantity ->
         fst (decrementLoop products stockItems quantity coll)
         == Qmax 0 (quantity - Num.sum (map spec_size stockItems)))
  /\ decrementStock
       (Scenario.db (Scenario.job Project.active Scenario.zero_costs [])
          Scenario.bar_and_offcut) 1%nat 2
     = (true,
        Scenario.db (Scenario.job Project.active Scenario.zero_costs [])
          [Scenario.lot 1%nat StockItem.FULL_BAR 1 10; Scenario.used_offcut]).
Proof.
  split; [exact candidates_In | ].
  split.
  { intros coll productId. split; [apply sort_Permutation | ].
    split; [apply candidates_sorted | ].
    intros Hall.
    apply (StronglySorted_weaken weight_visited_before);
      [ | apply candidates_sorted].
    intros a b Ha Hb. apply weight_visited_before_spec; apply Hall; assumption. }
  split.
  { intros products item rest remaining coll Hr.
    exists (StockItem.pre_save products (Some item) (deduct remaining item)).
    destruct (StockItem_pre_save_fields products (Some item)
                (deduct remaining item)) as [Hid [_ [Hq [Hty Hpr]]]].
    destruct (deduct_fields remaining item) as [Did [Dpr Dty]].
    split.
    { rewrite decrementLoop_step by exact Hr.
      unfold toDeduct. rewrite spec_size_itemStock. reflexivity. }
    split; [congruence | ]. split; [congruence | ]. split; [congruence | ].
    split.
    { rewrite StockItem_pre_save_lengthMM. apply deduct_lengthMM. }
    split; [rewrite Hq; apply deduct_quantity | ].
    split.
    - intros Hkept. rewrite StockItem_pre_save_kept.
      + rewrite !spec_size_itemStock. apply deduct_itemStock.
      + rewrite Dpr. exact Hkept.
    - intros p Hp Hw Hchanged.
      rewrite (StockItem_pre_save_derived products item
                 (deduct remaining item) p).
      + rewrite Hq, deduct_lengthMM. reflexivity.
      + rewrite <- Hq. exact Hchanged.
      + rewrite Dpr. exact Hp.
      + exact Hw. }
  split; [exact decrementLoop_done | ].
  split.
  { intros products stockItems quantity coll Hall Hq.
    rewrite (map_ext spec_size itemStock spec_size_itemStock).
    apply decrementLoop_remaining; [ | exact Hq].
    eapply Forall_impl; [ | exact Hall].
    intros x Hx. rewrite <- spec_size_itemStock. exact Hx. }
  vm_compute. reflexivity.
Qed.

(** The theorem at the walk over the offcut of 2 and the full bar of 10,
    for a request of 2: the offcut comes first, gives 2 and is stored
    without stock. *)
Lemma decrementStock_allocation_witness :
  candidates Scenario.bar_and_offcut 1%nat
  = [Scenario.lot 2%nat StockItem.OFFCUT 1 2;
     Scenario.lot 1%nat StockItem.FULL_BAR 1 10]
  /\ (exists stored : StockItem.t,
         decrementLoop [Scenario.steel]
           [Scenario.lot 2%nat StockItem.OFFCUT 1 2] 2 Scenario.bar_and_offcut
         = decrementLoop [Scenario.steel] []
             (2 - Qmin 2 (spec_size (Scenario.lot 2%nat StockItem.OFFCUT 1 2)))
             (StockItem.replace stored Scenario.bar_and_offcut)
         /\ spec_size stored
            == spec_size (Scenario.lot 2%nat StockItem.OFFCUT 1 2)
               - Qmin 2 (spec_size (Scenario.lot 2%nat StockItem.OFFCUT 1 2)))
  /\ fst (decrementLoop [Scenario.steel]
            (candidates Scenario.bar_and_offcut 1%nat) 2
            Scenario.bar_and_offcut)
     == Qmax 0 (2 - Num.sum [2; 10]).
Proof.
  destruct decrementStock_allocation as [_ [_ [Hstep [_ [Hleft _]]]]].
  split; [vm_compute; reflexivity | ].
  split.
  - destruct (Hstep [Scenario.steel] (Scenario.lot 2%nat StockItem.OFFCUT 1 2)
                [] 2 Scenario.bar_and_offcut)
      as [stored [Hloop [_ [_ [_ [_ [_ [Hsize _]]]]]]]]; [reflexivity | ].
    exists stored. split; [exact Hloop | ].
    apply Hsize. intros p Hp. vm_compute in Hp.
    injection Hp as <-. vm_compute. discriminate.
  - apply (Hleft [Scenario.steel]
             [Scenario.lot 2%nat StockItem.OFFCUT 1 2;
              Scenario.lot 1%nat StockItem.FULL_BAR 1 10]
             2 Scenario.bar_and_offcut).
    + repeat constructor; vm_compute; discriminate.
    + vm_compute; discriminate.
Defined.

(** C2 as it is worded fails on lots without a weight.  Of two offcut
    lots of 10 and of 2 pieces, both of weight 0, the lot of 10 is visited
    first and a request of 2 is taken from it, the lot of 2 staying as it
    was.  A loose offcut lot of 10 pieces, weight 0, is visited before an
    offcut of weight 5 although its size is the greater: a request of 2
    is taken from the lot of 10 and the offcut of 5 stays as it was.  The
    claim also fails on a lot whose weight the save hook derives again: a
    request of 6 is met from two rods stored with the weight 9, and the
    lot is stored with the weight 4 of the two thirds of a rod that are
    left, 5 less and not 6. *)
Lemma decrementStock_allocation_counterexample :
  decrementStock
    (Scenario.db (Scenario.job Project.active Scenario.zero_costs [])
       ScenarioSizes.counted) 1%nat 2
  = (true,
     Scenario.db (Scenario.job Project.active Scenario.zero_costs [])
       [Scenario.lot 1%nat StockItem.OFFCUT 8 0;
        Scenario.lot 2%nat StockItem.OFFCUT 2 0])
  /\ candidates ScenarioSizes.lots 1%nat
  = [ScenarioSizes.loose; ScenarioSizes.piece]
  /\ spec_size ScenarioSizes.piece < spec_size ScenarioSizes.loose
  /\ ~ spec_visited_before ScenarioSizes.loose ScenarioSizes.piece
  /\ ~ StronglySorted spec_visited_before
         (candidates ScenarioSizes.lots 1%nat)
  /\ decrementStock
       (Scenario.db (Scenario.job Project.active Scenario.zero_costs [])
          ScenarioSizes.lots) 1%nat 2
     = (true,
        Scenario.db (Scenario.job Project.active Scenario.zero_costs [])
          [ScenarioSizes.piece; Scenario.lot 1%nat StockItem.OFFCUT 8 0])
  /\ fst (decrementStock ScenarioSizes.rods 1%nat 6) = true
  /\ Num.sum (map spec_size (DB.stockItems ScenarioSizes.rods)) == 9
  /\ Num.sum (map spec_size
                (DB.stockItems (snd (decrementStock ScenarioSizes.rods 1%nat 6))))
     == 4.
Proof.
  assert (Hnot : ~ spec_visited_before ScenarioSizes.loose ScenarioSizes.piece).
  { intros [_ H]. specialize (H eq_refl). vm_compute in H. apply H.
    reflexivity. }
  split; [vm_compute; reflexivity | ].
  split; [vm_compute; reflexivity | ].
  split; [vm_compute; reflexivity | ].
  split; [exact Hnot | ].
  split; [ | repeat split; vm_compute; reflexivity].
  intros Hs.
  change (candidates ScenarioSizes.lots 1%nat)
    with [ScenarioSizes.loose; ScenarioSizes.piece] in Hs.
  inversion Hs as [ | ? ? _ Hall]; subst.
  inversion Hall as [ | ? ? Hfirst _]; subst.
  exact (Hnot Hfirst).
Qed.

(** Lots tracked by count all have weight 0: within one kind they are
    visited in storage order, whatever their counts. *)
Example candidates_count_lots :
  candidates [Scenario.lot 1%nat StockItem.OFFCUT 5 0;
              Scenario.lot 2%nat StockItem.OFFCUT 2 0] 1%nat
  = [Scenario.lot 1%nat StockItem.OFFCUT 5 0;
     Scenario.lot 2%nat StockItem.OFFCUT 2 0].
Proof. vm_compute. reflexivity. Qed.

Lemma filter_filter_implied {A : Type} (f g : A -> bool) (l : list A) :
  (forall x, f x = true -> g x = true) ->
  filter f (filter g l) = filter f l.
Proof.
  intros Hfg. induction l as [ | x l IH]; simpl.
  - reflexivity.
  - destruct (g x) eqn:Eg; simpl.
    + rewrite IH. reflexivity.
    + destruct (f x) eqn:Ef; [ | exact IH].
      apply Hfg in Ef. congruence.
Qed.

Lemma candidates_not_consumed (coll : list StockItem.t)
    (productId : ObjectId) :
  candidates (filter not_consumed coll) productId = candidates coll productId.
Proof.
  unfold candidates. f_equal. apply filter_filter_implied.
  intros x Hx. apply is_candidate_spec in Hx.
  destruct Hx as [_ [Hs _]]. unfold not_consumed. rewrite Hs. reflexivity.
Qed.

Lemma getTotalStock_not_consumed (coll : list StockItem.t)
    (productId : ObjectId) :
  StockItem.getTotalStock (filter not_consumed coll) productId
  = StockItem.getTotalStock coll productId.
Proof.
  unfold StockItem.getTotalStock.
  rewrite filter_filter_implied; [reflexivity | ].
  intros x Hx. apply andb_true_iff in Hx. destruct Hx as [_ Hs].
  unfold not_consumed. destruct (StockItem.status x); simpl in *; congruence.
Qed.

(** C5.  A lot of the collection after [decrementStock] is either a lot
    as it was before the call, or a visited lot, and a visited lot is
    consumed exactly when its count is zero or less: it stays available
    as long as its count is positive.  A consumed lot is never visited and
    does not count in the total stock: dropping the consumed lots changes
    neither the lots visited nor the totals. *)
Theorem decrementStock_consumed :
  (forall (db : DB.t) (productId : ObjectId) (quantity : Q)
          (x : StockItem.t),
      In x (DB.stockItems (snd (decrementStock db productId quantity))) ->
      In x (DB.stockItems db)
      \/ exists item : StockItem.t,
           In item (candidates (DB.stockItems db) productId)
           /\ StockItem._id x = StockItem._id item
           /\ (StockItem.status x = StockItem.consumed
               <-> StockItem.quantity x <= 0)
           /\ (0 < StockItem.quantity x ->
               StockItem.status x = StockItem.available))
  /\ (forall (coll : list StockItem.t) (productId : ObjectId)
             (x : StockItem.t),
         In x (candidates coll productId) ->
         StockItem.status x <> StockItem.consumed)
  /\ (forall (coll : list StockItem.t) (productId : ObjectId),
         candidates (filter not_consumed coll) productId
         = candidates coll productId)
  /\ (forall (coll : list StockItem.t) (productId : ObjectId),
         StockItem.getTotalStock (filter not_consumed coll) productId
         = StockItem.getTotalStock coll productId).
Proof.
  split.
  { intros db productId quantity x. unfold decrementStock.
    destruct (decrementLoop (DB.products db)
                (candidates (DB.stockItems db) productId) quantity
                (DB.stockItems db)) as [remaining coll] eqn:E.
    simpl. intros Hx.
    assert (Hx' : In x (snd (decrementLoop (DB.products db)
                (candidates (DB.stockItems db) productId) quantity
                (DB.stockItems db)))) by (rewrite E; exact Hx).
    apply decrementLoop_In in Hx'.
    destruct Hx' as [H | [item [r [Hitem [Hr ->]]]]]; [left; exact H | ].
    right. exists item. split; [exact Hitem | ].
    apply candidates_In in Hitem.
    destruct Hitem as [_ [_ [Hs _]]].
    destruct (StockItem_pre_save_fields (DB.products db) (Some item)
                (deduct r item)) as [Hid [Hst [Hqt _]]].
    destruct (deduct_fields r item) as [Hid' _].
    rewrite Hid, Hst, Hqt, Hid'.
    split; [reflexivity | ]. split.
    - apply deduct_consumed. congruence.
    - intros Hpos. rewrite deduct_status by exact Hpos. exact Hs. }
  split.
  { intros coll productId x Hx. apply candidates_In in Hx.
    destruct Hx as [_ [_ [Hs _]]]. congruence. }
  split; [exact candidates_not_consumed | exact getTotalStock_not_consumed].
Qed.

(** The theorem at the request of 2 on the offcut and the full bar, for
    the offcut as the call leaves it: a visited lot, consumed at count
    zero. *)
Lemma decrementStock_consumed_witness :
  In Scenario.used_offcut Scenario.bar_and_offcut
  \/ exists item : StockItem.t,
       In item (candidates Scenario.bar_and_offcut 1%nat)
       /\ StockItem._id Scenario.used_offcut = StockItem._id item
       /\ (StockItem.status Scenario.used_offcut = StockItem.consumed
           <-> StockItem.quantity Scenario.used_offcut <= 0)
       /\ (0 < StockItem.quantity Scenario.used_offcut ->
           StockItem.status Scenario.used_offcut = StockItem.available).
Proof.
  apply (proj1 decrementStock_consumed
           (Scenario.db (Scenario.job Project.active Scenario.zero_costs [])
              Scenario.bar_and_offcut) 1%nat 2 Scenario.used_offcut).
  vm_compute. right. left. reflexivity.
Defined.

End DecrementFacts.

Section ProjectFacts.
Import Controller.
Local Open Scope Q_scope.
Local Ltac lra := Lqa.lra.

(** A closed project takes no material. *)
Lemma addMaterial_closed (db : DB.t) (req : AddMaterialRequest)
    (project : Project.t) :
  Project.findById (DB.projects db) (am_params_id req) = Some project ->
  Project.status project = Project.completed
  \/ Project.status project = Project.cancelled ->
  addMaterial db req = (ProjectClosed, db).
Proof.
  intros Hp Hs. unfold addMaterial. rewrite Hp.
  destruct Hs as [-> | ->]; reflexivity.
Qed.

(** A closed project takes no labour. *)
Lemma addLabor_closed (db : DB.t) (req : AddLaborRequest)
    (project : Project.t) :
  Project.findById (DB.projects db) (al_params_id req) = Some project ->
  Project.status project = Project.completed
  \/ Project.status project = Project.cancelled ->
  addLabor db req = (ProjectClosed, db).
Proof.
  intros Hp Hs. unfold addLabor. rewrite Hp.
  destruct Hs as [-> | ->]; reflexivity.
Qed.

(** The removal of a material is refused as closed exactly on a completed
    project. *)
Lemma removeMaterial_closed_iff (db : DB.t) (req : RemoveMaterialRequest)
    (project : Project.t) :
  Project.findById (DB.projects db) (rm_params_id req) = Some project ->
  (fst (removeMaterial db req) = ProjectClosed
   <-> Project.status project = Project.completed).
Proof.
  intros Hp. unfold removeMaterial. rewrite Hp.
  destruct (Project.status project); simpl;
    try (split; [ | discriminate]);
    try (split; reflexivity).
  all: destruct (ProjectMaterial.findById _ _) as [pm | ]; simpl;
    try discriminate.
  all: destruct (negb _); simpl; try discriminate.
  all: destruct (Movement.create _ _) as [[m ms] | msg]; simpl;
    try discriminate.
  all: destruct (restoreStock _ _ _); simpl; discriminate.
Qed.

(** C7.  [removeLabor] never looks at the status of the project: on any
    project, a completed one too, the entry is removed and the answer is
    a success. *)
Theorem removeLabor_ignores_status :
  (forall (db : DB.t) (req : RemoveLaborRequest) (project : Project.t)
          (entryIndex : nat),
      Project.findById (DB.projects db) (rl_params_id req) = Some project ->
      findIndex
        (fun e => Nat.eqb (Project.entry_id e) (rl_params_entryId req))
        (Project.laborEntries project) = Some entryIndex ->
      fst (removeLabor db req) = Success)
  /\ removeLabor
       (Scenario.db
          (Scenario.job Project.completed ScenarioCosts.labor_costs
             [ScenarioCosts.shift]) [])
       ScenarioCosts.remove_shift
     = (Success,
        Scenario.db
          (Scenario.job Project.completed ScenarioCosts.labor_costs []) []).
Proof.
  split.
  - intros db req project entryIndex Hp Hi.
    unfold removeLabor. rewrite Hp, Hi. reflexivity.
  - vm_compute. reflexivity.
Qed.

(** The theorem at the completed project of the scenario. *)
Lemma removeLabor_ignores_status_witness :
  fst (removeLabor
         (Scenario.db
            (Scenario.job Project.completed ScenarioCosts.labor_costs
               [ScenarioCosts.shift]) [])
         ScenarioCosts.remove_shift) = Success.
Proof.
  apply (proj1 removeLabor_ignores_status _ _
           (Scenario.job Project.completed ScenarioCosts.labor_costs
              [ScenarioCosts.shift]) 0%nat);
    reflexivity.
Defined.

Lemma fold_left_labor (l : list Project.LaborEntry) (a : Q) :
  fold_left (fun sum entry => sum + Project.hours entry * Project.hourlyRate entry)
    l a
  == a + Num.sum (map (fun e => Project.hours e * Project.hourlyRate e) l).
Proof.
  revert a. induction l as [ | e l IH]; intros a; simpl.
  - unfold Num.sum. simpl. lra.
  - rewrite IH, sum_cons. lra.
Qed.

(** With at least one labour entry the hook recomputes the labour cost
    from the entries. *)
Lemma pre_save_labor_nonempty (this : Project.t) :
  Project.laborEntries this <> [] ->
  Project.labor (Project.costs (Project.pre_save this))
  == ScenarioCosts.live_labor this.
Proof.
  intros Hne. unfold Project.pre_save, ScenarioCosts.live_labor. simpl.
  destruct (Project.laborEntries this) as [ | e l] eqn:E; [congruence | ].
  rewrite fold_left_labor. lra.
Qed.

(** With no labour entry the hook keeps the stored labour cost. *)
Lemma pre_save_labor_empty (this : Project.t) :
  Project.laborEntries this = [] ->
  Project.labor (Project.costs (Project.pre_save this))
  = Project.labor (Project.costs this).
Proof.
  intros Hnil. unfold Project.pre_save. simpl. rewrite Hnil. reflexivity.
Qed.

(** C4.  Removing the only labour entry of a project leaves the labour
    cost and the total of the aggregate at their old value, 20, although
    the project has no labour entry left and the live sum is 0. *)
Theorem removeLabor_last_entry_stale_cost :
  exists project : Project.t,
    snd (removeLabor
           (Scenario.db
              (Scenario.job Project.active ScenarioCosts.labor_costs
                 [ScenarioCosts.shift]) [])
           ScenarioCosts.remove_shift)
    = Scenario.db project []
    /\ Project.laborEntries project = []
    /\ ScenarioCosts.live_labor project = 0
    /\ Project.labor (Project.costs project) = 20
    /\ Project.total (Project.costs project) = 20.
Proof.
  eexists. split; [vm_compute; reflexivity | ].
  repeat split.
Qed.

(** C6.  [restoreStock] does not use the quantity it is given: a stored
    available full bar gets one piece more, and without one a lot of one
    piece is created.  Restoring 5 to a lot of 3 pieces gives 4 pieces. *)
Theorem restoreStock_adds_one_piece :
  (forall (db : DB.t) (productId : ObjectId) (q1 q2 : Q),
      restoreStock db productId q1 = restoreStock db productId q2)
  /\ DB.stockItems
       (snd (restoreStock
               (Scenario.db (Scenario.job Project.active Scenario.zero_costs [])
                  [Scenario.lot 1%nat StockItem.FULL_BAR 3 0]) 1%nat 5))
     = [Scenario.lot 1%nat StockItem.FULL_BAR 4 0]
  /\ DB.stockItems
       (snd (restoreStock
               (Scenario.db (Scenario.job Project.active Scenario.zero_costs [])
                  []) 1%nat 5))
     = [Scenario.lot 1%nat StockItem.FULL_BAR 1 0].
Proof.
  split; [reflexivity | ].
  split; vm_compute; reflexivity.
Qed.

End ProjectFacts.

(* ================================================================= *)
(** * More on the mass calculator *)

Section MetalMathMore.
Import MetalMath.
Local Open Scope R_scope.
Local Open Scope string_scope.

Lemma Math_round_monotone (x y : R) :
  x <= y -> Math_round x <= Math_round y.
Proof.
  intros Hxy. unfold Math_round.
  destruct (base_Int_part (x + / 2)) as [Hx _].
  destruct (base_Int_part (y + / 2)) as [_ Hy].
  apply IZR_le.
  assert (H : IZR (Int_part (x + / 2)) < IZR (Int_part (y + / 2) + 1)).
  { rewrite plus_IZR. lra. }
  apply lt_IZR in H. lia.
Qed.

Lemma Math_round_0 : Math_round 0 = 0.
Proof. apply (Math_round_eq 0 0). lra. Qed.

Lemma calculateWeight_monotone (v1 v2 rho1 rho2 : R) :
  0 <= v1 <= v2 -> 0 <= rho1 <= rho2 ->
  0 <= calculateWeight v1 rho1 <= calculateWeight v2 rho2.
Proof.
  intros [Hv1 Hv] [Hr1 Hr]. unfold calculateWeight.
  assert (H0 : 0 <= v1 * rho1) by (apply Rmult_le_pos; assumption).
  assert (H1 : v1 * rho1 <= v2 * rho2).
  { apply Rmult_le_compat; assumption. }
  split.
  - apply Rmult_le_pos; [ | lra].
    rewrite <- Math_round_0. apply Math_round_monotone. lra.
  - apply Rmult_le_compat_r; [lra | ].
    apply Math_round_monotone. lra.
Qed.

(** [getWeight] is the weight of a prism: a cross-section, which depends
    on the shape and the dimensions only, times the length. *)
Lemma getWeight_prism (shape : string) (dimensions : Dimensions) :
  supported_shape shape ->
  exists area : R,
    (solid_dimensions dimensions -> 0 <= area)
    /\ forall (lengthMm : R) (density : option R)
              (materialType : option string),
         getWeight shape dimensions lengthMm density materialType
         = Ok (calculateWeight (area * (lengthMm / 10))
                 (effectiveDensity density materialType)).
Proof.
  unfold supported_shape. simpl.
  intros [<- | [<- | [<- | [<- | [<- | []]]]]].
  - exists (PI * (d dimensions / 10 / 2) ^ 2). split.
    + intros _. apply Rmult_le_pos; [left; apply PI_RGT_0 | apply pow2_ge_0].
    + reflexivity.
  - exists (sqrt 3 / 2 * (d dimensions / 10) ^ 2). split.
    + intros _. apply Rmult_le_pos; [ | apply pow2_ge_0].
      pose proof (sqrt_pos 3). lra.
    + reflexivity.
  - exists (PI * (d dimensions / 10 / 2) ^ 2
            - PI * (d dimensions / 10 / 2 - wall dimensions / 10) ^ 2).
    split.
    + intros [Hd [_ [_ [Hw Hwd]]]].
      pose proof PI_RGT_0 as Hpi.
      replace (PI * (d dimensions / 10 / 2) ^ 2
               - PI * (d dimensions / 10 / 2 - wall dimensions / 10) ^ 2)
        with (PI * (wall dimensions / 10
                    * (d dimensions / 10 - wall dimensions / 10))) by field.
      apply Rmult_le_pos; [lra | ].
      apply Rmult_le_pos; lra.
    + reflexivity.
  - exists (w dimensions / 10 * (h dimensions / 10)). split.
    + intros [_ [Hw [Hh _]]]. apply Rmult_le_pos; lra.
    + reflexivity.
  - exists (w dimensions / 10 * (h dimensions / 10)). split.
    + intros [_ [Hw [Hh _]]]. apply Rmult_le_pos; lra.
    + reflexivity.
Qed.

(** The weight of a solid of a supported shape is never negative, and it
    never goes down when the length or the density grows. *)
Theorem getWeight_nonnegative_monotone
    (shape : string) (dimensions : Dimensions)
    (length1 length2 rho1 rho2 : R) (materialType : option string) :
  supported_shape shape -> solid_dimensions dimensions ->
  0 <= length1 <= length2 -> 0 < rho1 <= rho2 ->
  exists weight1 weight2 : R,
    getWeight shape dimensions length1 (Some rho1) materialType = Ok weight1
    /\ getWeight shape dimensions length2 (Some rho2) materialType
       = Ok weight2
    /\ 0 <= weight1 <= weight2.
Proof.
  intros Hshape Hdim [H1 H12] [Hr1 Hr12].
  destruct (getWeight_prism shape dimensions Hshape) as [area [Harea Hall]].
  specialize (Harea Hdim).
  do 2 eexists. split; [apply Hall | ]. split; [apply Hall | ].
  rewrite !effectiveDensity_positive by lra.
  apply calculateWeight_monotone; [ | lra].
  split.
  - apply Rmult_le_pos; lra.
  - apply Rmult_le_compat_l; lra.
Qed.

(** The theorem at a steel tube of 1 m and a stainless one of 6 m. *)
Lemma getWeight_nonnegative_monotone_witness :
  exists weight1 weight2 : R,
    getWeight "tube" {| d := 40; w := 0; h := 0; wall := 2 |} 1000
      (Some (785 / 100)) None = Ok weight1
    /\ getWeight "tube" {| d := 40; w := 0; h := 0; wall := 2 |} 6000
         (Some (790 / 100)) None = Ok weight2
    /\ 0 <= weight1 <= weight2.
Proof.
  apply (getWeight_nonnegative_monotone "tube"
           {| d := 40; w := 0; h := 0; wall := 2 |}
           1000 6000 (785 / 100) (790 / 100) None).
  - unfold supported_shape. simpl. tauto.
  - unfold solid_dimensions. simpl. lra.
  - lra.
  - lra.
Defined.

(** [getWeight] reads the density through [effectiveDensity] only. *)
Lemma getWeight_effectiveDensity (shape : string) (dimensions : Dimensions)
    (lengthMm : R) (density1 density2 : option R)
    (materialType1 materialType2 : option string) :
  effectiveDensity density1 materialType1
  = effectiveDensity density2 materialType2 ->
  getWeight shape dimensions lengthMm density1 materialType1
  = getWeight shape dimensions lengthMm density2 materialType2.
Proof.
  intros E. unfold getWeight. rewrite E. reflexivity.
Qed.

Lemma DENSITIES_positive (materialType : string) (rho : R) :
  DENSITIES materialType = Some rho -> 0 < rho.
Proof.
  unfold DENSITIES.
  repeat match goal with
         | |- context [String.eqb ?a ?b] => destruct (String.eqb a b)
         end;
    intros [= <-] || discriminate; lra.
Qed.

(** A missing or zero density is replaced by the standard density of the
    material type, and by the density of steel when the material type is
    missing, or is a name that is neither in the table nor inherited from
    [Object.prototype]. *)
Theorem getWeight_density_fallback
    (shape : string) (dimensions : Dimensions) (lengthMm : R)
    (density : option R) (materialType : option string) :
  density = None \/ density = Some 0 ->
  (forall (m : string) (rho : R),
      materialType = Some m -> DENSITIES m = Some rho ->
      getWeight shape dimensions lengthMm density materialType
      = getWeight shape dimensions lengthMm (Some rho) materialType)
  /\ ((materialType = None
       \/ exists m : string,
            materialType = Some m /\ DENSITIES m = None
            /\ ~ In m Object_prototype_names) ->
      getWeight shape dimensions lengthMm density materialType
      = getWeight shape dimensions lengthMm (Some (785 / 100)) materialType).
Proof.
  intros Hdensity.
  assert (Hfalsy : forall b, or_else density b = b).
  { intros b. destruct Hdensity as [-> | ->]; simpl; [reflexivity | ].
    destruct (Req_dec_T 0 0) as [_ | N]; [reflexivity | contradiction]. }
  split.
  - intros m rho -> Hm. apply getWeight_effectiveDensity.
    pose proof (DENSITIES_positive m rho Hm) as Hpos.
    rewrite (effectiveDensity_positive rho (Some m) Hpos).
    unfold effectiveDensity. rewrite Hfalsy, Hm. simpl.
    destruct (Req_dec_T rho 0); [lra | reflexivity].
  - intros Hm. apply getWeight_effectiveDensity.
    rewrite effectiveDensity_positive by lra.
    unfold effectiveDensity. rewrite Hfalsy.
    destruct Hm as [-> | [m [-> [-> _]]]]; reflexivity.
Qed.

(** The theorem at the material type 'other' of the Product schema, which
    the table does not list. *)
Lemma getWeight_density_fallback_witness :
  getWeight "round" {| d := 50; w := 0; h := 0; wall := 0 |} 1000
    None (Some "other")
  = getWeight "round" {| d := 50; w := 0; h := 0; wall := 0 |} 1000
      (Some (785 / 100)) (Some "other").
Proof.
  apply (getWeight_density_fallback "round"
           {| d := 50; w := 0; h := 0; wall := 0 |} 1000 None (Some "other")).
  - left. reflexivity.
  - right. exists "other". split; [reflexivity | ]. split; [reflexivity | ].
    intros Hin. repeat (destruct Hin as [Hin | Hin]; [discriminate Hin | ]).
    destruct Hin.
Defined.

(** A tube whose wall is the outer radius weighs what the solid round bar
    weighs, and a tube without a wall weighs nothing. *)
Theorem getWeight_tube_limits
    (dimensions : Dimensions) (lengthMm : R) (density : option R)
    (materialType : option string) :
  (wall dimensions = d dimensions / 2 ->
   getWeight "tube" dimensions lengthMm density materialType
   = getWeight "round" dimensions lengthMm density materialType)
  /\ (wall dimensions = 0 ->
      getWeight "tube" dimensions lengthMm density materialType = Ok 0).
Proof.
  unfold getWeight. simpl String.eqb. cbv iota. split; intros Hw.
  - f_equal. f_equal. unfold volumeTube, volumeRoundBar, mmToCm.
    rewrite Hw. field.
  - f_equal. unfold calculateWeight, volumeTube, mmToCm. rewrite Hw.
    replace ((PI * (d dimensions / 10 / 2) ^ 2
              - PI * (d dimensions / 10 / 2 - 0 / 10) ^ 2) * (lengthMm / 10)
             * effectiveDensity density materialType / 1000 * 100)
      with 0 by field.
    rewrite Math_round_0. field.
Qed.

(** The theorem at a tube of 40 mm with a wall of 20 mm. *)
Lemma getWeight_tube_limits_witness :
  getWeight "tube" {| d := 40; w := 0; h := 0; wall := 20 |} 6000
    (Some (785 / 100)) None
  = getWeight "round" {| d := 40; w := 0; h := 0; wall := 20 |} 6000
      (Some (785 / 100)) None.
Proof.
  apply (proj1 (getWeight_tube_limits
                  {| d := 40; w := 0; h := 0; wall := 20 |} 6000
                  (Some (785 / 100)) None)).
  simpl. lra.
Defined.

(** The length computed back from the rounded weight of a round bar. *)
Lemma lengthFromWeight_calculateWeight (diameterMm lengthMm rho : R) :
  0 < diameterMm -> 0 < rho ->
  Rabs (lengthFromWeight
          (calculateWeight (volumeRoundBar diameterMm lengthMm) rho)
          diameterMm rho - lengthMm)
  <= / 2 + 50 / (rho * (PI * (diameterMm / 10 / 2) ^ 2)).
Proof.
  intros Hd Hrho.
  pose proof (area_positive diameterMm Hd) as HA.
  unfold mmToCm in HA.
  set (A := PI * (diameterMm / 10 / 2) ^ 2) in *.
  set (weightKg := calculateWeight (volumeRoundBar diameterMm lengthMm) rho).
  pose proof (calculateWeight_error (volumeRoundBar diameterMm lengthMm) rho)
    as Hw.
  fold weightKg in Hw.
  unfold volumeRoundBar, mmToCm in Hw. fold A in Hw.
  unfold lengthFromWeight, mmToCm. fold A.
  set (z := weightKg * 1000 / rho / A * 10).
  pose proof (Math_round_error z) as Hz.
  assert (HrA : 0 < rho * A) by (apply Rmult_lt_0_compat; assumption).
  assert (Hk : z - lengthMm
               = (weightKg - A * (lengthMm / 10) * rho / 1000)
                 * (10000 / (rho * A))).
  { unfold z. field. split; lra. }
  assert (Hpos : 0 < 10000 / (rho * A)) by (apply Rdiv_lt_0_compat; lra).
  assert (Hzl : Rabs (z - lengthMm) <= 50 / (rho * A)).
  { rewrite Hk, Rabs_mult.
    rewrite (Rabs_right (10000 / (rho * A))) by lra.
    replace (50 / (rho * A)) with (/ 200 * (10000 / (rho * A)))
      by (field; lra).
    apply Rmult_le_compat_r; lra. }
  replace (Math_round z - lengthMm)
    with ((Math_round z - z) + (z - lengthMm)) by ring.
  eapply Rle_trans; [apply Rabs_triang | lra].
Qed.

Lemma Rabs_bound (a b : R) : Rabs a <= b -> - b <= a <= b.
Proof.
  intros H. pose proof (Rle_abs a) as H1. pose proof (Rle_abs (- a)) as H2.
  rewrite Rabs_Ropp in H2. lra.
Qed.

(** [weightToMeters] on the rounded weight of a round bar gives back the
    length of the bar in metres, up to the three roundings on the way:
    the mass to a hundredth of a kilogram, the length to a millimetre and
    the result to a centimetre. *)
Theorem weightToMeters_getWeight
    (dimensions : Dimensions) (lengthMm rho : R)
    (materialType : option string) :
  0 < d dimensions -> 0 < rho ->
  exists weightKg : R,
    getWeight "round" dimensions lengthMm (Some rho) materialType
    = Ok weightKg
    /\ Rabs (weightToMeters weightKg (d dimensions) (Some rho)
             - lengthMm / 1000)
       <= / 200
          + (/ 2 + 50 / (rho * (PI * (d dimensions / 10 / 2) ^ 2))) / 1000.
Proof.
  intros Hd Hrho.
  eexists. split.
  { unfold getWeight. simpl String.eqb. cbv iota.
    rewrite effectiveDensity_positive by assumption. reflexivity. }
  pose proof (lengthFromWeight_calculateWeight (d dimensions) lengthMm rho
                Hd Hrho) as Hl.
  unfold weightToMeters.
  set (l := lengthFromWeight
              (calculateWeight (volumeRoundBar (d dimensions) lengthMm) rho)
              (d dimensions) rho) in *.
  set (bound := / 2 + 50 / (rho * (PI * (d dimensions / 10 / 2) ^ 2))) in *.
  destruct (Math_round_bounds (l / 1000 * 100)) as [Hlo Hhi].
  apply Rabs_bound in Hl. apply Rabs_le. split; lra.
Qed.

(** The theorem at the bar of 50 mm by 1 m. *)
Lemma weightToMeters_getWeight_witness :
  exists weightKg : R,
    getWeight "round" {| d := 50; w := 0; h := 0; wall := 0 |} 1000
      (Some (785 / 100)) None = Ok weightKg
    /\ Rabs (weightToMeters weightKg 50 (Some (785 / 100)) - 1000 / 1000)
       <= / 200
          + (/ 2 + 50 / (785 / 100 * (PI * (50 / 10 / 2) ^ 2))) / 1000.
Proof.
  apply (weightToMeters_getWeight
           {| d := 50; w := 0; h := 0; wall := 0 |} 1000 (785 / 100) None);
    simpl; lra.
Defined.

End MetalMathMore.

(* ================================================================= *)
(** * More on the allocation walk *)

Section DecrementMore.
Import Controller.
Local Open Scope Q_scope.
Local Ltac lra := Lqa.lra.

Lemma DB_set_stockItems_same (db : DB.t) :
  DB.set_stockItems (DB.stockItems db) db = db.
Proof. destruct db. reflexivity. Qed.

Lemma replace_ids (doc : StockItem.t) (coll : list StockItem.t) :
  map StockItem._id (StockItem.replace doc coll) = map StockItem._id coll.
Proof.
  unfold StockItem.replace. rewrite map_map. apply map_ext_in.
  intros x _. destruct (Nat.eqb_spec (StockItem._id x) (StockItem._id doc));
    congruence.
Qed.

Lemma decrementLoop_ids (products : list Product.t)
    (stockItems : list StockItem.t) :
  forall (remaining : Q) (coll : list StockItem.t),
    map StockItem._id (snd (decrementLoop products stockItems remaining coll))
    = map StockItem._id coll.
Proof.
  induction stockItems as [ | item rest IH]; intros remaining coll; simpl.
  - reflexivity.
  - destruct (Num.leb remaining 0); simpl; [reflexivity | ].
    rewrite IH. apply replace_ids.
Qed.

(** [decrementStock] neither creates nor deletes a lot: the lots keep
    their identifiers and their order, and the other collections are not
    touched. *)
Theorem decrementStock_keeps_lots (db : DB.t) (productId : ObjectId)
    (quantity : Q) :
  map StockItem._id (DB.stockItems (snd (decrementStock db productId quantity)))
  = map StockItem._id (DB.stockItems db)
  /\ DB.projects (snd (decrementStock db productId quantity)) = DB.projects db
  /\ DB.products (snd (decrementStock db productId quantity)) = DB.products db
  /\ DB.movements (snd (decrementStock db productId quantity))
     = DB.movements db
  /\ DB.projectMaterials (snd (decrementStock db productId quantity))
     = DB.projectMaterials db.
Proof.
  split; [ | apply decrementStock_frame].
  unfold decrementStock.
  pose proof (decrementLoop_ids (DB.products db)
                (candidates (DB.stockItems db) productId) quantity
                (DB.stockItems db)) as H.
  destruct (decrementLoop (DB.products db)
              (candidates (DB.stockItems db) productId) quantity
              (DB.stockItems db)) as [remaining coll].
  exact H.
Qed.

Lemma sum_nonneg (l : list Q) : Forall (fun x => 0 <= x) l -> 0 <= Num.sum l.
Proof.
  induction 1 as [ | x l Hx Hl IH].
  - unfold Num.sum. simpl. lra.
  - rewrite sum_cons. lra.
Qed.

Lemma candidates_itemStock_nonneg (coll : list StockItem.t)
    (productId : ObjectId) :
  (forall x, In x coll -> 0 <= StockItem.calculatedWeight x) ->
  Forall (fun x => 0 <= itemStock x) (candidates coll productId).
Proof.
  intros Hw. apply Forall_forall. intros x Hx.
  apply candidates_In in Hx. destruct Hx as [Hin [_ [_ Hq]]].
  unfold itemStock, Num.or_else.
  destruct (Num.truthy (StockItem.calculatedWeight x)).
  - apply Hw, Hin.
  - lra.
Qed.

(** When no lot has a negative weight, [decrementStock] returns [true]
    exactly when the request does not exceed what the visited lots hold;
    a request of zero or less changes nothing. *)
Theorem decrementStock_satisfied (db : DB.t) (productId : ObjectId)
    (quantity : Q) :
  (forall x, In x (DB.stockItems db) -> 0 <= StockItem.calculatedWeight x) ->
  (fst (decrementStock db productId quantity) = true
   <-> quantity
       <= Num.sum (map itemStock (candidates (DB.stockItems db) productId)))
  /\ (quantity <= 0 -> decrementStock db productId quantity = (true, db)).
Proof.
  intros Hw.
  pose proof (candidates_itemStock_nonneg _ productId Hw) as Hall.
  assert (Hsum : 0 <= Num.sum (map itemStock
                                 (candidates (DB.stockItems db) productId))).
  { apply sum_nonneg. apply Forall_map. exact Hall. }
  assert (Hdone : quantity <= 0 ->
                  decrementStock db productId quantity = (true, db)).
  { intros Hq. unfold decrementStock.
    rewrite decrementLoop_done by exact Hq.
    apply leb_le in Hq. rewrite Hq, DB_set_stockItems_same. reflexivity. }
  split; [ | exact Hdone].
  destruct (Qlt_le_dec 0 quantity) as [Hpos | Hneg].
  - pose proof (decrementLoop_remaining (DB.products db) _ Hall quantity
                  (DB.stockItems db)) as Hrem.
    unfold decrementStock.
    destruct (decrementLoop (DB.products db)
                (candidates (DB.stockItems db) productId) quantity
                (DB.stockItems db)) as [remaining coll].
    simpl in *. specialize (Hrem ltac:(lra)).
    rewrite leb_le, Hrem.
    destruct (Qlt_le_dec
                (Num.sum (map itemStock
                            (candidates (DB.stockItems db) productId)))
                quantity) as [Hlt | Hle].
    + rewrite Qmax_0_nonneg by lra. split; intros H; lra.
    + rewrite Qmax_0_nonpos by lra. split; intros H; lra.
  - rewrite (Hdone Hneg). simpl. split; intros _; [lra | reflexivity].
Qed.

(** The theorem at the offcut of 2 and the full bar of 10: 12 can be
    met. *)
Lemma decrementStock_satisfied_witness :
  fst (decrementStock
         (Scenario.db (Scenario.job Project.active Scenario.zero_costs [])
            Scenario.bar_and_offcut) 1%nat 12) = true.
Proof.
  apply (proj1 (decrementStock_satisfied
                  (Scenario.db
                     (Scenario.job Project.active Scenario.zero_costs [])
                     Scenario.bar_and_offcut) 1%nat 12
                  ltac:(simpl; intros x [<- | [<- | []]];
                        vm_compute; discriminate))).
  vm_compute. discriminate.
Defined.

Lemma In_same_id (coll : list StockItem.t) (x y : StockItem.t) :
  NoDup (map StockItem._id coll) -> In x coll -> In y coll ->
  StockItem._id x = StockItem._id y -> x = y.
Proof.
  induction coll as [ | z coll IH]; simpl; intros Hnd Hx Hy E.
  - contradiction.
  - inversion Hnd as [ | ? ? Hnotin Hnd']; subst.
    destruct Hx as [-> | Hx], Hy as [-> | Hy].
    + reflexivity.
    + exfalso. apply Hnotin. rewrite E. apply in_map. exact Hy.
    + exfalso. apply Hnotin. rewrite <- E. apply in_map. exact Hx.
    + apply IH; assumption.
Qed.

Lemma replace_other_product (productId : ObjectId) (doc : StockItem.t)
    (coll : list StockItem.t) :
  StockItem.product doc = productId ->
  (forall x, In x coll -> StockItem._id x = StockItem._id doc ->
             StockItem.product x = productId) ->
  filter (other_product productId) (StockItem.replace doc coll)
  = filter (other_product productId) coll.
Proof.
  intros Hdoc. unfold StockItem.replace.
  induction coll as [ | x coll IH]; simpl; intros Hsame.
  - reflexivity.
  - rewrite IH by (intros y Hy; apply Hsame; right; exact Hy).
    destruct (Nat.eqb_spec (StockItem._id x) (StockItem._id doc)) as [E | _].
    + assert (Ed : other_product productId doc = false).
      { unfold other_product. rewrite Hdoc, Nat.eqb_refl. reflexivity. }
      assert (Ex : other_product productId x = false).
      { unfold other_product.
        rewrite (Hsame x (or_introl eq_refl) E), Nat.eqb_refl. reflexivity. }
      rewrite Ed, Ex. reflexivity.
    + reflexivity.
Qed.

Lemma decrementLoop_other_product (products : list Product.t)
    (productId : ObjectId) (stockItems : list StockItem.t) :
  (forall item, In item stockItems -> StockItem.product item = productId) ->
  forall (remaining : Q) (coll : list StockItem.t),
    (forall x item, In x coll -> In item stockItems ->
                    StockItem._id x = StockItem._id item ->
                    StockItem.product x = productId) ->
    filter (other_product productId)
      (snd (decrementLoop products stockItems remaining coll))
    = filter (other_product productId) coll.
Proof.
  induction stockItems as [ | item rest IH]; intros Hitems remaining coll Hinv;
    simpl.
  - reflexivity.
  - destruct (Num.leb remaining 0); simpl; [reflexivity | ].
    destruct (StockItem_pre_save_fields products (Some item)
                (deduct remaining item)) as [Hid [_ [_ [_ Hprod]]]].
    destruct (deduct_fields remaining item) as [Hid' [Hprod' _]].
    assert (Hdoc : StockItem.product
                     (StockItem.pre_save products (Some item)
                        (deduct remaining item)) = productId).
    { rewrite Hprod, Hprod'. apply Hitems. left. reflexivity. }
    rewrite IH.
    + unfold StockItem.save. apply replace_other_product; [exact Hdoc | ].
      intros x Hx E. apply (Hinv x item Hx (or_introl eq_refl)).
      rewrite E, Hid, Hid'. reflexivity.
    + intros i Hi. apply Hitems. right. exact Hi.
    + intros x i Hx Hi E. unfold StockItem.save in Hx.
      apply replace_In in Hx. destruct Hx as [Hx | ->].
      * apply (Hinv x i Hx (or_intror Hi) E).
      * exact Hdoc.
Qed.

(** With lots that have distinct identifiers, [decrementStock] leaves the
    lots of every other product as they are. *)
Theorem decrementStock_other_products (db : DB.t) (productId : ObjectId)
    (quantity : Q) :
  NoDup (map StockItem._id (DB.stockItems db)) ->
  filter (other_product productId)
    (DB.stockItems (snd (decrementStock db productId quantity)))
  = filter (other_product productId) (DB.stockItems db).
Proof.
  intros Hnd. unfold decrementStock.
  pose proof (decrementLoop_other_product (DB.products db) productId
                (candidates (DB.stockItems db) productId)) as H.
  destruct (decrementLoop (DB.products db)
              (candidates (DB.stockItems db) productId) quantity
              (DB.stockItems db)) as [remaining coll] eqn:E.
  simpl.
  replace coll with (snd (decrementLoop (DB.products db)
                            (candidates (DB.stockItems db) productId)
                            quantity (DB.stockItems db)))
    by (rewrite E; reflexivity).
  apply H.
  - intros item Hitem. apply candidates_In in Hitem. tauto.
  - intros x item Hx Hitem Eid. apply candidates_In in Hitem.
    destruct Hitem as [Hin [Hp _]].
    rewrite (In_same_id _ x item Hnd Hx Hin Eid). exact Hp.
Qed.

(** The theorem at the offcut and the full bar, for a walk over another
    product. *)
Lemma decrementStock_other_products_witness :
  filter (other_product 2%nat)
    (DB.stockItems
       (snd (decrementStock
               (Scenario.db
                  (Scenario.job Project.active Scenario.zero_costs [])
                  Scenario.bar_and_offcut) 2%nat 5)))
  = Scenario.bar_and_offcut.
Proof.
  rewrite (decrementStock_other_products
             (Scenario.db (Scenario.job Project.active Scenario.zero_costs [])
                Scenario.bar_and_offcut) 2%nat 5).
  - reflexivity.
  - simpl. repeat constructor; simpl; intuition discriminate.
Defined.

Lemma sum_Permutation (l1 l2 : list Q) :
  Permutation l1 l2 -> Num.sum l1 == Num.sum l2.
Proof.
  induction 1 as [ | x l1 l2 _ IH | x y l | l1 l2 l3 _ IH1 _ IH2].
  - reflexivity.
  - rewrite !sum_cons, IH. reflexivity.
  - rewrite !sum_cons. lra.
  - rewrite IH1. exact IH2.
Qed.

Lemma sum_map_ext_in {A : Type} (f g : A -> Q) (l : list A) :
  (forall x, In x l -> f x == g x) ->
  Num.sum (map f l) == Num.sum (map g l).
Proof.
  induction l as [ | x l IH]; intros H; simpl.
  - reflexivity.
  - rewrite !sum_cons, (H x (or_introl eq_refl)), IH.
    + reflexivity.
    + intros y Hy. apply H. right. exact Hy.
Qed.

Lemma sum_positive (l : list Q) :
  l <> [] -> Forall (fun x => 0 < x) l -> 0 < Num.sum l.
Proof.
  intros Hne Hall. destruct Hall as [ | x l Hx Hl]; [congruence | ].
  rewrite sum_cons.
  assert (0 <= Num.sum l).
  { apply sum_nonneg. eapply Forall_impl; [ | exact Hl].
    intros a Ha. simpl in Ha. lra. }
  lra.
Qed.

(** When every available lot of the product has a positive count and a
    positive weight, the visited lots hold exactly the available stock of
    the stock check. *)
Lemma candidates_sum_availableStock (coll : list StockItem.t)
    (productId : ObjectId) :
  (forall x, In x coll -> StockItem.product x = productId ->
             StockItem.status x = StockItem.available ->
             0 < StockItem.quantity x /\ 0 < StockItem.calculatedWeight x) ->
  Num.sum (map itemStock (candidates coll productId))
  == availableStock coll productId.
Proof.
  intros Hlots.
  assert (Efilter : filter (is_candidate productId) coll
                    = filter (fun x => (Nat.eqb (StockItem.product x) productId
                                        && StockItem.Status_eqb
                                             (StockItem.status x)
                                             StockItem.available)%bool) coll).
  { apply filter_ext_in. intros x Hx. unfold is_candidate.
    destruct (Nat.eqb_spec (StockItem.product x) productId) as [Hp | _];
      [ | reflexivity].
    destruct (StockItem.status x) eqn:Es; simpl; try reflexivity.
    apply ltb_lt. apply (Hlots x Hx Hp Es). }
  unfold candidates.
  rewrite (sum_Permutation _ _
             (Permutation_map itemStock (sort_Permutation _))).
  rewrite Efilter.
  unfold availableStock, StockItem.getTotalStock.
  set (matched := filter _ coll).
  assert (Hm : forall x, In x matched ->
                         0 < StockItem.calculatedWeight x).
  { intros x Hx. unfold matched in Hx. apply filter_In in Hx.
    destruct Hx as [Hin Hb]. apply andb_true_iff in Hb.
    destruct Hb as [Hp Hs]. apply Nat.eqb_eq in Hp.
    apply (Hlots x Hin Hp).
    destruct (StockItem.status x); simpl in Hs; congruence. }
  assert (Hstock : Num.sum (map itemStock matched)
                   == Num.sum (map StockItem.calculatedWeight matched)).
  { apply sum_map_ext_in. intros x Hx. unfold itemStock.
    rewrite or_else_truthy; [reflexivity | ].
    specialize (Hm x Hx). lra. }
  destruct matched as [ | x l] eqn:E.
  - reflexivity.
  - cbn [StockItem.totalWeight StockItem.totalQuantity].
    assert (Hpos : 0 < Num.sum (map StockItem.calculatedWeight (x :: l))).
    { apply sum_positive; [discriminate | ].
      apply Forall_map, Forall_forall. exact Hm. }
    rewrite (or_else_truthy (Num.sum _)) by lra.
    rewrite or_else_truthy by lra.
    exact Hstock.
Qed.

(** When every available lot of the product has a positive count and a
    positive weight, a request that passes the stock check of
    [addMaterial] leaves the walk at most 5% of the available stock
    short. *)
Theorem decrementLoop_shortfall_bound (db : DB.t) (productId : ObjectId)
    (quantity : Q) :
  (forall x, In x (DB.stockItems db) -> StockItem.product x = productId ->
             StockItem.status x = StockItem.available ->
             0 < StockItem.quantity x /\ 0 < StockItem.calculatedWeight x) ->
  0 <= quantity ->
  quantity <= availableStock (DB.stockItems db) productId * 1.05 ->
  fst (decrementLoop (DB.products db)
         (candidates (DB.stockItems db) productId) quantity
         (DB.stockItems db))
  <= availableStock (DB.stockItems db) productId * 0.05.
Proof.
  intros Hlots Hq Hcheck.
  pose proof (candidates_sum_availableStock _ productId Hlots) as Hsum.
  assert (Hall : Forall (fun x => 0 <= itemStock x)
                   (candidates (DB.stockItems db) productId)).
  { apply Forall_forall. intros x Hx. apply candidates_In in Hx.
    destruct Hx as [Hin [Hp [Hs _]]].
    destruct (Hlots x Hin Hp Hs) as [_ Hw].
    unfold itemStock. rewrite or_else_truthy; lra. }
  rewrite (decrementLoop_remaining _ _ Hall quantity _ Hq), Hsum.
  assert (Havail : 0 <= availableStock (DB.stockItems db) productId).
  { rewrite <- Hsum. apply sum_nonneg, Forall_map. exact Hall. }
  apply Q.max_lub; lra.
Qed.

(** The theorem at 10.4 asked from a single lot of 10. *)
Lemma decrementLoop_shortfall_bound_witness :
  fst (decrementLoop [Scenario.steel]
         (candidates [Scenario.lot 1%nat StockItem.FULL_BAR 1 10] 1%nat) 10.4
         [Scenario.lot 1%nat StockItem.FULL_BAR 1 10])
  <= availableStock [Scenario.lot 1%nat StockItem.FULL_BAR 1 10] 1%nat * 0.05.
Proof.
  apply (decrementLoop_shortfall_bound
           (Scenario.db (Scenario.job Project.active Scenario.zero_costs [])
              [Scenario.lot 1%nat StockItem.FULL_BAR 1 10]) 1%nat 10.4).
  - simpl. intros x [<- | []] _ _. split; reflexivity.
  - vm_compute. discriminate.
  - vm_compute. discriminate.
Defined.

End DecrementMore.

(* ================================================================= *)
(** * More on the project controller *)

Section RestoreMore.
Import Controller.
Local Open Scope Q_scope.
Local Ltac lra := Lqa.lra.

Lemma replace_In_same_id (doc x : StockItem.t) (coll : list StockItem.t) :
  In x coll -> StockItem._id x = StockItem._id doc ->
  In doc (StockItem.replace doc coll).
Proof.
  intros Hx E. unfold StockItem.replace. apply in_map_iff.
  exists x. split; [ | exact Hx].
  apply Nat.eqb_eq in E. rewrite E. reflexivity.
Qed.

Lemma calculateWeight_fields (populated : option Product.t)
    (this : StockItem.t) :
  StockItem._id (StockItem.calculateWeight populated this) = StockItem._id this
  /\ StockItem.status (StockItem.calculateWeight populated this)
     = StockItem.status this
  /\ StockItem.quantity (StockItem.calculateWeight populated this)
     = StockItem.quantity this
  /\ StockItem.type (StockItem.calculateWeight populated this)
     = StockItem.type this
  /\ StockItem.product (StockItem.calculateWeight populated this)
     = StockItem.product this
  /\ StockItem.lengthMM (StockItem.calculateWeight populated this)
     = StockItem.lengthMM this.
Proof.
  unfold StockItem.calculateWeight.
  destruct populated as [p | ]; [ | repeat split].
  destruct (Num.ltb 0 (Product.weightPerMeter p)); repeat split.
Qed.

Lemma is_available_full_bar_fields (productId : ObjectId)
    (x y : StockItem.t) :
  StockItem.product x = StockItem.product y ->
  StockItem.status x = StockItem.status y ->
  StockItem.type x = StockItem.type y ->
  is_available_full_bar productId x = is_available_full_bar productId y.
Proof.
  intros Hp Hs Ht. unfold is_available_full_bar. rewrite Hp, Hs, Ht.
  reflexivity.
Qed.

(** Whatever it is asked to restore, [restoreStock] returns an available
    full bar of the product that is in the collection afterwards: the
    first available full bar with one piece more, or else a new lot of one
    piece at the end of the collection.  Nothing else changes. *)
Theorem restoreStock_full_bar (db : DB.t) (productId : ObjectId)
    (quantity : Q) :
  is_available_full_bar productId (fst (restoreStock db productId quantity))
  = true
  /\ In (fst (restoreStock db productId quantity))
       (DB.stockItems (snd (restoreStock db productId quantity)))
  /\ match find (is_available_full_bar productId) (DB.stockItems db) with
     | Some found =>
         StockItem._id (fst (restoreStock db productId quantity))
         = StockItem._id found
         /\ StockItem.quantity (fst (restoreStock db productId quantity))
            = StockItem.quantity found + 1
         /\ map StockItem._id
              (DB.stockItems (snd (restoreStock db productId quantity)))
            = map StockItem._id (DB.stockItems db)
     | None =>
         StockItem.quantity (fst (restoreStock db productId quantity)) = 1
         /\ DB.stockItems (snd (restoreStock db productId quantity))
            = DB.stockItems db ++ [fst (restoreStock db productId quantity)]
     end
  /\ DB.projects (snd (restoreStock db productId quantity)) = DB.projects db
  /\ DB.products (snd (restoreStock db productId quantity)) = DB.products db
  /\ DB.movements (snd (restoreStock db productId quantity)) = DB.movements db
  /\ DB.projectMaterials (snd (restoreStock db productId quantity))
     = DB.projectMaterials db.
Proof.
  unfold restoreStock.
  destruct (find (is_available_full_bar productId) (DB.stockItems db))
    as [found | ] eqn:Efind.
  - apply find_some in Efind. destruct Efind as [Hin Hfound].
    cbn [fst snd DB.stockItems DB.set_stockItems DB.projects DB.products
         DB.movements DB.projectMaterials].
    set (bumped := StockItem.calculateWeight _ _).
    destruct (calculateWeight_fields
                (Product.findById (DB.products db)
                   (StockItem.product
                      (StockItem.set_quantity (StockItem.quantity found + 1)
                         found)))
                (StockItem.set_quantity (StockItem.quantity found + 1) found))
      as [Hid [Hst [Hqt [Hty [Hpr _]]]]].
    fold bumped in Hid, Hst, Hqt, Hty, Hpr.
    simpl in Hid, Hst, Hqt, Hty, Hpr.
    destruct (StockItem_pre_save_fields (DB.products db) (Some found) bumped)
      as [Hid' [Hst' [Hqt' [Hty' Hpr']]]].
    split.
    { rewrite <- Hfound. apply is_available_full_bar_fields; congruence. }
    split.
    { unfold StockItem.save. apply (replace_In_same_id _ found); [exact Hin | ].
      congruence. }
    split.
    { split; [congruence | ]. split; [congruence | ].
      unfold StockItem.save. apply replace_ids. }
    repeat split.
  - unfold StockItem.create.
    cbn [fst snd DB.stockItems DB.set_stockItems DB.projects DB.products
         DB.movements DB.projectMaterials].
    set (doc := StockItem.set_id _ _).
    destruct (StockItem_pre_save_fields (DB.products db) None doc)
      as [Hid [Hst [Hqt [Hty Hpr]]]].
    split.
    { unfold is_available_full_bar. rewrite Hpr, Hst, Hty. simpl.
      rewrite Nat.eqb_refl. reflexivity. }
    split; [apply in_or_app; right; left; reflexivity | ].
    split; [split; [rewrite Hqt; reflexivity | reflexivity] | ].
    repeat split.
Qed.

End RestoreMore.

Section AddMaterialMore.
Import Controller.
Local Open Scope Q_scope.
Local Ltac lra := Lqa.lra.

Lemma sum_app (l1 l2 : list Q) :
  Num.sum (l1 ++ l2) == Num.sum l1 + Num.sum l2.
Proof.
  induction l1 as [ | x l1 IH]; simpl.
  - unfold Num.sum at 2. simpl. lra.
  - rewrite !sum_cons, IH. lra.
Qed.

Lemma getProjectTotals_sum (coll : list ProjectMaterial.t)
    (projectId : ObjectId) :
  ProjectMaterial.totals_totalCost
    (ProjectMaterial.getProjectTotals coll projectId)
  == Num.sum (map ProjectMaterial.totalCost
                (filter (fun x => Nat.eqb (ProjectMaterial.project x) projectId)
                   coll))
  /\ ProjectMaterial.materialCount
       (ProjectMaterial.getProjectTotals coll projectId)
     = List.length
         (filter (fun x => Nat.eqb (ProjectMaterial.project x) projectId) coll).
Proof.
  unfold ProjectMaterial.getProjectTotals.
  destruct (filter _ coll); split; reflexivity.
Qed.

(** The totals of a project over two collections put together are the
    sums of its totals over each, and the materials of other projects do
    not count. *)
Theorem getProjectTotals_app (coll1 coll2 : list ProjectMaterial.t)
    (projectId : ObjectId) :
  ProjectMaterial.totals_totalCost
    (ProjectMaterial.getProjectTotals (coll1 ++ coll2) projectId)
  == ProjectMaterial.totals_totalCost
       (ProjectMaterial.getProjectTotals coll1 projectId)
     + ProjectMaterial.totals_totalCost
         (ProjectMaterial.getProjectTotals coll2 projectId)
  /\ ProjectMaterial.materialCount
       (ProjectMaterial.getProjectTotals (coll1 ++ coll2) projectId)
     = (ProjectMaterial.materialCount
          (ProjectMaterial.getProjectTotals coll1 projectId)
        + ProjectMaterial.materialCount
            (ProjectMaterial.getProjectTotals coll2 projectId))%nat
  /\ ((forall x, In x coll2 -> ProjectMaterial.project x <> projectId) ->
      ProjectMaterial.getProjectTotals (coll1 ++ coll2) projectId
      = ProjectMaterial.getProjectTotals coll1 projectId).
Proof.
  destruct (getProjectTotals_sum (coll1 ++ coll2) projectId) as [Hs Hc].
  destruct (getProjectTotals_sum coll1 projectId) as [Hs1 Hc1].
  destruct (getProjectTotals_sum coll2 projectId) as [Hs2 Hc2].
  split; [ | split].
  - rewrite Hs, Hs1, Hs2, filter_app, map_app. apply sum_app.
  - rewrite Hc, Hc1, Hc2, filter_app. apply length_app.
  - intros Hother. unfold ProjectMaterial.getProjectTotals.
    rewrite filter_app.
    assert (E : filter (fun x => Nat.eqb (ProjectMaterial.project x) projectId)
                  coll2 = []).
    { clear - Hother. induction coll2 as [ | x l IH]; simpl; [reflexivity | ].
      destruct (Nat.eqb_spec (ProjectMaterial.project x) projectId) as [E | _].
      - exfalso. apply (Hother x (or_introl eq_refl) E).
      - apply IH. intros y Hy. apply Hother. right. exact Hy. }
    rewrite E, app_nil_r. reflexivity.
Qed.

Lemma Project_pre_save_id (this : Project.t) :
  Project._id (Project.pre_save this) = Project._id this.
Proof. reflexivity. Qed.

(** After [save], [findById] gives the saved document. *)
Lemma Project_save_findById (coll : list Project.t) (this stored : Project.t) :
  Project.findById coll (Project._id this) = Some stored ->
  Project.findById (Project.save this coll) (Project._id this)
  = Some (Project.pre_save this).
Proof.
  unfold Project.findById, Project.save.
  rewrite Project_pre_save_id.
  induction coll as [ | x coll IH]; simpl; [discriminate | ].
  destruct (Nat.eqb (Project._id x) (Project._id this)) eqn:E.
  - intros _. simpl. rewrite Nat.eqb_refl. reflexivity.
  - rewrite E. exact IH.
Qed.

Lemma round2_0 : Num.round2 0 == 0.
Proof. reflexivity. Qed.

Lemma truthy_or_zero (x : Q) : Num.truthy x = true \/ x == 0.
Proof.
  destruct (Num.truthy x) eqn:E; [left; reflexivity | right].
  apply truthy_false. exact E.
Qed.

Lemma round2_compat (x y : Q) : x == y -> Num.round2 x == Num.round2 y.
Proof.
  intros E. unfold Num.round2, Num.Math_round.
  assert (Ef : Qfloor (x * 100 + (1 # 2)) = Qfloor (y * 100 + (1 # 2))).
  { apply Qfloor_comp. rewrite E. reflexivity. }
  rewrite Ef. reflexivity.
Qed.

(** The total cost the hook of a movement stores. *)
Lemma Movement_pre_save_totalCost (this : Movement.t) :
  Movement.totalCost this == 0 ->
  Movement.totalCost (Movement.pre_save this)
  == Num.round2 (Qabs (Movement.quantityDelta this)
                 * Movement.costSnapshot this).
Proof.
  intros H0. unfold Movement.pre_save.
  destruct (truthy_or_zero (Movement.costSnapshot this)) as [Ec | Ec];
    destruct (truthy_or_zero (Movement.quantityDelta this)) as [Eq | Eq].
  - rewrite Ec, Eq. reflexivity.
  - apply truthy_false in Eq as Eq'. rewrite Eq', andb_false_r, H0.
    symmetry. rewrite <- round2_0 at 1. apply round2_compat.
    rewrite Eq. reflexivity.
  - apply truthy_false in Ec as Ec'. rewrite Ec'. simpl. rewrite H0.
    symmetry. rewrite <- round2_0 at 1. apply round2_compat.
    rewrite Ec. lra.
  - apply truthy_false in Ec as Ec'. rewrite Ec'. simpl. rewrite H0.
    symmetry. rewrite <- round2_0 at 1. apply round2_compat.
    rewrite Ec. lra.
Qed.

(** A unit outside the enum of the Movement schema, given in the request
    or, failing that, taken from the product (whose schema also accepts
    'unid' and 'lt'), makes a request that passed the stock check fail on
    the creation of the movement: the answer is 500 and nothing has
    changed. *)
Theorem addMaterial_unit_rejected (db : DB.t) (req : AddMaterialRequest)
    (project : Project.t) (product : Product.t) :
  Project.findById (DB.projects db) (am_params_id req) = Some project ->
  completed_or_cancelled (Project.status project) = false ->
  Product.findById (DB.products db) (productId req) = Some product ->
  quantity req <= availableStock (DB.stockItems db) (productId req) * 1.05 ->
  unit_enum (str_or_else (unit req)
               (Product.unit (Product.stockConfig product))) = false ->
  addMaterial db req = (ServerError "Movement validation failed: unit"%string, db).
Proof.
  intros Hproject Hopen Hproduct Hq Hunit.
  unfold addMaterial.
  rewrite Hproject, Hopen, Hproduct.
  rewrite (Product_findById_id _ _ _ Hproduct).
  apply ltb_ge in Hq. rewrite Hq.
  unfold Movement.create. cbn [Movement.unit]. rewrite Hunit.
  reflexivity.
Qed.

(** The theorem at a product measured in litres. *)
Lemma addMaterial_unit_rejected_witness :
  addMaterial ScenarioUnits.db ScenarioUnits.request
  = (ServerError "Movement validation failed: unit"%string, ScenarioUnits.db).
Proof.
  apply (addMaterial_unit_rejected ScenarioUnits.db ScenarioUnits.request
           (Scenario.job Project.active Scenario.zero_costs [])
           ScenarioUnits.coolant);
    try reflexivity.
  vm_compute. discriminate.
Defined.

(** A request that gets past the guards and the stock check with a
    quantity below 0.001, zero and negative quantities included, is
    refused by no check before the validation of the project material,
    which fails after the OUT movement is written and the lots are
    walked: the answer is 500, the ledger has one movement more, and no
    project material and no project cost has changed.  For a quantity of
    zero or less the lots are untouched as well. *)
Theorem addMaterial_small_quantity (db : DB.t) (req : AddMaterialRequest)
    (project : Project.t) (product : Product.t) :
  Project.findById (DB.projects db) (am_params_id req) = Some project ->
  completed_or_cancelled (Project.status project) = false ->
  Product.findById (DB.products db) (productId req) = Some product ->
  quantity req <= availableStock (DB.stockItems db) (productId req) * 1.05 ->
  unit_enum (str_or_else (unit req)
               (Product.unit (Product.stockConfig product))) = true ->
  quantity req < 0.001 ->
  exists (movement : Movement.t) (db' : DB.t),
    addMaterial db req = (ServerError "ProjectMaterial validation failed"%string, db')
    /\ DB.movements db' = DB.movements db ++ [movement]
    /\ Movement.type movement = Movement.OUT
    /\ Movement.quantityDelta movement = - quantity req
    /\ DB.projectMaterials db' = DB.projectMaterials db
    /\ DB.projects db' = DB.projects db
    /\ DB.stockItems db'
       = DB.stockItems (snd (decrementStock db (productId req) (quantity req)))
    /\ (quantity req <= 0 -> DB.stockItems db' = DB.stockItems db).
Proof.
  intros Hproject Hopen Hproduct Hq Hunit Hsmall.
  unfold addMaterial.
  rewrite Hproject, Hopen, Hproduct.
  rewrite (Product_findById_id _ _ _ Hproduct).
  apply ltb_ge in Hq. rewrite Hq.
  unfold Movement.create. cbn [Movement.unit]. rewrite Hunit.
  rewrite decrementStock_movements.
  destruct (decrementStock_frame db (productId req) (quantity req))
    as [Hprj [_ [Hmov Hpm]]].
  unfold ProjectMaterial.create, ProjectMaterial.validate.
  cbn [ProjectMaterial.quantity ProjectMaterial.unitCost ProjectMaterial.unit
       DB.projectMaterials DB.set_movements].
  apply leb_gt in Hsmall. rewrite Hsmall. cbn [andb].
  eexists _, _. split; [reflexivity | ].
  cbn. rewrite Hpm, Hprj.
  repeat split;
    try (unfold Movement.pre_save;
         match goal with
         | |- context [if ?b then _ else _] => destruct b
         end; reflexivity).
  intros Hle. unfold decrementStock.
  rewrite decrementLoop_done by exact Hle. reflexivity.
Qed.

(** The theorem at a request of 0 with 10 available. *)
Lemma addMaterial_small_quantity_witness :
  exists (movement : Movement.t) (db' : DB.t),
    addMaterial
      (Scenario.db (Scenario.job Project.active Scenario.zero_costs [])
         [Scenario.lot 1%nat StockItem.FULL_BAR 1 10])
      (Scenario.request 0)
    = (ServerError "ProjectMaterial validation failed"%string, db')
    /\ DB.movements db' = [movement]
    /\ DB.projectMaterials db' = [].
Proof.
  destruct (addMaterial_small_quantity
              (Scenario.db (Scenario.job Project.active Scenario.zero_costs [])
                 [Scenario.lot 1%nat StockItem.FULL_BAR 1 10])
              (Scenario.request 0)
              (Scenario.job Project.active Scenario.zero_costs [])
              Scenario.steel)
    as [movement [db' H]];
    try (vm_compute; reflexivity); try (vm_compute; discriminate).
  exists movement, db'. tauto.
Defined.

Lemma or_else_0 (x : Q) : Num.or_else x 0 == x.
Proof.
  unfold Num.or_else. destruct (truthy_or_zero x) as [E | E].
  - rewrite E. reflexivity.
  - apply truthy_false in E as E'. rewrite E'. symmetry. exact E.
Qed.

(** The hook keeps the materials cost and makes the total the sum of the
    three costs. *)
Lemma Project_pre_save_costs (this : Project.t) :
  Project.materials (Project.costs (Project.pre_save this))
  = Project.materials (Project.costs this)
  /\ Project.total (Project.costs (Project.pre_save this))
     == Project.materials (Project.costs (Project.pre_save this))
        + Project.labor (Project.costs (Project.pre_save this))
        + Project.other (Project.costs (Project.pre_save this)).
Proof.
  split; [reflexivity | ].
  unfold Project.pre_save. cbn [Project.costs Project.total Project.materials
                                Project.labor Project.other].
  rewrite !or_else_0. reflexivity.
Qed.

(** A request that passes the checks and the validation of its documents
    (notes of at most 500 characters among them) succeeds, and then the
    OUT movement and the project material carry the same total cost,
    [quantity * unitCost] rounded to two decimals, and the stored project
    has the materials cost it had in its project materials before plus
    that line; its total is the sum of its three costs. *)
Theorem addMaterial_costs (db : DB.t) (req : AddMaterialRequest)
    (project : Project.t) (product : Product.t) :
  Project.findById (DB.projects db) (am_params_id req) = Some project ->
  completed_or_cancelled (Project.status project) = false ->
  Product.findById (DB.products db) (productId req) = Some product ->
  quantity req <= availableStock (DB.stockItems db) (productId req) * 1.05 ->
  unit_enum (str_or_else (unit req)
               (Product.unit (Product.stockConfig product))) = true ->
  0.001 <= quantity req ->
  0 <= Num.or_else
         (Num.or_else (Product.lastPrice (Product.financial product))
            (Product.averagePrice (Product.financial product))) 0 ->
  notes_at_most 500 (notes req) ->
  exists (movement : Movement.t) (projectMaterial : ProjectMaterial.t)
         (stored : Project.t) (db' : DB.t),
    addMaterial db req = (Created (MaterialData projectMaterial), db')
    /\ DB.movements db' = DB.movements db ++ [movement]
    /\ ProjectMaterial.totalCost projectMaterial
       == Num.round2
            (quantity req
             * Num.or_else
                 (Num.or_else (Product.lastPrice (Product.financial product))
                    (Product.averagePrice (Product.financial product))) 0)
    /\ Movement.totalCost movement
       == ProjectMaterial.totalCost projectMaterial
    /\ Project.findById (DB.projects db') (am_params_id req) = Some stored
    /\ Project.materials (Project.costs stored)
       == ProjectMaterial.totals_totalCost
            (ProjectMaterial.getProjectTotals (DB.projectMaterials db)
               (am_params_id req))
          + ProjectMaterial.totalCost projectMaterial
    /\ Project.total (Project.costs stored)
       == Project.materials (Project.costs stored)
          + Project.labor (Project.costs stored)
          + Project.other (Project.costs stored).
Proof.
  intros Hproject Hopen Hproduct Hq Hunit Hmin Hcost Hnotes.
  assert (Hlen : match notes req with
                 | Some text => Nat.leb (String.length text) 500
                 | None => true
                 end = true).
  { unfold notes_at_most in Hnotes. destruct (notes req) as [text | ].
    - apply Nat.leb_le. exact Hnotes.
    - reflexivity. }
  destruct (Project_findById_id _ _ _ Hproject) as [Hid _].
  unfold addMaterial.
  rewrite Hproject, Hopen, Hproduct.
  rewrite (Product_findById_id _ _ _ Hproduct).
  apply ltb_ge in Hq. rewrite Hq.
  unfold Movement.create. cbn [Movement.unit]. rewrite Hunit.
  rewrite decrementStock_movements.
  destruct (decrementStock_frame db (productId req) (quantity req))
    as [Hprj [_ [Hmov Hpm]]].
  unfold ProjectMaterial.create, ProjectMaterial.validate.
  cbn [ProjectMaterial.quantity ProjectMaterial.unitCost ProjectMaterial.unit
       ProjectMaterial.notes DB.projectMaterials DB.set_movements].
  pose proof Hmin as Hmin'. pose proof Hcost as Hcost'.
  apply leb_le in Hmin'. apply leb_le in Hcost'.
  rewrite Hmin', Hcost', Hunit, Hlen. cbn [andb].
  set (unitCost := Num.or_else
                     (Num.or_else (Product.lastPrice (Product.financial product))
                        (Product.averagePrice (Product.financial product))) 0)
    in *.
  rewrite Hpm.
  set (pm := ProjectMaterial.pre_save _).
  set (mv := Movement.pre_save _).
  cbn [DB.projectMaterials DB.set_projectMaterials DB.projects DB.movements
       DB.set_movements DB.set_projects].
  rewrite Hprj.
  set (project' := Project.set_costs _ project).
  exists mv, pm, (Project.pre_save project').
  eexists. split; [reflexivity | ].
  cbn [DB.projectMaterials DB.set_projectMaterials DB.projects DB.movements
       DB.set_movements DB.set_projects].
  assert (Epm : ProjectMaterial.totalCost pm
                == Num.round2 (quantity req * unitCost)).
  { reflexivity. }
  split; [reflexivity | ].
  split; [exact Epm | ].
  split.
  { rewrite Epm. unfold mv.
    rewrite Movement_pre_save_totalCost by reflexivity.
    apply round2_compat. cbn [Movement.set_id Movement.quantityDelta
                              Movement.costSnapshot].
    rewrite Qabs_opp, Qabs_pos by lra. reflexivity. }
  split.
  { rewrite <- Hid.
    apply (Project_save_findById (DB.projects db) project' project).
    cbn. rewrite Hid. exact Hproject. }
  destruct (Project_pre_save_costs project') as [Em Et].
  split; [ | exact Et].
  rewrite Em. unfold project'.
  cbn [Project.set_costs Project.costs Project.set_materials
       Project.materials].
  destruct (getProjectTotals_sum (DB.projectMaterials db ++ [pm])
              (Project._id project)) as [Hs _].
  destruct (getProjectTotals_sum (DB.projectMaterials db)
              (am_params_id req)) as [Hs0 _].
  rewrite Hs, Hs0, filter_app, map_app, sum_app, Hid.
  assert (Ef : filter (fun x => Nat.eqb (ProjectMaterial.project x)
                                  (am_params_id req)) [pm] = [pm]).
  { simpl. rewrite <- Hid. cbn. rewrite Nat.eqb_refl. reflexivity. }
  rewrite Ef. simpl map. rewrite sum_cons.
  unfold Num.sum at 2. simpl fold_left. lra.
Qed.

(** The theorem at 4 kg at 2.5 a kilogram from a lot of 10. *)
Lemma addMaterial_costs_witness :
  exists (movement : Movement.t) (projectMaterial : ProjectMaterial.t)
         (stored : Project.t) (db' : DB.t),
    addMaterial
      (Scenario.db (Scenario.job Project.active Scenario.zero_costs [])
         [Scenario.lot 1%nat StockItem.FULL_BAR 1 10])
      (Scenario.request 4)
    = (Created (MaterialData projectMaterial), db')
    /\ Movement.totalCost movement
       == ProjectMaterial.totalCost projectMaterial
    /\ Project.findById (DB.projects db') 7%nat = Some stored
    /\ Project.materials (Project.costs stored)
       == 0 + ProjectMaterial.totalCost projectMaterial.
Proof.
  destruct (addMaterial_costs
              (Scenario.db (Scenario.job Project.active Scenario.zero_costs [])
                 [Scenario.lot 1%nat StockItem.FULL_BAR 1 10])
              (Scenario.request 4)
              (Scenario.job Project.active Scenario.zero_costs [])
              Scenario.steel)
    as [movement [projectMaterial [stored [db' H]]]];
    try (vm_compute; reflexivity); try (vm_compute; discriminate).
  exists movement, projectMaterial, stored, db'. tauto.
Defined.

End AddMaterialMore.

Section RemoveMore.
Import Controller.
Local Open Scope Q_scope.
Local Ltac lra := Lqa.lra.

Lemma restoreStock_frame (db : DB.t) (productId : ObjectId) (quantity : Q) :
  DB.projects (snd (restoreStock db productId quantity)) = DB.projects db
  /\ DB.products (snd (restoreStock db productId quantity)) = DB.products db
  /\ DB.movements (snd (restoreStock db productId quantity)) = DB.movements db
  /\ DB.projectMaterials (snd (restoreStock db productId quantity))
     = DB.projectMaterials db.
Proof.
  unfold restoreStock.
  destruct (find (is_available_full_bar productId) (DB.stockItems db)).
  - repeat split.
  - unfold StockItem.create. repeat split.
Qed.

Lemma deleteOne_findById (doc : ProjectMaterial.t)
    (coll : list ProjectMaterial.t) :
  ProjectMaterial.findById (ProjectMaterial.deleteOne doc coll)
    (ProjectMaterial._id doc) = None.
Proof.
  unfold ProjectMaterial.findById, ProjectMaterial.deleteOne.
  induction coll as [ | x coll IH]; simpl; [reflexivity | ].
  destruct (Nat.eqb (ProjectMaterial._id x) (ProjectMaterial._id doc)) eqn:E;
    simpl.
  - exact IH.
  - rewrite E. exact IH.
Qed.

Lemma ProjectMaterial_findById_id (coll : list ProjectMaterial.t)
    (id : ObjectId) (doc : ProjectMaterial.t) :
  ProjectMaterial.findById coll id = Some doc ->
  ProjectMaterial._id doc = id /\ In doc coll.
Proof.
  unfold ProjectMaterial.findById. intros H.
  apply find_some in H. destruct H as [Hin H].
  split; [apply Nat.eqb_eq; exact H | exact Hin].
Qed.

Lemma getProjectCost_app_not_OUT (coll : list Movement.t)
    (movement : Movement.t) (projectRef : string) :
  MovementQueries.is_OUT (Movement.type movement) = false ->
  MovementQueries.getProjectCost (coll ++ [movement]) projectRef
  = MovementQueries.getProjectCost coll projectRef.
Proof.
  intros H. unfold MovementQueries.getProjectCost.
  rewrite filter_app. simpl. rewrite H, andb_false_r, app_nil_r.
  reflexivity.
Qed.

(** A successful [removeMaterial] deletes the project material, leaves
    the stored project with the materials cost of the project materials
    that remain, and adds one IN movement of the material's quantity
    whose project reference is empty: the cost that
    [Movement.getProjectCost] reports for any project is what it was
    before the removal. *)
Theorem removeMaterial_effects (db : DB.t) (req : RemoveMaterialRequest)
    (project : Project.t) (projectMaterial : ProjectMaterial.t) :
  Project.findById (DB.projects db) (rm_params_id req) = Some project ->
  is_completed (Project.status project) = false ->
  ProjectMaterial.findById (DB.projectMaterials db) (rm_params_materialId req)
  = Some projectMaterial ->
  ProjectMaterial.project projectMaterial = rm_params_id req ->
  unit_enum (ProjectMaterial.unit projectMaterial) = true ->
  exists (movement : Movement.t) (stored : Project.t) (db' : DB.t),
    removeMaterial db req = (Success, db')
    /\ DB.movements db' = DB.movements db ++ [movement]
    /\ Movement.type movement = Movement.IN
    /\ Movement.quantityDelta movement
       = ProjectMaterial.quantity projectMaterial
    /\ Movement.projectRef movement = ""%string
    /\ (forall projectRef : string,
          MovementQueries.getProjectCost (DB.movements db') projectRef
          = MovementQueries.getProjectCost (DB.movements db) projectRef)
    /\ ProjectMaterial.findById (DB.projectMaterials db')
         (rm_params_materialId req) = None
    /\ DB.projectMaterials db'
       = ProjectMaterial.deleteOne projectMaterial (DB.projectMaterials db)
    /\ Project.findById (DB.projects db') (rm_params_id req) = Some stored
    /\ Project.materials (Project.costs stored)
       = ProjectMaterial.totals_totalCost
           (ProjectMaterial.getProjectTotals (DB.projectMaterials db')
              (rm_params_id req)).
Proof.
  intros Hproject Hopen Hpm Hown Hunit.
  destruct (Project_findById_id _ _ _ Hproject) as [Hid _].
  destruct (ProjectMaterial_findById_id _ _ _ Hpm) as [Hmid _].
  unfold removeMaterial.
  rewrite Hproject, Hopen, Hpm, Hown, Nat.eqb_refl. cbn [negb].
  unfold Movement.create. cbn [Movement.unit]. rewrite Hunit.
  set (mv := Movement.pre_save _).
  set (db1 := DB.set_movements _ db).
  destruct (restoreStock_frame db1 (ProjectMaterial.product projectMaterial)
              (ProjectMaterial.quantity projectMaterial))
    as [Hprj [_ [Hmov Hpms]]].
  destruct (restoreStock db1 (ProjectMaterial.product projectMaterial)
              (ProjectMaterial.quantity projectMaterial)) as [lot db2].
  cbn [snd] in Hprj, Hmov, Hpms.
  cbn [DB.projectMaterials DB.set_projectMaterials DB.projects DB.movements
       DB.set_movements DB.set_projects].
  rewrite Hpms, Hprj. unfold db1.
  cbn [DB.projectMaterials DB.set_projectMaterials DB.projects DB.movements
       DB.set_movements DB.set_projects].
  set (project' := Project.set_costs _ project).
  exists mv, (Project.pre_save project').
  eexists. split; [reflexivity | ].
  cbn [DB.projectMaterials DB.set_projectMaterials DB.projects DB.movements
       DB.set_movements DB.set_projects].
  rewrite Hmov. unfold db1. cbn [DB.movements DB.set_movements].
  assert (Etype : Movement.type mv = Movement.IN).
  { unfold mv, Movement.pre_save.
    match goal with
    | |- context [if ?b then _ else _] => destruct b
    end; reflexivity. }
  split; [reflexivity | ].
  split; [exact Etype | ].
  split.
  { unfold mv, Movement.pre_save.
    match goal with
    | |- context [if ?b then _ else _] => destruct b
    end; reflexivity. }
  split.
  { unfold mv, Movement.pre_save.
    match goal with
    | |- context [if ?b then _ else _] => destruct b
    end; reflexivity. }
  split.
  { intros projectRef. apply getProjectCost_app_not_OUT.
    rewrite Etype. reflexivity. }
  split; [rewrite <- Hmid; apply deleteOne_findById | ].
  split; [reflexivity | ].
  split.
  { rewrite <- Hid.
    apply (Project_save_findById (DB.projects db) project' project).
    cbn. rewrite Hid. exact Hproject. }
  rewrite <- Hid. reflexivity.
Qed.

(** The theorem at the removal of the 4 kg added to the job. *)
Lemma removeMaterial_effects_witness :
  exists (movement : Movement.t) (stored : Project.t) (db' : DB.t),
    removeMaterial ScenarioRemove.after_add ScenarioRemove.remove_request
    = (Success, db')
    /\ Movement.type movement = Movement.IN
    /\ DB.projectMaterials db' = []
    /\ Project.findById (DB.projects db') 7%nat = Some stored
    /\ Project.materials (Project.costs stored) = 0.
Proof.
  destruct (removeMaterial_effects ScenarioRemove.after_add
              ScenarioRemove.remove_request
              (Project.pre_save
                 (Project.set_costs
                    (Project.set_materials (1000 # 100) Scenario.zero_costs)
                    (Scenario.job Project.active Scenario.zero_costs [])))
              {| ProjectMaterial._id := 1%nat;
                 ProjectMaterial.project := 7%nat;
                 ProjectMaterial.product := 1%nat;
                 ProjectMaterial.quantity := 4;
                 ProjectMaterial.unit := "kg";
                 ProjectMaterial.unitCost := 2.5;
                 ProjectMaterial.totalCost := 1000 # 100;
                 ProjectMaterial.addedBy := 3%nat;
                 ProjectMaterial.movement := Some 1%nat;
                 ProjectMaterial.notes := None |})
    as [movement [stored [db' [Hres [_ [Htype [_ [_ [_ [_ [Hpms [Hfind Hcost]]]]]]]]]]]];
    try (vm_compute; reflexivity).
  exists movement, stored, db'.
  split; [exact Hres | ]. split; [exact Htype | ].
  split; [rewrite Hpms; vm_compute; reflexivity | ].
  split; [exact Hfind | ].
  rewrite Hcost, Hpms. vm_compute. reflexivity.
Defined.

End RemoveMore.

Section LaborMore.
Import Controller.
Local Open Scope Q_scope.
Local Ltac lra := Lqa.lra.

(** The live sum of labour does not depend on the stored entry totals. *)
Lemma live_labor_pre_save (this : Project.t) :
  ScenarioCosts.live_labor (Project.pre_save this)
  = ScenarioCosts.live_labor this.
Proof.
  unfold ScenarioCosts.live_labor, Project.pre_save.
  cbn [Project.laborEntries].
  destruct (Project.laborEntries this) as [ | e l]; [reflexivity | ].
  rewrite map_map. reflexivity.
Qed.

Lemma live_labor_app (this : Project.t) (entry : Project.LaborEntry) :
  ScenarioCosts.live_labor
    (Project.set_laborEntries (Project.laborEntries this ++ [entry]) this)
  == ScenarioCosts.live_labor this
     + Project.hours entry * Project.hourlyRate entry.
Proof.
  unfold ScenarioCosts.live_labor. cbn [Project.set_laborEntries
                                         Project.laborEntries].
  rewrite map_app, sum_app. simpl map. rewrite sum_cons.
  change (Num.sum []) with 0. lra.
Qed.

(** A valid labour entry on an open project is stored at the end of the
    labour entries with [hours * hourlyRate] as its cost; the stored
    project then has the labour cost of all its entries, the previous
    ones and the new one, and a total that is the sum of its three
    costs. *)
Theorem addLabor_effects (db : DB.t) (req : AddLaborRequest)
    (project : Project.t) :
  Project.findById (DB.projects db) (al_params_id req) = Some project ->
  completed_or_cancelled (Project.status project) = false ->
  worker req <> ""%string -> 0 <= hours req -> 0 <= hourlyRate req ->
  exists (entry : Project.LaborEntry) (stored : Project.t) (db' : DB.t),
    addLabor db req = (Created (LaborData (Some entry)), db')
    /\ Project.totalCost entry = hours req * hourlyRate req
    /\ Project.findById (DB.projects db') (al_params_id req) = Some stored
    /\ List.length (Project.laborEntries stored)
       = S (List.length (Project.laborEntries project))
    /\ last (Project.laborEntries stored) entry = entry
    /\ Project.labor (Project.costs stored)
       == ScenarioCosts.live_labor project + hours req * hourlyRate req
    /\ Project.labor (Project.costs stored) == ScenarioCosts.live_labor stored
    /\ Project.total (Project.costs stored)
       == Project.materials (Project.costs stored)
          + Project.labor (Project.costs stored)
          + Project.other (Project.costs stored)
    /\ DB.stockItems db' = DB.stockItems db
    /\ DB.movements db' = DB.movements db
    /\ DB.projectMaterials db' = DB.projectMaterials db.
Proof.
  intros Hproject Hopen Hworker Hhours Hrate.
  destruct (Project_findById_id _ _ _ Hproject) as [Hid _].
  unfold addLabor. rewrite Hproject, Hopen.
  set (entry := {| Project.entry_id := _ |}).
  set (project' := Project.set_laborEntries _ project).
  assert (Hvalid : Project.validate_entry entry = true).
  { unfold Project.validate_entry, entry.
    cbn [Project.worker Project.hours Project.hourlyRate].
    apply leb_le in Hhours. apply leb_le in Hrate.
    rewrite Hhours, Hrate.
    destruct (String.eqb_spec (worker req) ""); [contradiction | reflexivity]. }
  rewrite Hvalid.
  assert (Hentries : Project.laborEntries (Project.pre_save project')
                     = map (fun e => Project.set_totalCost
                                       (Project.hours e * Project.hourlyRate e)
                                       e)
                         (Project.laborEntries project) ++ [entry]).
  { unfold Project.pre_save, project'.
    cbn [Project.laborEntries Project.set_laborEntries].
    destruct (Project.laborEntries project ++ [entry]) eqn:E.
    - destruct (Project.laborEntries project); discriminate E.
    - rewrite <- E, map_app. reflexivity. }
  assert (Hne : Project.laborEntries project' <> []).
  { unfold project'. cbn [Project.laborEntries Project.set_laborEntries].
    destruct (Project.laborEntries project); discriminate. }
  exists entry, (Project.pre_save project').
  eexists. split.
  { rewrite Hentries, map_app. simpl map. rewrite last_last. reflexivity. }
  cbn [DB.projects DB.set_projects DB.stockItems DB.movements
       DB.projectMaterials].
  split; [reflexivity | ].
  split.
  { rewrite <- Hid.
    apply (Project_save_findById (DB.projects db) project' project).
    cbn. rewrite Hid. exact Hproject. }
  split.
  { rewrite Hentries, length_app, length_map. simpl. lia. }
  split; [rewrite Hentries; apply last_last | ].
  split.
  { rewrite (pre_save_labor_nonempty project' Hne).
    unfold project'. apply (live_labor_app project entry). }
  split.
  { rewrite live_labor_pre_save. apply pre_save_labor_nonempty. exact Hne. }
  split; [apply Project_pre_save_costs | ].
  repeat split.
Qed.

(** The theorem at three hours at 12 an hour on the open job. *)
Lemma addLabor_effects_witness :
  exists (entry : Project.LaborEntry) (stored : Project.t) (db' : DB.t),
    addLabor
      (Scenario.db
         (Scenario.job Project.active ScenarioCosts.labor_costs
            [ScenarioCosts.shift]) [])
      ScenarioRemove.labor_request
    = (Created (LaborData (Some entry)), db')
    /\ Project.findById (DB.projects db') 7%nat = Some stored
    /\ Project.labor (Project.costs stored) == 20 + 3 * 12.
Proof.
  destruct (addLabor_effects
              (Scenario.db
                 (Scenario.job Project.active ScenarioCosts.labor_costs
                    [ScenarioCosts.shift]) [])
              ScenarioRemove.labor_request
              (Scenario.job Project.active ScenarioCosts.labor_costs
                 [ScenarioCosts.shift]))
    as [entry [stored [db' [Hres [_ [Hfind [_ [_ [Hlabor _]]]]]]]]];
    try reflexivity; try discriminate.
  exists entry, stored, db'.
  split; [exact Hres | ]. split; [exact Hfind | ].
  rewrite Hlabor. vm_compute. reflexivity.
Defined.

Lemma findIndex_lt {A : Type} (f : A -> bool) (l : list A) (i : nat) :
  findIndex f l = Some i -> (i < List.length l)%nat.
Proof.
  revert i. induction l as [ | x l IH]; simpl; intros i; [discriminate | ].
  destruct (f x); [intros [= <-]; lia | ].
  destruct (findIndex f l) as [j | ]; [ | discriminate].
  intros [= <-]. specialize (IH j eq_refl). lia.
Qed.

Lemma splice1_length {A : Type} (i : nat) (l : list A) :
  (i < List.length l)%nat ->
  S (List.length (splice1 i l)) = List.length l.
Proof.
  intros Hi. unfold splice1.
  rewrite length_app, length_firstn, length_skipn. lia.
Qed.

(** When labour entries remain after [removeLabor], the stored project
    has one entry less and its labour cost is the sum of
    [hours * hourlyRate] over the entries that remain; its total is the
    sum of its three costs. *)
Theorem removeLabor_effects (db : DB.t) (req : RemoveLaborRequest)
    (project : Project.t) (entryIndex : nat) :
  Project.findById (DB.projects db) (rl_params_id req) = Some project ->
  findIndex (fun e => Nat.eqb (Project.entry_id e) (rl_params_entryId req))
    (Project.laborEntries project) = Some entryIndex ->
  splice1 entryIndex (Project.laborEntries project) <> [] ->
  exists (stored : Project.t) (db' : DB.t),
    removeLabor db req = (Success, db')
    /\ Project.findById (DB.projects db') (rl_params_id req) = Some stored
    /\ S (List.length (Project.laborEntries stored))
       = List.length (Project.laborEntries project)
    /\ map Project.entry_id (Project.laborEntries stored)
       = splice1 entryIndex (map Project.entry_id (Project.laborEntries project))
    /\ Project.labor (Project.costs stored) == ScenarioCosts.live_labor stored
    /\ Project.total (Project.costs stored)
       == Project.materials (Project.costs stored)
          + Project.labor (Project.costs stored)
          + Project.other (Project.costs stored).
Proof.
  intros Hproject Hindex Hrest.
  destruct (Project_findById_id _ _ _ Hproject) as [Hid _].
  unfold removeLabor. rewrite Hproject, Hindex.
  set (project' := Project.set_laborEntries _ project).
  assert (Hentries : Project.laborEntries (Project.pre_save project')
                     = map (fun e => Project.set_totalCost
                                       (Project.hours e * Project.hourlyRate e)
                                       e)
                         (splice1 entryIndex (Project.laborEntries project))).
  { unfold Project.pre_save, project'.
    cbn [Project.laborEntries Project.set_laborEntries].
    destruct (splice1 entryIndex (Project.laborEntries project));
      reflexivity. }
  exists (Project.pre_save project').
  eexists. split; [reflexivity | ].
  cbn [DB.projects DB.set_projects].
  split.
  { rewrite <- Hid.
    apply (Project_save_findById (DB.projects db) project' project).
    cbn. rewrite Hid. exact Hproject. }
  split.
  { rewrite Hentries, length_map. apply splice1_length.
    eapply findIndex_lt. exact Hindex. }
  split.
  { rewrite Hentries, map_map. cbn [Project.set_totalCost Project.entry_id].
    unfold splice1. rewrite map_app, firstn_map, skipn_map. reflexivity. }
  split.
  { rewrite live_labor_pre_save. apply pre_save_labor_nonempty. exact Hrest. }
  apply Project_pre_save_costs.
Qed.

(** The theorem at the removal of the first of two shifts. *)
Lemma removeLabor_effects_witness :
  exists (stored : Project.t) (db' : DB.t),
    removeLabor
      (Scenario.db
         (Scenario.job Project.active ScenarioCosts.labor_costs
            [ScenarioCosts.shift; ScenarioRemove.second_shift]) [])
      ScenarioCosts.remove_shift
    = (Success, db')
    /\ Project.findById (DB.projects db') 7%nat = Some stored
    /\ Project.labor (Project.costs stored) == ScenarioCosts.live_labor stored.
Proof.
  destruct (removeLabor_effects
              (Scenario.db
                 (Scenario.job Project.active ScenarioCosts.labor_costs
                    [ScenarioCosts.shift; ScenarioRemove.second_shift]) [])
              ScenarioCosts.remove_shift
              (Scenario.job Project.active ScenarioCosts.labor_costs
                 [ScenarioCosts.shift; ScenarioRemove.second_shift]) 0%nat)
    as [stored [db' [Hres [Hfind [_ [_ [Hlabor _]]]]]]];
    try reflexivity; try discriminate.
  exists stored, db'. tauto.
Defined.

(** A handler that does not answer with a success leaves the database as
    it was: this holds for [removeMaterial], [addLabor] and
    [removeLabor]. *)
Theorem refusals_keep_database :
  (forall (db : DB.t) (req : RemoveMaterialRequest),
      success (fst (removeMaterial db req)) = false ->
      snd (removeMaterial db req) = db)
  /\ (forall (db : DB.t) (req : AddLaborRequest),
         success (fst (addLabor db req)) = false ->
         snd (addLabor db req) = db)
  /\ (forall (db : DB.t) (req : RemoveLaborRequest),
         success (fst (removeLabor db req)) = false ->
         snd (removeLabor db req) = db).
Proof.
  split; [ | split].
  - intros db req. unfold removeMaterial.
    destruct (Project.findById _ _) as [project | ]; [ | reflexivity].
    destruct (is_completed _); [reflexivity | ].
    destruct (ProjectMaterial.findById _ _) as [pm | ]; [ | reflexivity].
    destruct (negb _); [reflexivity | ].
    destruct (Movement.create _ _) as [[m ms] | msg]; [ | reflexivity].
    destruct (restoreStock _ _ _) as [lot db2]. simpl. discriminate.
  - intros db req. unfold addLabor.
    destruct (Project.findById _ _) as [project | ]; [ | reflexivity].
    destruct (completed_or_cancelled _); [reflexivity | ].
    destruct (Project.validate_entry _); [ | reflexivity].
    simpl. discriminate.
  - intros db req. unfold removeLabor.
    destruct (Project.findById _ _) as [project | ]; [ | reflexivity].
    destruct (findIndex _ _); [ | reflexivity].
    simpl. discriminate.
Qed.

(** Materials and labour cannot be added to a completed or cancelled
    project, and a material cannot be removed from a completed one; a
    cancelled project still lets its materials go.  A refused call leaves
    the database as it was. *)
Theorem closed_project_guards :
  (forall (db : DB.t) (req : AddMaterialRequest) (project : Project.t),
      Project.findById (DB.projects db) (am_params_id req) = Some project ->
      Project.status project = Project.completed
      \/ Project.status project = Project.cancelled ->
      addMaterial db req = (ProjectClosed, db))
  /\ (forall (db : DB.t) (req : AddLaborRequest) (project : Project.t),
         Project.findById (DB.projects db) (al_params_id req) = Some project ->
         Project.status project = Project.completed
         \/ Project.status project = Project.cancelled ->
         addLabor db req = (ProjectClosed, db))
  /\ (forall (db : DB.t) (req : RemoveMaterialRequest) (project : Project.t),
         Project.findById (DB.projects db) (rm_params_id req) = Some project ->
         (fst (removeMaterial db req) = ProjectClosed
          <-> Project.status project = Project.completed)
         /\ (Project.status project = Project.completed ->
             snd (removeMaterial db req) = db)).
Proof.
  split; [exact addMaterial_closed | ].
  split; [exact addLabor_closed | ].
  intros db req project Hp.
  split; [apply (removeMaterial_closed_iff db req project Hp) | ].
  intros Hs. unfold removeMaterial. rewrite Hp, Hs. reflexivity.
Qed.

(** The theorem at a request for the cancelled job. *)
Lemma closed_project_guards_witness :
  addMaterial
    (Scenario.db (Scenario.job Project.cancelled Scenario.zero_costs [])
       [Scenario.lot 1%nat StockItem.FULL_BAR 1 10])
    (Scenario.request 4)
  = (ProjectClosed,
     Scenario.db (Scenario.job Project.cancelled Scenario.zero_costs [])
       [Scenario.lot 1%nat StockItem.FULL_BAR 1 10]).
Proof.
  apply (proj1 closed_project_guards _ _
           (Scenario.job Project.cancelled Scenario.zero_costs [])).
  - reflexivity.
  - right. reflexivity.
Defined.

End LaborMore.

(* ================================================================= *)
(** * More on the models *)

Section ModelsMore.
Local Open Scope Q_scope.
Local Ltac lra := Lqa.lra.

Lemma fold_left_labor_map (f : Project.LaborEntry -> Project.LaborEntry)
    (l : list Project.LaborEntry) (a : Q) :
  (forall e, Project.hours (f e) = Project.hours e
             /\ Project.hourlyRate (f e) = Project.hourlyRate e) ->
  fold_left (fun sum entry =>
               sum + Project.hours entry * Project.hourlyRate entry)
    (map f l) a
  = fold_left (fun sum entry =>
                 sum + Project.hours entry * Project.hourlyRate entry) l a.
Proof.
  intros Hf. revert a. induction l as [ | e l IH]; intros a; simpl.
  - reflexivity.
  - destruct (Hf e) as [-> ->]. apply IH.
Qed.

(** Saving a project twice in a row stores what saving it once stores:
    the hook recomputes the same entry costs, labour cost, other cost and
    totals. *)
Theorem Project_pre_save_idempotent (this : Project.t) :
  Project.pre_save (Project.pre_save this) = Project.pre_save this.
Proof.
  destruct this as [id ref st budget costs entries others].
  unfold Project.pre_save.
  cbn [Project._id Project.reference Project.status Project.budget
       Project.costs Project.laborEntries Project.otherCosts
       Project.materials Project.labor Project.other Project.total].
  destruct entries as [ | e entries]; destruct others as [ | o others];
    cbn [map]; try reflexivity.
  - cbn [Project.set_totalCost Project.hours Project.hourlyRate fold_left].
    rewrite map_map. cbn [Project.set_totalCost Project.hours
                          Project.hourlyRate Project.entry_id Project.worker
                          Project.description].
    rewrite fold_left_labor_map by (intros x; split; reflexivity).
    reflexivity.
  - cbn [Project.set_totalCost Project.hours Project.hourlyRate fold_left].
    rewrite map_map. cbn [Project.set_totalCost Project.hours
                          Project.hourlyRate Project.entry_id Project.worker
                          Project.description].
    rewrite fold_left_labor_map by (intros x; split; reflexivity).
    reflexivity.
Qed.

Lemma Num_Math_round_error (x : Q) :
  x - (1 # 2) < Num.Math_round x /\ Num.Math_round x <= x + (1 # 2).
Proof.
  unfold Num.Math_round.
  pose proof (Qfloor_le (x + (1 # 2))) as Hle.
  pose proof (Qlt_floor (x + (1 # 2))) as Hlt.
  rewrite inject_Z_plus in Hlt. change (inject_Z 1) with 1 in Hlt.
  split; lra.
Qed.

Lemma round2_error (x : Q) :
  x - (1 # 200) < Num.round2 x /\ Num.round2 x <= x + (1 # 200).
Proof.
  unfold Num.round2.
  destruct (Num_Math_round_error (x * 100)) as [Hlo Hhi].
  set (r := Num.Math_round (x * 100)) in *.
  assert (E : r / 100 == r * (1 # 100)) by (unfold Qdiv; reflexivity).
  rewrite E. split; lra.
Qed.

Lemma round2_hundredths (x : Q) :
  exists z : Z, Num.round2 x == inject_Z z / 100.
Proof.
  exists (Qfloor (x * 100 + (1 # 2))). reflexivity.
Qed.

(** [fresh] is above every identifier in use. *)
Lemma fresh_above (ids : list ObjectId) (n : ObjectId) :
  In n ids -> (n < fresh ids)%nat.
Proof.
  unfold fresh. induction ids as [ | m ids IH]; simpl; intros Hn.
  - contradiction.
  - destruct Hn as [-> | Hn]; [lia | ]. specialize (IH Hn). lia.
Qed.

(** A new lot of a product with a positive weight per metre is stored
    with the weight [lengthMM / 1000 * weightPerMeter * quantity] rounded
    to a whole number of hundredths, whatever weight the caller gave: a
    length of 0 gives the weight 0.  A lot of a product without a positive
    weight per metre, or of an unknown product, keeps the weight it was
    given.  Nothing but the weight and the identifier is set. *)
Theorem StockItem_create_weight (products : list Product.t)
    (doc : StockItem.t) (coll : list StockItem.t) :
  let created := fst (StockItem.create products doc coll) in
  snd (StockItem.create products doc coll) = coll ++ [created]
  /\ ~ In (StockItem._id created) (map StockItem._id coll)
  /\ StockItem.quantity created = StockItem.quantity doc
  /\ StockItem.lengthMM created = StockItem.lengthMM doc
  /\ StockItem.status created = StockItem.status doc
  /\ match Product.findById products (StockItem.product doc) with
     | Some product =>
         if Num.ltb 0 (Product.weightPerMeter product) then
           (exists z : Z,
               StockItem.calculatedWeight created == inject_Z z / 100)
           /\ Qabs (StockItem.calculatedWeight created
                    - StockItem.lengthMM doc / 1000
                      * Product.weightPerMeter product
                      * StockItem.quantity doc) <= 1 # 200
           /\ (StockItem.lengthMM doc == 0 ->
               StockItem.calculatedWeight created == 0)
         else
           StockItem.calculatedWeight created = StockItem.calculatedWeight doc
     | None =>
         StockItem.calculatedWeight created = StockItem.calculatedWeight doc
     end.
Proof.
  unfold StockItem.create. cbn [fst snd].
  set (new := StockItem.set_id (fresh (map StockItem._id coll)) doc).
  destruct (StockItem_pre_save_fields products None new)
    as [Hid [Hst [Hqt _]]].
  split; [reflexivity | ].
  split.
  { rewrite Hid. unfold new. cbn [StockItem.set_id StockItem._id].
    intros Hin. apply fresh_above in Hin. lia. }
  split; [rewrite Hqt; reflexivity | ].
  unfold StockItem.pre_save, StockItem.calculateWeight.
  change (StockItem.product new) with (StockItem.product doc).
  destruct (Product.findById products (StockItem.product doc)) as [p | ];
    [ | repeat split].
  destruct (Num.ltb 0 (Product.weightPerMeter p)); [ | repeat split].
  cbn [new StockItem.set_calculatedWeight StockItem.set_id StockItem.quantity
       StockItem.lengthMM StockItem.status StockItem.calculatedWeight].
  split; [reflexivity | ]. split; [reflexivity | ].
  split; [apply round2_hundredths | ].
  split.
  - destruct (round2_error (StockItem.lengthMM doc / 1000
                            * Product.weightPerMeter p
                            * StockItem.quantity doc)) as [Hlo Hhi].
    apply Qabs_Qle_condition. split; lra.
  - intros Hzero. rewrite <- round2_0 at 1. apply round2_compat.
    rewrite Hzero. unfold Qdiv. lra.
Qed.

Lemma getTotalStock_sums (coll : list StockItem.t) (productId : ObjectId) :
  let matched :=
    filter (fun x => (Nat.eqb (StockItem.product x) productId
                      && StockItem.Status_eqb (StockItem.status x)
                           StockItem.available)%bool) coll in
  StockItem.totalQuantity (StockItem.getTotalStock coll productId)
  == Num.sum (map StockItem.quantity matched)
  /\ StockItem.totalWeight (StockItem.getTotalStock coll productId)
     == Num.sum (map StockItem.calculatedWeight matched)
  /\ StockItem.totalLength (StockItem.getTotalStock coll productId)
     == Num.sum (map (fun x => StockItem.quantity x * StockItem.lengthMM x)
                   matched).
Proof.
  unfold StockItem.getTotalStock.
  destruct (filter _ coll); repeat split; reflexivity.
Qed.

(** The totals of a product over two collections put together are the
    sums of its totals over each; a lot of another product, or one that
    is not available, adds nothing; and no lot of the product at all
    gives zero totals. *)
Theorem getTotalStock_additive (coll1 coll2 : list StockItem.t)
    (productId : ObjectId) :
  (StockItem.totalQuantity
     (StockItem.getTotalStock (coll1 ++ coll2) productId)
   == StockItem.totalQuantity (StockItem.getTotalStock coll1 productId)
      + StockItem.totalQuantity (StockItem.getTotalStock coll2 productId)
   /\ StockItem.totalWeight
        (StockItem.getTotalStock (coll1 ++ coll2) productId)
      == StockItem.totalWeight (StockItem.getTotalStock coll1 productId)
         + StockItem.totalWeight (StockItem.getTotalStock coll2 productId)
   /\ StockItem.totalLength
        (StockItem.getTotalStock (coll1 ++ coll2) productId)
      == StockItem.totalLength (StockItem.getTotalStock coll1 productId)
         + StockItem.totalLength (StockItem.getTotalStock coll2 productId))
  /\ ((forall x, In x coll2 ->
                 StockItem.product x <> productId
                 \/ StockItem.status x <> StockItem.available) ->
      StockItem.getTotalStock (coll1 ++ coll2) productId
      = StockItem.getTotalStock coll1 productId
      /\ StockItem.getTotalStock coll2 productId
         = {| StockItem.totalQuantity := 0; StockItem.totalWeight := 0;
              StockItem.totalLength := 0 |}).
Proof.
  split.
  - destruct (getTotalStock_sums (coll1 ++ coll2) productId) as [Hq [Hw Hl]].
    destruct (getTotalStock_sums coll1 productId) as [Hq1 [Hw1 Hl1]].
    destruct (getTotalStock_sums coll2 productId) as [Hq2 [Hw2 Hl2]].
    rewrite Hq, Hw, Hl, Hq1, Hw1, Hl1, Hq2, Hw2, Hl2.
    rewrite filter_app, !map_app, !sum_app. repeat split; reflexivity.
  - intros Hother.
    assert (E : filter (fun x => (Nat.eqb (StockItem.product x) productId
                                  && StockItem.Status_eqb (StockItem.status x)
                                       StockItem.available)%bool) coll2 = []).
    { clear - Hother. induction coll2 as [ | x l IH]; simpl; [reflexivity | ].
      rewrite IH by (intros y Hy; apply Hother; right; exact Hy).
      destruct (Hother x (or_introl eq_refl)) as [Hp | Hs].
      - destruct (Nat.eqb_spec (StockItem.product x) productId);
          [contradiction | reflexivity].
      - destruct (StockItem.status x); try contradiction;
          rewrite andb_false_r; reflexivity. }
    unfold StockItem.getTotalStock. rewrite filter_app, E, app_nil_r.
    split; reflexivity.
Qed.

Lemma shorter_total (a b : StockItem.t) :
  StockItemQueries.shorter a b = false -> StockItemQueries.shorter b a = true.
Proof.
  unfold StockItemQueries.shorter. intros H.
  apply leb_gt in H. apply leb_le. lra.
Qed.

Lemma shorter_trans (a b c : StockItem.t) :
  StockItemQueries.shorter a b = true -> StockItemQueries.shorter b c = true ->
  StockItemQueries.shorter a c = true.
Proof.
  unfold StockItemQueries.shorter. rewrite !leb_le. intros H1 H2. lra.
Qed.

Lemma findOffcuts_insert_Permutation (x : StockItem.t)
    (l : list StockItem.t) :
  Permutation (StockItemQueries.insert x l) (x :: l).
Proof.
  induction l as [ | y l IH]; simpl.
  - apply Permutation_refl.
  - destruct (StockItemQueries.shorter x y).
    + apply Permutation_refl.
    + eapply perm_trans; [apply perm_skip, IH | apply perm_swap].
Qed.

Lemma findOffcuts_sort_Permutation (l : list StockItem.t) :
  Permutation (StockItemQueries.sort l) l.
Proof.
  induction l as [ | x l IH]; simpl.
  - apply perm_nil.
  - eapply perm_trans;
      [apply findOffcuts_insert_Permutation | apply perm_skip, IH].
Qed.

Lemma findOffcuts_sort_sorted (l : list StockItem.t) :
  StronglySorted (fun a b => StockItemQueries.shorter a b = true)
    (StockItemQueries.sort l).
Proof.
  induction l as [ | x l IH]; simpl; [constructor | ].
  induction IH as [ | y l' Hl IHl Hy]; simpl.
  - constructor; constructor.
  - destruct (StockItemQueries.shorter x y) eqn:E.
    + constructor; [constructor; assumption | ].
      constructor; [exact E | ].
      eapply Forall_impl; [ | exact Hy].
      intros z Hz. eapply shorter_trans; eassumption.
    + constructor; [exact IHl | ].
      eapply Permutation_Forall.
      * apply Permutation_sym, findOffcuts_insert_Permutation.
      * constructor; [apply shorter_total; exact E | exact Hy].
Qed.

Lemma fits_spec (productId : ObjectId) (minLengthMM : Q) (x : StockItem.t) :
  StockItemQueries.fits productId minLengthMM x = true
  <-> StockItem.product x = productId
      /\ StockItem.type x = StockItem.OFFCUT
      /\ StockItem.status x = StockItem.available
      /\ minLengthMM <= StockItem.lengthMM x.
Proof.
  unfold StockItemQueries.fits.
  rewrite !andb_true_iff, Nat.eqb_eq, leb_le.
  destruct (StockItem.type x), (StockItem.status x); simpl;
    intuition congruence.
Qed.

(** [findOffcuts] returns exactly the available offcuts of the product
    that are at least as long as asked, the shortest first: its first
    result is the tightest fit, and it is empty only when no offcut
    fits. *)
Theorem findOffcuts_best_fit (coll : list StockItem.t) (productId : ObjectId)
    (minLengthMM : Q) :
  (forall x : StockItem.t,
      In x (StockItemQueries.findOffcuts coll productId minLengthMM)
      <-> In x coll /\ StockItem.product x = productId
          /\ StockItem.type x = StockItem.OFFCUT
          /\ StockItem.status x = StockItem.available
          /\ minLengthMM <= StockItem.lengthMM x)
  /\ StronglySorted
       (fun a b => StockItem.lengthMM a <= StockItem.lengthMM b)
       (StockItemQueries.findOffcuts coll productId minLengthMM)
  /\ List.length (StockItemQueries.findOffcuts coll productId minLengthMM)
     = List.length (filter (StockItemQueries.fits productId minLengthMM) coll)
  /\ match StockItemQueries.findOffcuts coll productId minLengthMM with
     | first :: _ =>
         forall x : StockItem.t,
           In x coll ->
           StockItemQueries.fits productId minLengthMM x = true ->
           StockItem.lengthMM first <= StockItem.lengthMM x
     | [] =>
         forall x : StockItem.t,
           In x coll -> StockItemQueries.fits productId minLengthMM x = false
     end.
Proof.
  unfold StockItemQueries.findOffcuts.
  set (fitting := filter (StockItemQueries.fits productId minLengthMM) coll).
  pose proof (findOffcuts_sort_Permutation fitting) as Hperm.
  pose proof (findOffcuts_sort_sorted fitting) as Hsorted.
  assert (Hin : forall x, In x (StockItemQueries.sort fitting)
                          <-> In x coll
                              /\ StockItemQueries.fits productId minLengthMM x
                                 = true).
  { intros x. unfold fitting. rewrite <- filter_In.
    split; apply Permutation_in; [ | apply Permutation_sym]; exact Hperm. }
  split.
  { intros x. rewrite Hin, fits_spec. reflexivity. }
  split.
  { clear Hperm Hin. induction Hsorted as [ | a l Hl IH Ha]; constructor.
    - exact IH.
    - eapply Forall_impl; [ | exact Ha].
      intros b Hb. apply leb_le. exact Hb. }
  split; [apply Permutation_length; exact Hperm | ].
  destruct (StockItemQueries.sort fitting) as [ | first rest] eqn:E.
  - intros x Hx.
    destruct (StockItemQueries.fits productId minLengthMM x) eqn:Ef;
      [ | reflexivity].
    exfalso. apply (proj2 (Hin x)). split; assumption.
  - intros x Hx Hfit.
    assert (Hx' : In x (first :: rest)) by (apply Hin; split; assumption).
    inversion Hsorted as [ | ? ? _ Hall]; subst.
    destruct Hx' as [<- | Hx'].
    + lra.
    + rewrite Forall_forall in Hall. apply leb_le. apply (Hall x Hx').
Qed.

(** Deleting a project is refused exactly when project materials refer
    to it, and then nothing changes.  Otherwise the project is gone, the
    other projects stay, and the lots, the ledger and the project
    materials are untouched. *)
Theorem deleteProject_guard (db : DB.t) (params_id : ObjectId)
    (project : Project.t) :
  Project.findById (DB.projects db) params_id = Some project ->
  let materialsCount :=
    ProjectAdmin.countDocuments (DB.projectMaterials db) params_id in
  ((exists x, In x (DB.projectMaterials db)
              /\ ProjectMaterial.project x = params_id) ->
   ProjectAdmin.deleteProject db params_id
   = (ProjectAdmin.HasMaterials materialsCount, db)
   /\ (0 < materialsCount)%nat)
  /\ ((forall x, In x (DB.projectMaterials db) ->
                 ProjectMaterial.project x <> params_id) ->
      exists db' : DB.t,
        ProjectAdmin.deleteProject db params_id = (ProjectAdmin.Deleted, db')
        /\ Project.findById (DB.projects db') params_id = None
        /\ (forall other : ObjectId,
               other <> params_id ->
               Project.findById (DB.projects db') other
               = Project.findById (DB.projects db) other)
        /\ DB.stockItems db' = DB.stockItems db
        /\ DB.movements db' = DB.movements db
        /\ DB.projectMaterials db' = DB.projectMaterials db
        /\ DB.products db' = DB.products db).
Proof.
  intros Hproject materialsCount.
  destruct (Project_findById_id _ _ _ Hproject) as [Hid _].
  unfold ProjectAdmin.deleteProject. rewrite Hproject, Hid.
  fold materialsCount.
  split.
  - intros [x [Hx Hp]].
    assert (Hpos : (0 < materialsCount)%nat).
    { unfold materialsCount, ProjectAdmin.countDocuments.
      assert (Hin : In x (filter (fun y => Nat.eqb (ProjectMaterial.project y)
                                             params_id)
                            (DB.projectMaterials db))).
      { apply filter_In. split; [exact Hx | ]. apply Nat.eqb_eq. exact Hp. }
      destruct (filter _ (DB.projectMaterials db)); [contradiction | ].
      simpl. lia. }
    split; [ | exact Hpos].
    apply Nat.ltb_lt in Hpos. rewrite Hpos. reflexivity.
  - intros Hnone.
    assert (Hzero : materialsCount = 0%nat).
    { unfold materialsCount, ProjectAdmin.countDocuments.
      assert (E : filter (fun y => Nat.eqb (ProjectMaterial.project y)
                                     params_id) (DB.projectMaterials db)
                  = []).
      { clear - Hnone.
        induction (DB.projectMaterials db) as [ | y l IH]; simpl;
          [reflexivity | ].
        destruct (Nat.eqb_spec (ProjectMaterial.project y) params_id)
          as [E | _].
        - exfalso. apply (Hnone y (or_introl eq_refl) E).
        - apply IH. intros z Hz. apply Hnone. right. exact Hz. }
      rewrite E. reflexivity. }
    rewrite Hzero. cbn [Nat.ltb Nat.leb].
    eexists. split; [reflexivity | ].
    cbn [DB.projects DB.set_projects DB.stockItems DB.movements
         DB.projectMaterials DB.products].
    unfold ProjectAdmin.deleteOne, Project.findById. rewrite Hid.
    clear Hproject.
    split.
    { induction (DB.projects db) as [ | y l IH]; simpl; [reflexivity | ].
      destruct (Nat.eqb (Project._id y) params_id) eqn:E; simpl.
      - exact IH.
      - rewrite E. exact IH. }
    split; [ | repeat split].
    intros other Hother.
    induction (DB.projects db) as [ | y l IH]; simpl; [reflexivity | ].
    destruct (Nat.eqb_spec (Project._id y) params_id) as [E | E]; simpl.
    + destruct (Nat.eqb_spec (Project._id y) other) as [E' | _];
        [congruence | exact IH].
    + destruct (Nat.eqb (Project._id y) other); [reflexivity | exact IH].
Qed.

(** The theorem at the job after a material was added to it: it cannot be
    deleted. *)
Lemma deleteProject_guard_witness :
  ProjectAdmin.deleteProject ScenarioRemove.after_add 7%nat
  = (ProjectAdmin.HasMaterials 1, ScenarioRemove.after_add).
Proof.
  destruct (deleteProject_guard ScenarioRemove.after_add 7%nat
              (Project.pre_save
                 (Project.set_costs
                    (Project.set_materials (1000 # 100) Scenario.zero_costs)
                    (Scenario.job Project.active Scenario.zero_costs [])))
              ltac:(vm_compute; reflexivity)) as [Hrefused _].
  destruct Hrefused as [Hres _].
  - eexists. split; [left; reflexivity | reflexivity].
  - exact Hres.
Defined.

End ModelsMore.

(* ================================================================= *)
(** * Properties of the stock alert service *)

Section StockAlertFacts.
Import StockAlert.
Local Open Scope Q_scope.
Local Ltac lra := Lqa.lra.

Variable now : Z.
Variable stockItems : list StockItem.t.

(** The stock of a product depends on its identifier only. *)
Lemma totalStock_id (p q : ProductDoc) :
  _id p = _id q -> totalStock stockItems p = totalStock stockItems q.
Proof. unfold totalStock. intros ->. reflexivity. Qed.

Lemma createStockAlert_cases (p : ProductDoc) (alertType : AlertType)
    (coll : list Notification) :
  (forall coll', snd (createStockAlert now p alertType coll') = coll')
  \/ exists n : Notification,
       snd (createStockAlert now p alertType coll) = coll ++ [n]
       /\ user n = None /\ read n = false /\ createdAt n = now
       /\ relatedProduct n = Some (_id p)
       /\ type n = match alertType with
                   | critical => STOCK_CRITICAL
                   | warning => STOCK_WARNING
                   end
       /\ priority n = match alertType with
                       | critical => high
                       | warning => medium
                       end.
Proof.
  unfold createStockAlert, createNotification.
  cbn [title message user type read relatedProduct priority].
  match goal with
  | |- context [if ?b then _ else _] => destruct b
  end.
  - right. eexists. split; [reflexivity | ]. repeat split.
  - left. intros coll'. reflexivity.
Qed.

Lemma find_app_Some {A : Type} (f : A -> bool) (l1 l2 : list A) (x : A) :
  find f l1 = Some x -> find f (l1 ++ l2) = Some x.
Proof.
  induction l1 as [ | y l1 IH]; simpl; [discriminate | ].
  destruct (f y); [intros H; exact H | exact IH].
Qed.

Lemma find_app_None {A : Type} (f : A -> bool) (l1 l2 : list A) :
  find f (l1 ++ l2) = None -> find f l1 = None.
Proof.
  induction l1 as [ | y l1 IH]; simpl; [reflexivity | ].
  destruct (f y); [discriminate | exact IH].
Qed.

Lemma find_app_last {A : Type} (f : A -> bool) (l : list A) (x : A) :
  f x = true -> exists y, find f (l ++ [x]) = Some y.
Proof.
  intros Hx. induction l as [ | y l IH]; simpl.
  - rewrite Hx. eexists. reflexivity.
  - destruct (f y); [eexists; reflexivity | exact IH].
Qed.

Lemma app_one_neq {A : Type} (l : list A) (x : A) : l ++ [x] <> l.
Proof.
  intros H. apply (f_equal (@List.length A)) in H.
  rewrite length_app in H. simpl in H. lia.
Qed.

(** One turn of the loop leaves the notifications as they are or appends
    one alert for the product, and only when no alert of the type for the
    product is recent. *)
Lemma checkProduct_cases (coll : list Notification) (p : ProductDoc) :
  0 < Product.minStock (stockConfig p) ->
  checkProduct now stockItems coll p = coll
  \/ exists n : Notification,
       checkProduct now stockItems coll p = coll ++ [n]
       /\ alert_for now stockItems p n
       /\ checkRecentAlert now coll (_id p) (type n) = None.
Proof.
  intros Hmin. unfold checkProduct.
  destruct (Num.leb (totalStock stockItems p)
              (Product.minStock (stockConfig p))
            && Num.ltb 0 (totalStock stockItems p))%bool eqn:Ecrit.
  - apply andb_true_iff in Ecrit. destruct Ecrit as [Hle Hpos].
    apply leb_le in Hle. apply ltb_lt in Hpos.
    destruct (checkRecentAlert now coll (_id p) STOCK_CRITICAL) eqn:Er;
      [left; reflexivity | ].
    destruct (createStockAlert_cases p critical coll)
      as [Hfail | [n [Hn [Hu [Hr [Hc [Hp [Ht Hpr]]]]]]]].
    + left. apply Hfail.
    + right. exists n. split; [exact Hn | ]. split.
      * unfold alert_for. repeat split; try assumption. left. tauto.
      * rewrite Ht. exact Er.
  - destruct (Num.leb (totalStock stockItems p) (safetyStock p)
              && Num.ltb (Product.minStock (stockConfig p))
                   (totalStock stockItems p))%bool eqn:Ewarn;
      [ | left; reflexivity].
    apply andb_true_iff in Ewarn. destruct Ewarn as [Hle Hgt].
    apply leb_le in Hle. apply ltb_lt in Hgt.
    destruct (checkRecentAlert now coll (_id p) STOCK_WARNING) eqn:Er;
      [left; reflexivity | ].
    destruct (createStockAlert_cases p warning coll)
      as [Hfail | [n [Hn [Hu [Hr [Hc [Hp [Ht Hpr]]]]]]]].
    + left. apply Hfail.
    + right. exists n. split; [exact Hn | ]. split.
      * assert (Hpos : 0 < totalStock stockItems p) by lra.
        unfold alert_for. repeat split; try assumption. right. tauto.
      * rewrite Ht. exact Er.
Qed.

Lemma monitored_minStock (p : ProductDoc) :
  monitored p = true -> 0 < Product.minStock (stockConfig p).
Proof.
  unfold monitored. intros H. apply andb_true_iff in H.
  destruct H as [_ H]. apply ltb_lt. exact H.
Qed.

Lemma checkProduct_extends (coll : list Notification) (p : ProductDoc) :
  0 < Product.minStock (stockConfig p) ->
  exists added, checkProduct now stockItems coll p = coll ++ added.
Proof.
  intros Hmin.
  destruct (checkProduct_cases coll p Hmin) as [-> | [n [-> _]]].
  - exists []. rewrite app_nil_r. reflexivity.
  - exists [n]. reflexivity.
Qed.

Lemma checkStockLevels_fold (products : list ProductDoc)
    (base : list Notification) (l : list ProductDoc) :
  (forall p, In p l -> In p products /\ monitored p = true) ->
  forall pre : list Notification,
  exists added : list Notification,
    fold_left (checkProduct now stockItems) l (base ++ pre)
    = (base ++ pre) ++ added
    /\ Forall (fun n =>
                 exists p, In p products /\ monitored p = true
                           /\ alert_for now stockItems p n
                           /\ checkRecentAlert now base (_id p) (type n)
                              = None) added.
Proof.
  induction l as [ | p l IH]; intros Hl pre; simpl.
  - exists []. rewrite app_nil_r. split; [reflexivity | constructor].
  - destruct (Hl p (or_introl eq_refl)) as [Hin Hmon].
    assert (Hl' : forall q, In q l -> In q products /\ monitored q = true).
    { intros q Hq. apply Hl. right. exact Hq. }
    destruct (checkProduct_cases (base ++ pre) p (monitored_minStock p Hmon))
      as [-> | [n [-> [Halert Hrecent]]]].
    + apply IH. exact Hl'.
    + rewrite <- app_assoc.
      destruct (IH Hl' (pre ++ [n])) as [added [Hfold Hall]].
      exists (n :: added). split.
      * rewrite Hfold, <- !app_assoc. reflexivity.
      * constructor; [ | exact Hall].
        exists p. split; [exact Hin | ]. split; [exact Hmon | ].
        split; [exact Halert | ].
        unfold checkRecentAlert in *. eapply find_app_None. exact Hrecent.
Qed.

(** [checkStockLevels] only appends notifications.  Each one it appends
    is an unread broadcast dated [now] for an active product with a
    positive minimum stock whose stock is positive and either at most the
    minimum (a critical alert of high priority) or above it and at most
    the safety stock (a warning of medium priority), and for which no
    alert of that type was less than 24 hours old.  A product without
    stock therefore gets no alert. *)
Theorem checkStockLevels_alerts (products : list ProductDoc)
    (coll : list Notification) :
  exists added : list Notification,
    checkStockLevels now products stockItems coll = coll ++ added
    /\ Forall (fun n =>
                 exists p, In p products /\ monitored p = true
                           /\ alert_for now stockItems p n
                           /\ checkRecentAlert now coll (_id p) (type n)
                              = None) added
    /\ forall (n : Notification) (p : ProductDoc),
         In n added -> relatedProduct n = Some (_id p) ->
         0 < totalStock stockItems p.
Proof.
  unfold checkStockLevels.
  destruct (checkStockLevels_fold products coll (filter monitored products))
    with (pre := @nil Notification) as [added [Hfold Hall]].
  { intros p Hp. apply filter_In in Hp. exact Hp. }
  rewrite app_nil_r in Hfold.
  exists added. split; [exact Hfold | ]. split; [exact Hall | ].
  intros n p Hn Hrel. rewrite Forall_forall in Hall.
  destruct (Hall n Hn) as [q [_ [_ [Halert _]]]].
  destruct Halert as [_ [_ [_ [Hq [Hpos _]]]]].
  rewrite Hq in Hrel. injection Hrel as Eid.
  rewrite <- (totalStock_id q p Eid). exact Hpos.
Qed.

(** A turn of the loop that changes nothing. *)
Lemma checkProduct_stable_after (coll : list Notification) (p : ProductDoc) :
  checkProduct now stockItems (checkProduct now stockItems coll p) p
  = checkProduct now stockItems coll p.
Proof.
  unfold checkProduct.
  destruct (Num.leb (totalStock stockItems p)
              (Product.minStock (stockConfig p))
            && Num.ltb 0 (totalStock stockItems p))%bool.
  - destruct (checkRecentAlert now coll (_id p) STOCK_CRITICAL) eqn:Er.
    + rewrite Er. reflexivity.
    + destruct (createStockAlert_cases p critical coll)
        as [Hfail | [n [Hn [_ [_ [Hc [Hp [Ht _]]]]]]]].
      * rewrite !Hfail, Er. reflexivity.
      * rewrite Hn.
        destruct (find_app_last
                    (fun m =>
                       (match relatedProduct m with
                        | Some q => Nat.eqb q (_id p)
                        | None => false
                        end
                        && NotificationType_eqb (type m) STOCK_CRITICAL
                        && Z.leb (now - 24 * 60 * 60 * 1000) (createdAt m))%bool)
                    coll n) as [y Hy].
        { rewrite Hp, Ht, Hc, Nat.eqb_refl. simpl. apply Z.leb_le. lia. }
        unfold checkRecentAlert. rewrite Hy. reflexivity.
  - destruct (Num.leb (totalStock stockItems p) (safetyStock p)
              && Num.ltb (Product.minStock (stockConfig p))
                   (totalStock stockItems p))%bool; [ | reflexivity].
    destruct (checkRecentAlert now coll (_id p) STOCK_WARNING) eqn:Er.
    + rewrite Er. reflexivity.
    + destruct (createStockAlert_cases p warning coll)
        as [Hfail | [n [Hn [_ [_ [Hc [Hp [Ht _]]]]]]]].
      * rewrite !Hfail, Er. reflexivity.
      * rewrite Hn.
        destruct (find_app_last
                    (fun m =>
                       (match relatedProduct m with
                        | Some q => Nat.eqb q (_id p)
                        | None => false
                        end
                        && NotificationType_eqb (type m) STOCK_WARNING
                        && Z.leb (now - 24 * 60 * 60 * 1000) (createdAt m))%bool)
                    coll n) as [y Hy].
        { rewrite Hp, Ht, Hc, Nat.eqb_refl. simpl. apply Z.leb_le. lia. }
        unfold checkRecentAlert. rewrite Hy. reflexivity.
Qed.

Lemma checkProduct_stable_app (coll added : list Notification)
    (p : ProductDoc) :
  checkProduct now stockItems coll p = coll ->
  checkProduct now stockItems (coll ++ added) p = coll ++ added.
Proof.
  unfold checkProduct.
  destruct (Num.leb (totalStock stockItems p)
              (Product.minStock (stockConfig p))
            && Num.ltb 0 (totalStock stockItems p))%bool.
  - destruct (checkRecentAlert now coll (_id p) STOCK_CRITICAL) eqn:Er.
    + intros _. unfold checkRecentAlert in *.
      rewrite (find_app_Some _ _ added _ Er). reflexivity.
    + intros Hsame.
      destruct (createStockAlert_cases p critical coll)
        as [Hfail | [n [Hn _]]].
      * destruct (checkRecentAlert now (coll ++ added) (_id p) STOCK_CRITICAL);
          [reflexivity | apply Hfail].
      * rewrite Hn in Hsame. exfalso. apply (app_one_neq _ _ Hsame).
  - destruct (Num.leb (totalStock stockItems p) (safetyStock p)
              && Num.ltb (Product.minStock (stockConfig p))
                   (totalStock stockItems p))%bool; [ | reflexivity].
    destruct (checkRecentAlert now coll (_id p) STOCK_WARNING) eqn:Er.
    + intros _. unfold checkRecentAlert in *.
      rewrite (find_app_Some _ _ added _ Er). reflexivity.
    + intros Hsame.
      destruct (createStockAlert_cases p warning coll)
        as [Hfail | [n [Hn _]]].
      * destruct (checkRecentAlert now (coll ++ added) (_id p) STOCK_WARNING);
          [reflexivity | apply Hfail].
      * rewrite Hn in Hsame. exfalso. apply (app_one_neq _ _ Hsame).
Qed.

Lemma fold_checkProduct_extends (l : list ProductDoc) :
  (forall p, In p l -> monitored p = true) ->
  forall coll : list Notification,
  exists added,
    fold_left (checkProduct now stockItems) l coll = coll ++ added.
Proof.
  induction l as [ | p l IH]; intros Hl coll; simpl.
  - exists []. rewrite app_nil_r. reflexivity.
  - destruct (checkProduct_extends coll p
                (monitored_minStock p (Hl p (or_introl eq_refl))))
      as [a1 ->].
    destruct (IH (fun q Hq => Hl q (or_intror Hq)) (coll ++ a1)) as [a2 ->].
    exists (a1 ++ a2). rewrite app_assoc. reflexivity.
Qed.

Lemma fold_checkProduct_stable (l : list ProductDoc)
    (coll : list Notification) :
  (forall p, In p l -> checkProduct now stockItems coll p = coll) ->
  fold_left (checkProduct now stockItems) l coll = coll.
Proof.
  induction l as [ | p l IH]; simpl; intros Hl.
  - reflexivity.
  - rewrite (Hl p (or_introl eq_refl)). apply IH.
    intros q Hq. apply Hl. right. exact Hq.
Qed.

Lemma fold_checkProduct_result_stable (l : list ProductDoc) :
  (forall p, In p l -> monitored p = true) ->
  forall (coll : list Notification) (p : ProductDoc),
    In p l ->
    checkProduct now stockItems
      (fold_left (checkProduct now stockItems) l coll) p
    = fold_left (checkProduct now stockItems) l coll.
Proof.
  induction l as [ | a l IH]; intros Hl coll p Hp; simpl.
  - contradiction.
  - destruct Hp as [-> | Hp].
    + destruct (fold_checkProduct_extends l
                  (fun q Hq => Hl q (or_intror Hq))
                  (checkProduct now stockItems coll p)) as [added ->].
      apply checkProduct_stable_app, checkProduct_stable_after.
    + apply IH; [ | exact Hp]. intros q Hq. apply Hl. right. exact Hq.
Qed.

(** Running [checkStockLevels] again at the same instant adds nothing:
    every alert it would raise is already there, less than 24 hours
    old. *)
Theorem checkStockLevels_idempotent (products : list ProductDoc)
    (coll : list Notification) :
  checkStockLevels now products stockItems
    (checkStockLevels now products stockItems coll)
  = checkStockLevels now products stockItems coll.
Proof.
  unfold checkStockLevels. apply fold_checkProduct_stable.
  intros p Hp. apply fold_checkProduct_result_stable; [ | exact Hp].
  intros q Hq. apply filter_In in Hq. tauto.
Qed.

Lemma fold_left_push {A B : Type} (c : A -> bool) (g : A -> B)
    (l : list A) (acc : list B) :
  fold_left (fun acc x => if c x then acc ++ [g x] else acc) l acc
  = acc ++ map g (filter c l).
Proof.
  revert acc. induction l as [ | x l IH]; intros acc; simpl.
  - rewrite app_nil_r. reflexivity.
  - rewrite IH. destruct (c x); simpl.
    + rewrite <- app_assoc. reflexivity.
    + reflexivity.
Qed.

(** [getLowStockProducts] lists, in the order of the catalogue, exactly
    the active products with a positive minimum stock whose stock is at
    most their safety stock ([minStock * 1.5] when none is set), and
    calls them critical exactly when the stock is at most the minimum.  A
    product without any stock is listed as critical. *)
Theorem getLowStockProducts_listed (products : list ProductDoc) :
  map (fun e => ref_id (product e)) (getLowStockProducts products stockItems)
  = map _id
      (filter (fun p => Num.leb (totalStock stockItems p) (safetyStock p))
         (filter monitored products))
  /\ Forall (fun e =>
               0 < low_minStock e /\ currentStock e <= low_safetyStock e
               /\ (status e = critical <-> currentStock e <= low_minStock e))
       (getLowStockProducts products stockItems)
  /\ (forall p : ProductDoc,
         In p products -> monitored p = true ->
         totalStock stockItems p <= safetyStock p ->
         exists e : LowStockProduct,
           In e (getLowStockProducts products stockItems)
           /\ ref_id (product e) = _id p
           /\ currentStock e = totalStock stockItems p
           /\ (status e = critical
               <-> totalStock stockItems p
                   <= Product.minStock (stockConfig p)))
  /\ (forall p : ProductDoc,
         In p products -> monitored p = true ->
         0 <= Product.safetyStock (stockConfig p) ->
         totalStock stockItems p <= 0 ->
         exists e : LowStockProduct,
           In e (getLowStockProducts products stockItems)
           /\ ref_id (product e) = _id p /\ status e = critical).
Proof.
  unfold getLowStockProducts.
  rewrite (fold_left_push
             (fun p => Num.leb (totalStock stockItems p) (safetyStock p))
             (fun p =>
                {| product :=
                     {| ref_id := _id p; ref_code := code p;
                        ref_description := description p;
                        ref_materialType := materialType p |};
                   currentStock := totalStock stockItems p;
                   low_minStock := Product.minStock (stockConfig p);
                   low_safetyStock := safetyStock p;
                   status := if Num.leb (totalStock stockItems p)
                                  (Product.minStock (stockConfig p))
                             then critical else warning;
                   low_unit := Product.unit (stockConfig p) |})).
  cbn [app].
  assert (Hstatus : forall p,
             (if Num.leb (totalStock stockItems p)
                   (Product.minStock (stockConfig p))
              then critical else warning) = critical
             <-> totalStock stockItems p <= Product.minStock (stockConfig p)).
  { intros p.
    destruct (Num.leb (totalStock stockItems p)
                (Product.minStock (stockConfig p))) eqn:E.
    - apply leb_le in E. tauto.
    - apply leb_gt in E. split; [discriminate | intros H; lra]. }
  assert (Hlisted : forall p : ProductDoc,
             In p products -> monitored p = true ->
             totalStock stockItems p <= safetyStock p ->
             exists e : LowStockProduct,
               In e (map
                       (fun p =>
                          {| product :=
                               {| ref_id := _id p; ref_code := code p;
                                  ref_description := description p;
                                  ref_materialType := materialType p |};
                             currentStock := totalStock stockItems p;
                             low_minStock := Product.minStock (stockConfig p);
                             low_safetyStock := safetyStock p;
                             status := if Num.leb (totalStock stockItems p)
                                            (Product.minStock (stockConfig p))
                                       then critical else warning;
                             low_unit := Product.unit (stockConfig p) |})
                       (filter
                          (fun p => Num.leb (totalStock stockItems p)
                                      (safetyStock p))
                          (filter monitored products)))
               /\ ref_id (product e) = _id p
               /\ currentStock e = totalStock stockItems p
               /\ (status e = critical
                   <-> totalStock stockItems p
                       <= Product.minStock (stockConfig p))).
  { intros p Hp Hmon Hlow. eexists. split.
    - apply in_map. apply filter_In. split.
      + apply filter_In. split; [exact Hp | exact Hmon].
      + apply leb_le. exact Hlow.
    - cbn. split; [reflexivity | ]. split; [reflexivity | apply Hstatus]. }
  split; [rewrite map_map; reflexivity | ].
  split.
  { apply Forall_forall. intros e He.
    apply in_map_iff in He. destruct He as [p [<- Hp]].
    apply filter_In in Hp. destruct Hp as [Hp Hlow].
    apply filter_In in Hp. destruct Hp as [_ Hmon].
    cbn. split; [apply monitored_minStock; exact Hmon | ].
    split; [apply leb_le; exact Hlow | apply Hstatus]. }
  split; [exact Hlisted | ].
  intros p Hp Hmon Hsafety Hzero.
  pose proof (monitored_minStock p Hmon) as Hmin.
  assert (Hlow : totalStock stockItems p <= safetyStock p).
  { unfold safetyStock, Num.or_else.
    destruct (Num.truthy (Product.safetyStock (stockConfig p))); lra. }
  destruct (Hlisted p Hp Hmon Hlow) as [e [He [Hid [_ Hst]]]].
  exists e. split; [exact He | ]. split; [exact Hid | ].
  apply Hst. lra.
Qed.

End StockAlertFacts.

(* ================================================================= *)
(** * The theorems at the scenarios *)

Section MoreWitnesses.
Import Controller.
Local Open Scope Q_scope.

(** [refusals_keep_database] at the removal of a material that does not
    exist. *)
Lemma refusals_keep_database_witness :
  snd (removeMaterial
         (Scenario.db (Scenario.job Project.active Scenario.zero_costs []) [])
         ScenarioRemove.remove_request)
  = Scenario.db (Scenario.job Project.active Scenario.zero_costs []) [].
Proof.
  apply (proj1 refusals_keep_database). reflexivity.
Defined.

(** [getTotalStock_additive] at the offcut and the full bar followed by
    the used offcut. *)
Lemma getTotalStock_additive_witness :
  StockItem.getTotalStock (Scenario.bar_and_offcut ++ [Scenario.used_offcut])
    1%nat
  = StockItem.getTotalStock Scenario.bar_and_offcut 1%nat.
Proof.
  apply (proj2 (getTotalStock_additive Scenario.bar_and_offcut
                  [Scenario.used_offcut] 1%nat)).
  intros x [<- | []]. right. discriminate.
Defined.

(** [getProjectTotals_app] at the materials of the job followed by the
    same materials, seen from another project. *)
Lemma getProjectTotals_app_witness :
  ProjectMaterial.getProjectTotals
    (DB.projectMaterials ScenarioRemove.after_add
     ++ DB.projectMaterials ScenarioRemove.after_add) 8%nat
  = ProjectMaterial.getProjectTotals
      (DB.projectMaterials ScenarioRemove.after_add) 8%nat.
Proof.
  apply (proj2 (proj2 (getProjectTotals_app
                         (DB.projectMaterials ScenarioRemove.after_add)
                         (DB.projectMaterials ScenarioRemove.after_add)
                         8%nat))).
  intros x [<- | []]. vm_compute. discriminate.
Defined.

(** [getLowStockProducts_listed] at the product without stock: it is
    listed as critical. *)
Lemma getLowStockProducts_listed_witness :
  exists e : StockAlert.LowStockProduct,
    In e (StockAlert.getLowStockProducts
            [ScenarioAlert.bar; ScenarioAlert.missing] ScenarioAlert.stock)
    /\ StockAlert.ref_id (StockAlert.product e) = 2%nat
    /\ StockAlert.status e = StockAlert.critical.
Proof.
  apply (proj2 (proj2 (proj2 (getLowStockProducts_listed ScenarioAlert.stock
                                [ScenarioAlert.bar; ScenarioAlert.missing])))
           ScenarioAlert.missing).
  - right. left. reflexivity.
  - reflexivity.
  - vm_compute. discriminate.
  - vm_compute. discriminate.
Defined.

(** [checkStockLevels_alerts] at the same catalogue: whatever is added,
    nothing is added for the product without stock. *)
Lemma checkStockLevels_alerts_witness :
  exists added : list StockAlert.Notification,
    StockAlert.checkStockLevels 1000
      [ScenarioAlert.bar; ScenarioAlert.missing] ScenarioAlert.stock []
    = added
    /\ forall n : StockAlert.Notification,
         In n added -> StockAlert.relatedProduct n <> Some 2%nat.
Proof.
  destruct (checkStockLevels_alerts 1000 ScenarioAlert.stock
              [ScenarioAlert.bar; ScenarioAlert.missing] [])
    as [added [Hrun [_ Hpos]]].
  exists added. split; [exact Hrun | ].
  intros n Hn Hrel.
  specialize (Hpos n ScenarioAlert.missing Hn Hrel).
  vm_compute in Hpos. discriminate Hpos.
Defined.

End MoreWitnesses.

(* ================================================================= *)
(** * Properties of the project references *)

Section ReferenceFacts.
Import ProjectReference.
Local Open Scope string_scope.

Lemma Ascii_compare_refl (c : ascii) : Ascii.compare c c = Eq.
Proof. unfold Ascii.compare. apply N.compare_refl. Qed.

Lemma Ascii_compare_trans (x y z : ascii) :
  Ascii.compare x y <> Gt -> Ascii.compare y z <> Gt ->
  Ascii.compare x z <> Gt
  /\ (Ascii.compare x z = Eq ->
      Ascii.compare x y = Eq /\ Ascii.compare y z = Eq).
Proof.
  unfold Ascii.compare.
  destruct (N.compare_spec (N_of_ascii x) (N_of_ascii y)) as [Exy | Lxy | Gxy];
    destruct (N.compare_spec (N_of_ascii y) (N_of_ascii z))
      as [Eyz | Lyz | Gyz];
    intros H1 H2; try congruence;
    destruct (N.compare_spec (N_of_ascii x) (N_of_ascii z))
      as [Exz | Lxz | Gxz];
    split; try congruence; try (intros _; split; reflexivity);
    try (exfalso; lia); intros; exfalso; lia.
Qed.

Lemma String_compare_trans (a : string) :
  forall b c : string,
    String.compare a b <> Gt -> String.compare b c <> Gt ->
    String.compare a c <> Gt.
Proof.
  induction a as [ | x a IH]; intros b c; destruct b as [ | y b];
    destruct c as [ | z c]; simpl; try congruence.
  intros H1 H2.
  assert (Hxy : Ascii.compare x y <> Gt).
  { destruct (Ascii.compare x y); congruence. }
  assert (Hyz : Ascii.compare y z <> Gt).
  { destruct (Ascii.compare y z); congruence. }
  destruct (Ascii_compare_trans x y z Hxy Hyz) as [Hxz Heq].
  destruct (Ascii.compare x z) eqn:E; try congruence.
  destruct (Heq eq_refl) as [E1 E2]. rewrite E1 in H1. rewrite E2 in H2.
  apply (IH b c); assumption.
Qed.

Lemma String_leb_iff (a b : string) :
  String.leb a b = true <-> String.compare a b <> Gt.
Proof.
  unfold String.leb. destruct (String.compare a b); split; congruence.
Qed.

Lemma String_leb_trans (a b c : string) :
  String.leb a b = true -> String.leb b c = true -> String.leb a c = true.
Proof.
  rewrite !String_leb_iff. apply String_compare_trans.
Qed.

Lemma String_leb_refl (a : string) : String.leb a a = true.
Proof. destruct (String.leb_total a a); assumption. Qed.

Lemma String_compare_append (p a b : string) :
  String.compare (p ++ a) (p ++ b) = String.compare a b.
Proof.
  induction p as [ | c p IH]; simpl; [reflexivity | ].
  rewrite Ascii_compare_refl. exact IH.
Qed.

(** The first project in descending order of reference is one with the
    greatest reference. *)
Lemma sort_head (l : list Project.t) :
  match hd_error (sort l) with
  | Some first =>
      In first l
      /\ forall q, In q l ->
                   String.leb (Project.reference q) (Project.reference first)
                   = true
  | None => l = []
  end.
Proof.
  induction l as [ | a l IH]; simpl; [reflexivity | ].
  destruct (sort l) as [ | h t] eqn:E; simpl in *.
  - subst l. split; [left; reflexivity | ].
    intros q [Eq | []]. subst q. apply String_leb_refl.
  - destruct IH as [Hh Hmax].
    destruct (after a h) eqn:Ea; simpl.
    + split; [left; reflexivity | ].
      intros q [Eq | Hq]; [subst q; apply String_leb_refl | ].
      eapply String_leb_trans; [apply Hmax, Hq | exact Ea].
    + split; [right; exact Hh | ].
      intros q [Eq | Hq]; [subst q | apply Hmax, Hq].
      unfold after in Ea.
      destruct (String.leb_total (Project.reference a) (Project.reference h));
        congruence.
Qed.

(** [String(n).padStart(3, '0')]. *)
Local Abbreviation pad3 n :=
  (padStart 3 (String_of_number (Some (Z.of_nat n)))).

Local Abbreviation digit_of c := (nat_of_ascii c - 48)%nat.

(** The numbers below 1000, checked one by one: each is written with
    three digits, which give the number back, [parseInt] reads it back,
    its successor is written with a greater string (up to 998), and none
    is written with a string above '999'. *)
Lemma three_digit_table :
  forallb
    (fun n =>
       match pad3 n with
       | String a (String b (String c EmptyString)) =>
           (is_digit a && is_digit b && is_digit c
            && Nat.eqb (digit_of a * 100 + digit_of b * 10 + digit_of c) n
            && match parseInt (Some (pad3 n)) with
               | Some z => Z.eqb z (Z.of_nat n)
               | None => false
               end
            && String.leb (pad3 n) "999"
            && (if Nat.ltb n 999
                then negb (String.leb (pad3 (S n)) (pad3 n))
                else true))%bool
       | _ => false
       end) (seq 0 1000) = true.
Proof. vm_compute. reflexivity. Qed.

(** The years of four digits, checked one by one. *)
Lemma year_table :
  forallb
    (fun y =>
       match String_of_number (Some (Z.of_nat y)) with
       | String a (String b (String c (String d EmptyString))) =>
           (is_digit a && is_digit b && is_digit c && is_digit d)%bool
       | _ => false
       end) (seq 1000 (9 * 1000)) = true.
Proof. vm_compute. reflexivity. Qed.

Lemma pad3_facts (n : nat) :
  (n < 1000)%nat ->
  exists a b c : ascii,
    pad3 n = String a (String b (String c EmptyString))
    /\ is_digit a = true /\ is_digit b = true /\ is_digit c = true
    /\ (digit_of a * 100 + digit_of b * 10 + digit_of c)%nat = n
    /\ parseInt (Some (pad3 n)) = Some (Z.of_nat n)
    /\ String.leb (pad3 n) "999" = true
    /\ ((n < 999)%nat -> String.leb (pad3 (S n)) (pad3 n) = false).
Proof.
  intros Hn.
  pose proof three_digit_table as Htable.
  rewrite forallb_forall in Htable.
  specialize (Htable n ltac:(apply in_seq; lia)).
  destruct (pad3 n) as [ | a [ | b [ | c [ | ? ?]]]]; try discriminate.
  rewrite !andb_true_iff in Htable.
  destruct Htable as [[[[[[Ha Hb] Hc] Hv] Hp] Hle] Hnext].
  exists a, b, c. split; [reflexivity | ].
  split; [exact Ha | ]. split; [exact Hb | ]. split; [exact Hc | ].
  split; [apply Nat.eqb_eq; exact Hv | ].
  split.
  { destruct (parseInt _) as [z | ]; [ | discriminate].
    apply Z.eqb_eq in Hp. congruence. }
  split; [exact Hle | ].
  intros Hlt. apply Nat.ltb_lt in Hlt. rewrite Hlt in Hnext.
  apply negb_true_iff. exact Hnext.
Qed.

Lemma is_digit_range (c : ascii) :
  is_digit c = true -> (48 <= nat_of_ascii c <= 57)%nat.
Proof.
  unfold is_digit. intros H. apply andb_true_iff in H.
  destruct H as [H1 H2]. apply Nat.leb_le in H1. apply Nat.leb_le in H2. lia.
Qed.

Lemma is_digit_not_dash (c : ascii) :
  is_digit c = true -> Ascii.eqb c "-" = false.
Proof.
  intros H. destruct (Ascii.eqb_spec c "-") as [-> | _]; [ | reflexivity].
  discriminate H.
Qed.

Lemma same_digit (a b : ascii) :
  is_digit a = true -> is_digit b = true ->
  digit_of a = digit_of b -> a = b.
Proof.
  intros Ha Hb E.
  apply is_digit_range in Ha. apply is_digit_range in Hb.
  rewrite <- (ascii_nat_embedding a), <- (ascii_nat_embedding b).
  f_equal. lia.
Qed.

(** Three digits are the three digits of a number below 1000. *)
Lemma three_digits (a b c : ascii) :
  is_digit a = true -> is_digit b = true -> is_digit c = true ->
  exists n : nat,
    (n < 1000)%nat /\ String a (String b (String c EmptyString)) = pad3 n.
Proof.
  intros Ha Hb Hc.
  pose proof (is_digit_range a Ha) as Ra.
  pose proof (is_digit_range b Hb) as Rb.
  pose proof (is_digit_range c Hc) as Rc.
  exists (digit_of a * 100 + digit_of b * 10 + digit_of c)%nat.
  assert (Hn : (digit_of a * 100 + digit_of b * 10 + digit_of c < 1000)%nat)
    by lia.
  split; [exact Hn | ].
  destruct (pad3_facts _ Hn)
    as [a' [b' [c' [E [Ha' [Hb' [Hc' [Hv _]]]]]]]].
  rewrite E.
  pose proof (is_digit_range a' Ha') as Ra'.
  pose proof (is_digit_range b' Hb') as Rb'.
  pose proof (is_digit_range c' Hc') as Rc'.
  rewrite (same_digit a a' Ha Ha') by lia.
  rewrite (same_digit b b' Hb Hb') by lia.
  rewrite (same_digit c c' Hc Hc') by lia.
  reflexivity.
Qed.

(** The prefix of a year of four digits. *)
Lemma prefix_of_form (currentYear : nat) :
  (1000 <= Z.of_nat currentYear < 10000)%Z ->
  exists a b c d : ascii,
    prefix_of currentYear
    = String "O" (String "B" (String "R" (String "-"
        (String a (String b (String c (String d (String "-" ""))))))))
    /\ is_digit a = true /\ is_digit b = true /\ is_digit c = true
    /\ is_digit d = true.
Proof.
  intros Hy.
  pose proof year_table as Htable.
  rewrite forallb_forall in Htable.
  specialize (Htable currentYear ltac:(apply in_seq; lia)).
  unfold prefix_of.
  destruct (String_of_number (Some (Z.of_nat currentYear)))
    as [ | a [ | b [ | c [ | d [ | ? ?]]]]]; try discriminate.
  rewrite !andb_true_iff in Htable.
  exists a, b, c, d. split; [reflexivity | tauto].
Qed.

(** A stored reference is 'OBR-', four digits, a dash and three digits. *)
Lemma matches_pattern_form (reference : string) :
  matches_pattern reference = true ->
  exists y0 y1 y2 y3 n0 n1 n2 : ascii,
    reference
    = String "O" (String "B" (String "R" (String "-"
        (String y0 (String y1 (String y2 (String y3 (String "-"
           (String n0 (String n1 (String n2 "")))))))))))
    /\ is_digit y0 = true /\ is_digit y1 = true /\ is_digit y2 = true
    /\ is_digit y3 = true /\ is_digit n0 = true /\ is_digit n1 = true
    /\ is_digit n2 = true.
Proof.
  unfold matches_pattern. intros H.
  destruct reference as [ | c0 [ | c1 [ | c2 [ | c3 [ | y0 [ | y1 [ | y2
    [ | y3 [ | c8 [ | n0 [ | n1 [ | n2 [ | ? ?]]]]]]]]]]]]];
    try discriminate H.
  cbn [list_ascii_of_string] in H.
  rewrite !andb_true_iff in H.
  destruct H as [[[[[[[[[[[H0 H1] H2] H3] Hy0] Hy1] Hy2] Hy3] H8] Hn0] Hn1]
                   Hn2].
  apply Ascii.eqb_eq in H0, H1, H2, H3, H8. subst.
  exists y0, y1, y2, y3, n0, n1, n2. split; [reflexivity | tauto].
Qed.

Lemma prefix_append (p s : string) : String.prefix p (p ++ s) = true.
Proof.
  induction p as [ | c p IH]; simpl; [destruct s; reflexivity | ].
  destruct (ascii_dec c c) as [_ | Hc]; [exact IH | contradiction].
Qed.

Lemma prefix_inv (p : string) :
  forall r : string, String.prefix p r = true -> exists e, r = p ++ e.
Proof.
  induction p as [ | c p IH]; intros r H.
  - exists r. reflexivity.
  - destruct r as [ | c' r]; [discriminate H | ].
    simpl in H. destruct (ascii_dec c c') as [<- | _]; [ | discriminate H].
    destruct (IH r H) as [e ->]. exists e. reflexivity.
Qed.

Lemma append_length (a b : string) :
  String.length (a ++ b) = (String.length a + String.length b)%nat.
Proof. induction a as [ | c a IH]; simpl; [reflexivity | now rewrite IH]. Qed.

Lemma append_inj (p a b : string) : p ++ a = p ++ b -> a = b.
Proof.
  induction p as [ | c p IH]; simpl; intros H; [exact H | ].
  injection H as H. exact (IH H).
Qed.

Lemma matches_pattern_length (reference : string) :
  matches_pattern reference = true -> String.length reference = 12%nat.
Proof.
  intros H. destruct (matches_pattern_form _ H) as (? & ? & ? & ? & ? & ? & ?
    & -> & _). reflexivity.
Qed.

(** What [generateReference] returns over valid stored references: the
    number 001 when the year has none, and otherwise the number after the
    one of the greatest stored reference of the year. *)
Lemma generateReference_cases (coll : list Project.t) (currentYear : nat) :
  (1000 <= Z.of_nat currentYear < 10000)%Z ->
  (forall p, In p coll -> matches_pattern (Project.reference p) = true) ->
  ((forall p, In p coll ->
      String.prefix (prefix_of currentYear) (Project.reference p) = false)
   /\ generateReference coll currentYear = prefix_of currentYear ++ "001")
  \/ (exists (last : Project.t) (n : nat),
        In last coll /\ (n < 1000)%nat
        /\ Project.reference last = prefix_of currentYear ++ pad3 n
        /\ (forall q, In q coll ->
              String.prefix (prefix_of currentYear) (Project.reference q)
              = true ->
              String.leb (Project.reference q) (Project.reference last)
              = true)
        /\ generateReference coll currentYear
           = prefix_of currentYear ++ pad3 (S n)).
Proof.
  intros Hy Hvalid. unfold generateReference.
  pose proof
    (sort_head
       (filter (fun p => String.prefix (prefix_of currentYear)
                           (Project.reference p)) coll)) as Hhead.
  destruct (hd_error _) as [last | ].
  - right. destruct Hhead as [Hin Hmax].
    apply filter_In in Hin. destruct Hin as [Hin Hpre].
    destruct (matches_pattern_form _ (Hvalid _ Hin))
      as (y0 & y1 & y2 & y3 & n0 & n1 & n2 & Er & Hy0 & Hy1 & Hy2 & Hy3
          & Hn0 & Hn1 & Hn2).
    destruct (prefix_of_form _ Hy) as (a & b & c & d & Ep & _).
    destruct (three_digits n0 n1 n2 Hn0 Hn1 Hn2) as [n [Hn En]].
    assert (Eref : Project.reference last = prefix_of currentYear ++ pad3 n).
    { destruct (prefix_inv _ _ Hpre) as [e Ee]. rewrite Ee. f_equal.
      rewrite Er, Ep in Ee. cbn [append] in Ee.
      injection Ee as _ _ _ _ Ee. rewrite <- En. symmetry. exact Ee. }
    exists last, n.
    split; [exact Hin | ]. split; [exact Hn | ]. split; [exact Eref | ].
    split.
    + intros q Hq Hqpre. apply Hmax. apply filter_In. split; assumption.
    + f_equal.
      assert (Esplit :
                nth_error (split (Project.reference last)) 2
                = Some (pad3 n)).
      { rewrite Er. cbn [split].
        rewrite (is_digit_not_dash y0 Hy0), (is_digit_not_dash y1 Hy1),
          (is_digit_not_dash y2 Hy2), (is_digit_not_dash y3 Hy3),
          (is_digit_not_dash n0 Hn0), (is_digit_not_dash n1 Hn1),
          (is_digit_not_dash n2 Hn2).
        cbn. rewrite En. reflexivity. }
      rewrite Esplit.
      destruct (pad3_facts n Hn) as (_ & _ & _ & _ & _ & _ & _ & _ & Hp & _).
      rewrite Hp. cbn [option_map].
      rewrite Nat2Z.inj_succ. reflexivity.
  - left. split; [ | reflexivity].
    intros p Hp.
    destruct (String.prefix (prefix_of currentYear) (Project.reference p))
      eqn:Hpre; [ | reflexivity].
    assert (Hin : In p (filter (fun p => String.prefix
                       (prefix_of currentYear) (Project.reference p)) coll))
      by (apply filter_In; split; assumption).
    rewrite Hhead in Hin. destruct Hin.
Qed.

Lemma matches_pattern_pad3 (currentYear n : nat) :
  (1000 <= Z.of_nat currentYear < 10000)%Z -> (n < 1000)%nat ->
  matches_pattern (prefix_of currentYear ++ pad3 n) = true.
Proof.
  intros Hy Hn.
  destruct (prefix_of_form _ Hy) as (a & b & c & d & -> & Ha & Hb & Hc & Hd).
  destruct (pad3_facts n Hn) as (x & y & z & -> & Hx & Hy' & Hz & _).
  unfold matches_pattern. cbn [append list_ascii_of_string].
  rewrite Ha, Hb, Hc, Hd, Hx, Hy', Hz. reflexivity.
Qed.

Lemma pad3_999 (n : nat) : (n < 1000)%nat -> pad3 n = "999" -> n = 999%nat.
Proof.
  intros Hn E.
  destruct (pad3_facts n Hn) as (x & y & z & E' & _ & _ & _ & Hv & _).
  rewrite E in E'. injection E' as <- <- <-. rewrite <- Hv. reflexivity.
Qed.

Lemma existsb_reference (coll : list Project.t) (reference : string) :
  existsb (fun p => String.eqb (Project.reference p) reference) coll = true
  <-> exists p, In p coll /\ Project.reference p = reference.
Proof.
  rewrite existsb_exists. split; intros [p [Hin E]]; exists p; split;
    try assumption; apply String.eqb_eq; exact E.
Qed.

(** [Project.generateReference] is fresh.  With stored references
    that follow the pattern of the schema and a year of four digits, the
    generated reference is not among the stored ones.  It follows the
    pattern itself unless the reference numbered 999 of the year is
    stored: then the result ends in 1000 and the schema refuses it. *)
Theorem generateReference_fresh
    (coll : list Project.t) (currentYear : nat)
    (Hyear : (1000 <= Z.of_nat currentYear < 10000)%Z)
    (Hvalid : forall p, In p coll ->
                matches_pattern (Project.reference p) = true) :
  (forall p, In p coll ->
     Project.reference p <> generateReference coll currentYear)
  /\ matches_pattern (generateReference coll currentYear)
     = negb (existsb (fun p => String.eqb (Project.reference p)
                                 (prefix_of currentYear ++ "999")) coll)
  /\ (existsb (fun p => String.eqb (Project.reference p)
                          (prefix_of currentYear ++ "999")) coll = true ->
      generateReference coll currentYear = prefix_of currentYear ++ "1000").
Proof.
  destruct (generateReference_cases coll currentYear Hyear Hvalid)
    as [[Hnone ->] | (last & n & Hin & Hn & Eref & Hmax & ->)].
  - assert (Hno : existsb (fun p => String.eqb (Project.reference p)
                     (prefix_of currentYear ++ "999")) coll = false).
    { destruct (existsb _ coll) eqn:E; [ | reflexivity].
      apply existsb_reference in E. destruct E as [p [Hp E]].
      pose proof (Hnone p Hp) as Hpre.
      rewrite E, prefix_append in Hpre. discriminate Hpre. }
    split; [ | split].
    + intros p Hp E. pose proof (Hnone p Hp) as Hpre.
      rewrite E, prefix_append in Hpre. discriminate Hpre.
    + rewrite Hno. apply (matches_pattern_pad3 currentYear 1 Hyear). lia.
    + rewrite Hno. discriminate.
  - destruct (pad3_facts n Hn) as (_ & _ & _ & _ & _ & _ & _ & _ & _ & Hle
                                    & Hnext).
    destruct (Nat.eq_dec n 999) as [-> | Hne].
    + assert (Hyes : existsb (fun p => String.eqb (Project.reference p)
                        (prefix_of currentYear ++ "999")) coll = true).
      { apply existsb_reference. exists last. split; [exact Hin | ].
        exact Eref. }
      change (pad3 (S 999)) with "1000".
      assert (Hlong : matches_pattern (prefix_of currentYear ++ "1000")
                      = false).
      { destruct (matches_pattern _) eqn:E; [ | reflexivity].
        apply matches_pattern_length in E.
        pose proof (matches_pattern_length _ (Hvalid _ Hin)) as E'.
        rewrite Eref in E'. rewrite append_length in E, E'.
        change (String.length (pad3 999)) with 3%nat in E'.
        change (String.length "1000") with 4%nat in E. lia. }
      split; [ | split].
      * intros p Hp E. pose proof (Hvalid p Hp) as Hpat.
        rewrite E, Hlong in Hpat. discriminate Hpat.
      * rewrite Hyes. exact Hlong.
      * intros _. reflexivity.
    + assert (Hlt : (n < 999)%nat) by lia.
      assert (Hno : existsb (fun p => String.eqb (Project.reference p)
                       (prefix_of currentYear ++ "999")) coll = false).
      { destruct (existsb _ coll) eqn:E; [ | reflexivity].
        apply existsb_reference in E. destruct E as [p [Hp E]].
        assert (Hpre : String.prefix (prefix_of currentYear)
                         (Project.reference p) = true)
          by (rewrite E; apply prefix_append).
        pose proof (Hmax p Hp Hpre) as Hord.
        rewrite E, Eref in Hord. unfold String.leb in Hord, Hle.
        rewrite String_compare_append in Hord.
        fold (String.leb "999" (pad3 n)) in Hord.
        fold (String.leb (pad3 n) "999") in Hle.
        pose proof (String.leb_antisym _ _ Hord Hle) as E9.
        symmetry in E9. apply (pad3_999 n Hn) in E9. lia. }
      split; [ | split].
      * intros p Hp E.
        assert (Hpre : String.prefix (prefix_of currentYear)
                         (Project.reference p) = true)
          by (rewrite E; apply prefix_append).
        pose proof (Hmax p Hp Hpre) as Hord.
        rewrite E, Eref in Hord. unfold String.leb in Hord.
        rewrite String_compare_append in Hord.
        fold (String.leb (pad3 (S n)) (pad3 n)) in Hord.
        rewrite (Hnext Hlt) in Hord. discriminate Hord.
      * rewrite Hno. apply (matches_pattern_pad3 currentYear (S n) Hyear).
        lia.
      * rewrite Hno. discriminate.
Qed.

(** [generateReference_fresh] at two projects of 2025 and one of 2024,
    in 2025. *)
Lemma generateReference_fresh_witness :
  (forall p, In p ScenarioReference.projects ->
     Project.reference p
     <> generateReference ScenarioReference.projects 2025)
  /\ matches_pattern (generateReference ScenarioReference.projects 2025)
     = negb (existsb (fun p => String.eqb (Project.reference p)
                                 (prefix_of 2025 ++ "999"))
               ScenarioReference.projects)
  /\ (existsb (fun p => String.eqb (Project.reference p)
                          (prefix_of 2025 ++ "999"))
        ScenarioReference.projects = true ->
      generateReference ScenarioReference.projects 2025
      = prefix_of 2025 ++ "1000").
Proof.
  apply (generateReference_fresh ScenarioReference.projects 2025).
  - lia.
  - intros p [<- | [<- | [<- | []]]]; reflexivity.
Defined.

End ReferenceFacts.
